(** * Session state machine of the petition-drafting client

    A shallow embedding of the two client variants of the repository:

    - the chat variant, component [Home] (handlers [handleSubmit] and
      [handleFeedback]) together with the same-origin feedback relay
      [app/api/feedback/route.ts];
    - the structured variant, component [PetitionChatbot] of [src/App.jsx]
      (the [API] service, [handleSendMessage], [handleGeneratePetition],
      [handleFinalize] and the validation banner);
    - what the two views wire to these handlers ([ChatUI]: the key
      handler, the comment editor, the exported text; [StructuredUI]: the
      start-up tasks, the document export, the draft preview).

    React state is a record; a handler is a computation in a small
    state-and-exception monad over a world made of that record and the
    trace of the effects the handler performed (requests, alerts, prompts,
    console output, timers).  A handler closes over the values of the
    render in which it was created: every handler therefore takes that
    snapshot as an argument and reads [input], [loading], [messages], ...
    from it, while the [setX] calls act on the world.  A handler run on
    its own is run to its end.  What happens at an [await] while other
    events arrive is modelled where it matters: [ChatUI] splits the
    handlers of the chat page at their [await] and interleaves them with
    the user's actions, and [StructuredUI] does so for the two start-up
    tasks.  A reply the code reads without relying on its shape is a
    JSON value ([Json]). *)

From Stdlib Require Import List Bool NArith ZArith Lia String Ascii.
From Stdlib Require Import Floats.
From Stdlib Require Import DecimalString.
Import ListNotations.

Set Implicit Arguments.
Set Warnings "-inexact-float,-register-all".

(** ** JavaScript strings *)

(** A JavaScript string is a sequence of UTF-16 code units. *)
Definition jsstring := list N.

(** A literal whose characters are all ASCII. *)
Fixpoint lit (s : string) : jsstring :=
  match s with
  | EmptyString => []
  | String c s' => N_of_ascii c :: lit s'
  end.
Arguments lit : simpl never.

(** ECMAScript [WhiteSpace] and [LineTerminator] code units: what
    [String.prototype.trim] strips. *)
Definition isWhiteSpace (c : N) : bool :=
  ((9 <=? c) && (c <=? 13)            (* TAB, LF, VT, FF, CR *)
   || (c =? 32)                       (* SPACE *)
   || (c =? 160)                      (* NO-BREAK SPACE *)
   || (c =? 5760)                     (* U+1680 *)
   || ((8192 <=? c) && (c <=? 8202))  (* U+2000 .. U+200A *)
   || (c =? 8232) || (c =? 8233)      (* LINE / PARAGRAPH SEPARATOR *)
   || (c =? 8239)                     (* U+202F *)
   || (c =? 8287)                     (* U+205F *)
   || (c =? 12288)                    (* U+3000 *)
   || (c =? 65279))%N.                (* U+FEFF *)

Fixpoint trimStart (s : jsstring) : jsstring :=
  match s with
  | [] => []
  | c :: s' => if isWhiteSpace c then trimStart s' else s
  end.

Definition trimEnd (s : jsstring) : jsstring := rev (trimStart (rev s)).

(** [s.trim()] *)
Definition trim (s : jsstring) : jsstring := trimEnd (trimStart s).

(** The text is empty or consists of white space only. *)
Definition blank (s : jsstring) : bool := forallb isWhiteSpace s.

(** ** Truthiness and strict equality *)

(** ToBoolean on a string: only the empty string is falsy. *)
Definition truthy_string (s : jsstring) : bool :=
  match s with [] => false | _ :: _ => true end.

(** ToBoolean on a value that is a string, or [null] / [undefined]. *)
Definition truthy (v : option jsstring) : bool :=
  match v with None => false | Some s => truthy_string s end.

Definition jsstring_eqb (a b : jsstring) : bool :=
  if list_eq_dec N.eq_dec a b then true else false.

(** [a === b] on values that are strings or absent. *)
Definition strict_eq (a b : option jsstring) : bool :=
  match a, b with
  | None, None => true
  | Some x, Some y => jsstring_eqb x y
  | _, _ => false
  end.

(** [a || b] where [a] is a string and [b] is [null]. *)
Definition or_null (a : jsstring) : option jsstring :=
  if truthy_string a then Some a else None.

(** ** Arrays *)

(** [arr.slice(start)]: a negative [start] counts from the end, and the
    resulting index is clamped to the array. *)
Definition slice {A : Type} (start : Z) (arr : list A) : list A :=
  let len := Z.of_nat (List.length arr) in
  let k := if (start <? 0)%Z then Z.max (len + start) 0 else Z.min start len in
  skipn (Z.to_nat k) arr.

(** ** Errors and effectful computations *)

(** A thrown [Error] object; only its [message] is ever read. *)
Record Error : Type := mkError { message : jsstring }.

Inductive Result (A : Type) : Type :=
| Ok (a : A)
| Throw (e : Error).
Arguments Ok {A} a.
Arguments Throw {A} e.

(** A computation over a world [W]: it may change the world and then
    either returns or throws.  What it did to the world before throwing
    stays done. *)
Definition M (W A : Type) : Type := W -> W * Result A.

Section Effects.
Context {W : Type}.

Definition ret {A} (a : A) : M W A := fun w => (w, Ok a).

Definition throw {A} (e : Error) : M W A := fun w => (w, Throw e).

Definition bind {A B} (m : M W A) (k : A -> M W B) : M W B :=
  fun w =>
    match m w with
    | (w1, Ok a) => k a w1
    | (w1, Throw e) => (w1, Throw e)
    end.

Definition modify (f : W -> W) : M W unit := fun w => (f w, Ok tt).

(** [try { body } catch (error) { handler error }] *)
Definition try_catch {A} (body : M W A) (handler : Error -> M W A) : M W A :=
  fun w =>
    match body w with
    | (w1, Ok a) => (w1, Ok a)
    | (w1, Throw e) => handler e w1
    end.

(** [try { body } finally { fin }]: [fin] runs on both exits and the
    completion of [body] is kept unless [fin] itself throws. *)
Definition try_finally {A} (body : M W A) (fin : M W unit) : M W A :=
  fun w =>
    match body w with
    | (w1, r) =>
        match fin w1 with
        | (w2, Ok _) => (w2, r)
        | (w2, Throw e) => (w2, Throw e)
        end
    end.

(** [try { body } catch (error) { handler error } finally { fin }] *)
Definition try_catch_finally {A}
    (body : M W A) (handler : Error -> M W A) (fin : M W unit) : M W A :=
  try_finally (try_catch body handler) fin.
End Effects.

Declare Scope js_scope.
Delimit Scope js_scope with js.
Notation "x <- m ;; k" := (bind m (fun x => k))
  (at level 61, m at next level, right associativity) : js_scope.
Notation "m ;; k" := (bind m (fun _ => k))
  (at level 61, right associativity) : js_scope.
Local Open Scope js_scope.

(** ** HTTP responses as the handlers see them *)

(** The body of a response, as [response.json()] finds it.  [P] is
    the type at which the caller reads a value other than [null]: a
    record where the caller relies on an object of the endpoint's
    shape, [Json] (below) where it takes any JSON value, a number, a
    string, a boolean or an array as well as an object. *)
Inductive Body (P : Type) : Type :=
| BodyInvalid            (* not JSON: [response.json()] rejects *)
| BodyNull               (* the JSON value [null] *)
| BodyObject (p : P).    (* another JSON value, read at the type [P] *)
Arguments BodyInvalid {P}.
Arguments BodyNull {P}.
Arguments BodyObject {P} p.

Record Response (P : Type) : Type := mkResponse {
  status : N;
  body : Body P
}.

(** [response.ok]: the status is in the range 200-299. *)
Definition ok {P} (r : Response P) : bool :=
  ((200 <=? status r) && (status r <=? 299))%N.

(** The settlement of the promise returned by [fetch]. *)
Inductive Outcome (P : Type) : Type :=
| Rejected (e : Error)          (* transport error: the promise rejects *)
| Resolved (r : Response P).    (* a response arrived, whatever its status *)
Arguments Rejected {P} e.
Arguments Resolved {P} r.

(** ** JSON values *)

(** A parsed JSON value, for the replies the component reads without
    relying on their shape. *)
Inductive Json : Type :=
| JNull
| JBool (b : bool)
| JNumber (x : float)
| JString (s : jsstring)
| JArray (items : list Json)
| JObject (members : list (jsstring * Json)).    (* in the order of the text *)

(** The value [response.json()] resolves with, [None] when it rejects.
    [BodyNull] and [BodyObject JNull] both stand for the body [null]. *)
Definition parsed (b : Body Json) : option Json :=
  match b with
  | BodyInvalid => None
  | BodyNull => Some JNull
  | BodyObject v => Some v
  end.

(** ToBoolean on a parsed value: [null], [false], zero, [NaN] and the
    empty string are falsy. *)
Definition truthyJson (v : Json) : bool :=
  match v with
  | JNull => false
  | JBool b => b
  | JNumber x => negb (x =? 0)%float && (x =? x)%float
  | JString s => truthy_string s
  | JArray _ | JObject _ => true
  end.

(** The member a parsed object has under [key]: the last one of that
    name in the text. *)
Fixpoint member (key : jsstring) (members : list (jsstring * Json))
  : option Json :=
  match members with
  | [] => None
  | (k, v) :: rest =>
      match member key rest with
      | Some later => Some later
      | None => if jsstring_eqb k key then Some v else None
      end
  end.

(** [v.key] on a value other than [null], for a key that no built-in
    prototype defines (such as [status] and [templates]): the member of
    an object, [undefined] (here [None]) on any other value. *)
Definition property (key : jsstring) (v : Json) : option Json :=
  match v with
  | JObject members => member key members
  | _ => None
  end.

(** [v === text] for a string literal [text]. *)
Definition is_string (text : jsstring) (v : option Json) : bool :=
  match v with
  | Some (JString s) => jsstring_eqb s text
  | _ => false
  end.

(** [v || []] *)
Definition or_empty (v : option Json) : Json :=
  match v with
  | Some t => if truthyJson t then t else JArray []
  | None => JArray []
  end.

(** ** The validation banner of the structured variant *)

Inductive Tier : Type := PassTier | WarnTier | FailTier.

(** The class names the banner gets for each tier. *)
Definition tierClass (t : Tier) : string :=
  match t with
  | PassTier => "bg-green-50 border-green-300"
  | WarnTier => "bg-yellow-50 border-yellow-300"
  | FailTier => "bg-red-50 border-red-300"
  end.

(** The nested conditional on [currentDraft.validation.overall_score];
    [x >= y] on numbers is [y <= x] on binary64 values and is false as
    soon as one side is NaN. *)
Definition validationTier (overall_score : float) : Tier :=
  if (0.9 <=? overall_score)%float then PassTier
  else if (0.75 <=? overall_score)%float then WarnTier
  else FailTier.

Definition validationClass (overall_score : float) : string :=
  tierClass (validationTier overall_score).

(** ** The chat variant: component [Home] *)

Module Chat.

Inductive Role : Type := user | assistant.

(** [interface Message] *)
Record Message : Type := mkMessage {
  role : Role;
  content : jsstring;
  conversationId : option jsstring;
  legalContext : option (list jsstring)
}.

(** The [useState] cells of the component. *)
Record State : Type := mkState {
  messages : list Message;
  input : jsstring;
  loading : bool;
  feedbackMode : option jsstring;
  feedbackComment : jsstring;
  showFeedbackSuccess : bool
}.

Inductive Rating : Type := up | down.

Definition is_down (r : Rating) : bool :=
  match r with down => true | up => false end.

(** The JSON body posted to [/api/petition]. *)
Record PetitionBody : Type := mkPetitionBody {
  req_message : jsstring;
  conversation_history : list Message
}.

(** The JSON body posted to [/api/feedback]. *)
Record FeedbackBody : Type := mkFeedbackBody {
  conversation_id : option jsstring;
  rating : Rating;
  comment : option jsstring;
  petition_text : jsstring
}.

Inductive Request : Type :=
| PostPetition (b : PetitionBody)
| PostFeedback (b : FeedbackBody).

(** The object [response.json()] yields for a petition reply, read at the
    type of the [Message] fields it is copied into. *)
Record PetitionData : Type := mkPetitionData {
  petition : jsstring;
  data_conversation_id : option jsstring;
  legal_context : option (list jsstring)
}.

(** The callback handed to [setTimeout]. *)
Inductive Callback : Type := HideFeedbackSuccess.

Inductive Event : Type :=
| PreventDefault
| Fetch (req : Request)
| ConsoleError (label : string) (e : Error)
| SetTimeout (callback : Callback) (delay : N).

(** What the component does not control: how each request settles, the
    [TypeError] the engine throws on a property read of [null], and the
    [SyntaxError] [response.json()] rejects with on a body that is not
    JSON. *)
Record Env : Type := mkEnv {
  petition_reply : PetitionBody -> Outcome PetitionData;
  feedback_reply : FeedbackBody -> Outcome unit;
  typeError : Error;
  syntaxError : Error
}.

Record World : Type := mkWorld {
  state : State;
  trace : list Event      (* oldest effect first *)
}.

Definition emit (e : Event) : M World unit :=
  modify (fun w => mkWorld (state w) (trace w ++ [e])).

Definition setState (f : State -> State) : M World unit :=
  modify (fun w => mkWorld (f (state w)) (trace w)).

Definition setMessages (f : list Message -> list Message) : M World unit :=
  setState (fun s => mkState (f (messages s)) (input s) (loading s)
                             (feedbackMode s) (feedbackComment s)
                             (showFeedbackSuccess s)).

Definition setInput (v : jsstring) : M World unit :=
  setState (fun s => mkState (messages s) v (loading s)
                             (feedbackMode s) (feedbackComment s)
                             (showFeedbackSuccess s)).

Definition setLoading (v : bool) : M World unit :=
  setState (fun s => mkState (messages s) (input s) v
                             (feedbackMode s) (feedbackComment s)
                             (showFeedbackSuccess s)).

Definition setFeedbackMode (v : option jsstring) : M World unit :=
  setState (fun s => mkState (messages s) (input s) (loading s)
                             v (feedbackComment s)
                             (showFeedbackSuccess s)).

Definition setFeedbackComment (v : jsstring) : M World unit :=
  setState (fun s => mkState (messages s) (input s) (loading s)
                             (feedbackMode s) v
                             (showFeedbackSuccess s)).

Definition setShowFeedbackSuccess (v : bool) : M World unit :=
  setState (fun s => mkState (messages s) (input s) (loading s)
                             (feedbackMode s) (feedbackComment s) v).

(** [await fetch(url, init)]: the request leaves, then the promise
    settles as the environment decides. *)
Definition fetch {P} (req : Request) (settle : Outcome P) : M World (Response P) :=
  emit (Fetch req) ;;
  match settle with
  | Rejected e => throw e
  | Resolved r => ret r
  end.

(** [await response.json()] *)
Definition json {P} (env : Env) (r : Response P) : M World (option P) :=
  match body r with
  | BodyInvalid => throw (syntaxError env)
  | BodyNull => ret None
  | BodyObject p => ret (Some p)
  end.

(** The turn appended when drafting fails. *)
Definition errorMessage : Message :=
  mkMessage assistant
    (lit "Sorry, there was an error generating your petition. Please try again.")
    None None.

Section Handlers.
Variable env : Env.

(** [handleSubmit], created in the render that showed [snap]. *)
Definition handleSubmit (snap : State) : M World unit :=
  emit PreventDefault ;;
  if negb (truthy_string (trim (input snap))) || loading snap then ret tt
  else
    let userMessage := mkMessage user (input snap) None None in
    setMessages (fun prev => prev ++ [userMessage]) ;;
    setInput [] ;;
    setLoading true ;;
    try_catch_finally
      (let reqBody := mkPetitionBody (content userMessage)
                                     (slice (-10) (messages snap)) in
       response <- fetch (PostPetition reqBody) (petition_reply env reqBody) ;;
       if negb (ok response)
       then throw (mkError (lit "Failed to generate petition"))
       else
         data <- json env response ;;
         match data with
         | None => throw (typeError env)
         | Some d =>
             let assistantMessage :=
               mkMessage assistant (petition d)
                         (data_conversation_id d) (legal_context d) in
             setMessages (fun prev => prev ++ [assistantMessage])
         end)
      (fun error =>
         emit (ConsoleError "Error:" error) ;;
         setMessages (fun prev => prev ++ [errorMessage]))
      (setLoading false).

(** [handleFeedback(rating, message)], created in the render that
    showed [snap]. *)
Definition handleFeedback (snap : State) (rating : Rating) (message : Message)
  : M World unit :=
  if negb (truthy (conversationId message)) then ret tt
  else if is_down rating && negb (truthy (feedbackMode snap))
  then setFeedbackMode (conversationId message)
  else
    try_catch
      (let reqBody := mkFeedbackBody (conversationId message) rating
                                     (or_null (feedbackComment snap))
                                     (content message) in
       _ <- fetch (PostFeedback reqBody) (feedback_reply env reqBody) ;;
       setShowFeedbackSuccess true ;;
       emit (SetTimeout HideFeedbackSuccess 3000) ;;
       setFeedbackMode None ;;
       setFeedbackComment [])
      (fun error => emit (ConsoleError "Error submitting feedback:" error)).
End Handlers.

(** The timer callback [() => setShowFeedbackSuccess(false)]. *)
Definition runCallback (c : Callback) : M World unit :=
  match c with HideFeedbackSuccess => setShowFeedbackSuccess false end.

(** The render shows the comment editor under a turn exactly when the
    turn is an assistant turn with a truthy [conversationId] that
    [feedbackMode] is strictly equal to. *)
Definition hasFeedbackControls (m : Message) : bool :=
  match role m with assistant => truthy (conversationId m) | user => false end.

Definition editorOpenFor (s : State) (m : Message) : bool :=
  hasFeedbackControls m && strict_eq (feedbackMode s) (conversationId m).

(** A handler is run from the state the last render showed, with an
    empty trace. *)
Definition run (h : State -> M World unit) (s : State) : World * Result unit :=
  h s (mkWorld s []).

Definition requests (t : list Event) : list Request :=
  flat_map (fun e => match e with Fetch r => [r] | _ => [] end) t.

End Chat.

(** ** The same-origin feedback relay: [app/api/feedback/route.ts] *)

Module FeedbackRoute.

(** What the backend answered the relayed request with. *)
Record Upstream : Type := mkUpstream {
  upstream_status : N;
  upstream_text : option jsstring;      (* [None]: reading the body failed *)
  content_type : option jsstring
}.

(** The [Response] the route hands back to the browser. *)
Record RouteResponse : Type := mkRouteResponse {
  route_status : N;
  route_body : jsstring;
  contentType : jsstring;
  cacheControl : option jsstring
}.

(** [new Response(body, { status })] with a body that is a string: the
    constructor throws unless the status is in 200..599 and is not one
    of the statuses that forbid a body. *)
Definition constructible (st : N) : bool :=
  ((200 <=? st) && (st <=? 599)
   && negb ((st =? 204) || (st =? 205) || (st =? 304)))%N.

(** The reply of the [catch] branch. *)
Definition badGateway : RouteResponse :=
  mkRouteResponse 502
    (lit "{" ++ [34%N] ++ lit "error" ++ [34%N] ++ lit ":" ++ [34%N]
         ++ lit "Failed to reach backend service" ++ [34%N] ++ lit "}")
    (lit "application/json") None.

Section Route.
Variable B : Type.                         (* a parsed request body *)
Variable backend : B -> option Upstream.   (* [None]: the fetch rejects *)

(** [POST(request)], where [requestBody] is what [request.json()]
    gave, [None] when it rejected. *)
Definition POST (requestBody : option B) : RouteResponse :=
  match requestBody with
  | None => badGateway
  | Some b =>
      match backend b with
      | None => badGateway
      | Some upstreamResponse =>
          match upstream_text upstreamResponse with
          | None => badGateway
          | Some responseText =>
              if constructible (upstream_status upstreamResponse)
              then mkRouteResponse
                     (upstream_status upstreamResponse)
                     responseText
                     (match content_type upstreamResponse with
                      | Some t => if truthy_string t then t
                                  else lit "application/json"
                      | None => lit "application/json"
                      end)
                     (Some (lit "no-store"))
              else badGateway
          end
      end
  end.
End Route.

End FeedbackRoute.

(** ** The structured variant: component [PetitionChatbot] *)

Module Structured.

Inductive MessageType : Type := user | assistant | system | error | warning.

(** A turn of the thread: [{ type, content, timestamp }]. *)
Record Message : Type := mkMessage {
  type : MessageType;
  content : jsstring;
  timestamp : N
}.

Record Parties : Type := mkParties {
  petitioner : jsstring;
  respondent : jsstring
}.

Record CaseData : Type := mkCaseData {
  case_type : jsstring;
  jurisdiction : jsstring;
  facts : jsstring;
  parties : Parties;
  prayers : jsstring;
  annexures : list jsstring
}.

Inductive CheckStatus : Type := pass | warn | fail.

Record Check : Type := mkCheck {
  check_name : jsstring;
  check_status : CheckStatus;
  check_message : jsstring
}.

Record Validation : Type := mkValidation {
  overall_score : float;
  checks : list Check
}.

Record DraftSection : Type := mkDraftSection {
  section_name : option jsstring;
  section_title : option jsstring;
  section_label : option jsstring;
  section_content : option jsstring;
  section_text : option jsstring
}.

Record Source : Type := mkSource {
  source_title : jsstring;
  source_section : jsstring;
  page_num : N;
  similarity_score : float;
  text_excerpt : jsstring
}.

(** The draft object a successful generation returns. *)
Record Draft : Type := mkDraft {
  draft_id : jsstring;
  sections : list DraftSection;
  validation : Validation;
  provenance : list Source;
  coverage_score : float;
  template_version : jsstring;
  created_at : jsstring
}.

(** The [useState] cells of the component. *)
Record State : Type := mkState {
  systemStatus : Json;             (* whatever the health check answered *)
  loading : bool;
  messages : list Message;
  input : jsstring;
  sessionId : option jsstring;
  currentDraft : option Draft;
  showDraft : bool;
  templates : Json;
  caseData : CaseData
}.

(** The body [API.chat] posts. *)
Record ChatBody : Type := mkChatBody {
  chat_message : jsstring;
  session_id : option jsstring
}.

(** The body [API.finalizePetition] posts. *)
Record ApproverData : Type := mkApproverData {
  approver_draft_id : jsstring;
  approver_name : option jsstring;
  approver_id : option jsstring;
  notes : jsstring
}.

Inductive Request : Type :=
| PostChat (b : ChatBody)
| PostGenerate (b : CaseData)
| PostFinalize (draftId : jsstring) (b : ApproverData).

(** A JSON object of a reply: its [detail] property, if it has one,
    and its other properties read at the shape [D] of the endpoint. *)
Record Payload (D : Type) : Type := mkPayload {
  detail : option jsstring;
  fields : D
}.

Record ChatReply : Type := mkChatReply {
  response : jsstring;
  reply_session_id : option jsstring
}.

Record FinalizeReply : Type := mkFinalizeReply {
  final_draft_id : jsstring;
  final_status : jsstring
}.

Inductive Event : Type :=
| Fetch (req : Request)
| Alert (text : jsstring)
| Prompt (text : jsstring).

(** What the component does not control: how each request settles and
    how long that takes, what the user types into a [prompt] ([None]
    when the dialog is cancelled), and the [TypeError] the engine throws
    on a property read of [null]. *)
Record Env : Type := mkEnv {
  chat_reply : ChatBody -> Outcome (Payload ChatReply);
  generate_reply : CaseData -> Outcome (Payload Draft);
  finalize_reply : jsstring -> ApproverData -> Outcome (Payload FinalizeReply);
  elapsed : Request -> N;
  prompt_reply : jsstring -> option jsstring;
  typeError : Error
}.

Record World : Type := mkWorld {
  state : State;
  trace : list Event;     (* oldest effect first *)
  clock : N
}.

Definition emit (e : Event) : M World unit :=
  modify (fun w => mkWorld (state w) (trace w ++ [e]) (clock w)).

Definition setState (f : State -> State) : M World unit :=
  modify (fun w => mkWorld (f (state w)) (trace w) (clock w)).

(** [new Date()] *)
Definition newDate : M World N := fun w => (w, Ok (clock w)).

Definition setLoading (v : bool) : M World unit :=
  setState (fun s => mkState (systemStatus s) v (messages s) (input s)
                             (sessionId s) (currentDraft s) (showDraft s)
                             (templates s) (caseData s)).

Definition setMessages (f : list Message -> list Message) : M World unit :=
  setState (fun s => mkState (systemStatus s) (loading s) (f (messages s))
                             (input s) (sessionId s) (currentDraft s)
                             (showDraft s) (templates s) (caseData s)).

Definition setInput (v : jsstring) : M World unit :=
  setState (fun s => mkState (systemStatus s) (loading s) (messages s) v
                             (sessionId s) (currentDraft s) (showDraft s)
                             (templates s) (caseData s)).

Definition setSessionId (v : option jsstring) : M World unit :=
  setState (fun s => mkState (systemStatus s) (loading s) (messages s)
                             (input s) v (currentDraft s) (showDraft s)
                             (templates s) (caseData s)).

Definition setCurrentDraft (v : option Draft) : M World unit :=
  setState (fun s => mkState (systemStatus s) (loading s) (messages s)
                             (input s) (sessionId s) v (showDraft s)
                             (templates s) (caseData s)).

Definition setShowDraft (v : bool) : M World unit :=
  setState (fun s => mkState (systemStatus s) (loading s) (messages s)
                             (input s) (sessionId s) (currentDraft s) v
                             (templates s) (caseData s)).

Definition alert (text : jsstring) : M World unit := emit (Alert text).

Section Handlers.
Variable env : Env.

(** [prompt(text)] *)
Definition prompt (text : jsstring) : M World (option jsstring) :=
  emit (Prompt text) ;;
  ret (prompt_reply env text).

(** [await fetch(url, init)]: the request leaves, time passes, then
    the promise settles as the environment decides. *)
Definition fetch {P} (req : Request) (settle : Outcome P) : M World (Response P) :=
  emit (Fetch req) ;;
  modify (fun w => mkWorld (state w) (trace w) (clock w + elapsed env req)%N) ;;
  match settle with
  | Rejected e => throw e
  | Resolved r => ret r
  end.

(** [await response.json().catch(() => null)] *)
Definition json_or_null {D} (r : Response (Payload D)) : option (Payload D) :=
  match body r with
  | BodyObject p => Some p
  | BodyNull | BodyInvalid => None
  end.

(** [payload?.detail || fallback] *)
Definition detail_or {D} (payload : option (Payload D)) (fallback : jsstring)
  : jsstring :=
  match payload with
  | Some p => match detail p with
              | Some d => if truthy_string d then d else fallback
              | None => fallback
              end
  | None => fallback
  end.

(** The tail shared by the three posting methods of [API]. *)
Definition payload_of {D} (r : Response (Payload D)) (fallback : string)
  : M World (option (Payload D)) :=
  let payload := json_or_null r in
  if negb (ok r) then throw (mkError (detail_or payload (lit fallback)))
  else ret payload.

(** [API.generatePetition(data)] *)
Definition API_generatePetition (data : CaseData)
  : M World (option (Payload Draft)) :=
  r <- fetch (PostGenerate data) (generate_reply env data) ;;
  payload_of r "Failed to generate petition".

(** [API.chat(message, sessionId)] *)
Definition API_chat (message : jsstring) (sessionId : option jsstring)
  : M World (option (Payload ChatReply)) :=
  let b := mkChatBody message sessionId in
  r <- fetch (PostChat b) (chat_reply env b) ;;
  payload_of r "Chat failed".

(** [API.finalizePetition(draftId, approverData)] *)
Definition API_finalizePetition (draftId : jsstring) (approverData : ApproverData)
  : M World (option (Payload FinalizeReply)) :=
  r <- fetch (PostFinalize draftId approverData)
             (finalize_reply env draftId approverData) ;;
  payload_of r "Failed to finalize".

(** A property read on a value that may be [null]. *)
Definition read {D} (payload : option (Payload D)) : M World D :=
  match payload with
  | Some p => ret (fields p)
  | None => throw (typeError env)
  end.

(** [addSystemMessage(content, type = 'system')] *)
Definition addSystemMessage (content : jsstring) (type : MessageType)
  : M World unit :=
  ts <- newDate ;;
  setMessages (fun prev => prev ++ [mkMessage type content ts]).

(** The updater [handleSendMessage] hands to [setMessages] when the
    exchange succeeds: [prev => [...prev, {type: 'assistant', content:
    response.response, timestamp: new Date()}]].  The property read
    and [new Date()] are in the body of the updater. *)
Definition appendReply (response : option (Payload ChatReply)) : M World unit :=
  r <- read response ;;
  ts' <- newDate ;;
  setMessages (fun prev => prev ++ [mkMessage assistant (Structured.response r) ts']).

(** The updater of the [catch] block. *)
Definition appendFailure : M World unit :=
  ts' <- newDate ;;
  setMessages (fun prev =>
    prev ++ [mkMessage error
               (lit "Failed to get response. Please try again.") ts']).

(** [handleSendMessage], created in the render that showed [snap].
    React runs an updater given to a setter when it next renders, once
    the [try] statement that queued it has completed: the [try]
    statement yields the updater it queued, which runs after the
    [finally] block, and what the updater throws reaches neither the
    [catch] block nor the caller's promise but the render.  The world
    returned with such an exception holds the updates queued before the
    failing updater; the page does not get to show them. *)
Definition handleSendMessage (snap : State) : M World unit :=
  if negb (truthy_string (trim (input snap))) || loading snap then ret tt
  else
    ts <- newDate ;;
    let userMessage := mkMessage user (input snap) ts in
    setMessages (fun prev => prev ++ [userMessage]) ;;
    let currentInput := input snap in
    setInput [] ;;
    setLoading true ;;
    updater <-
      try_catch_finally
        (response <- API_chat currentInput (sessionId snap) ;;
         (if negb (truthy (sessionId snap))
          then r <- read response ;; setSessionId (reply_session_id r)
          else ret tt) ;;
         ret (appendReply response))
        (fun _ => ret appendFailure)
        (setLoading false) ;;
    updater.

(** [handleGeneratePetition], created in the render that showed
    [snap]. *)
Definition handleGeneratePetition (snap : State) : M World unit :=
  if negb (truthy_string (trim (facts (caseData snap))))
  then alert (lit "Please provide case facts before generating petition")
  else
    setLoading true ;;
    addSystemMessage
      (lit "Generating petition... This may take 30-60 seconds.") system ;;
    try_catch_finally
      (draft <- API_generatePetition (caseData snap) ;;
       setCurrentDraft (option_map (@fields Draft) draft) ;;
       setShowDraft true ;;
       addSystemMessage
         (10003%N :: lit " Petition draft generated successfully! Review the draft and validation results below.")
         system)
      (fun e =>
         addSystemMessage (lit "Error generating petition: " ++ message e) error)
      (setLoading false).

(** [String(v)] inside a template literal. *)
Definition toString (v : option jsstring) : jsstring :=
  match v with Some s => s | None => lit "null" end.

(** [handleFinalize], created in the render that showed [snap]. *)
Definition handleFinalize (snap : State) : M World unit :=
  match currentDraft snap with
  | None => ret tt
  | Some draft =>
      approverName <- prompt (lit "Enter your name:") ;;
      approverId <- prompt (lit "Enter your Bar Council ID:") ;;
      if negb (truthy approverName) || negb (truthy approverId)
      then alert (lit "Approver details required")
      else
        setLoading true ;;
        try_catch_finally
          (payload <- API_finalizePetition (draft_id draft)
                        (mkApproverData (draft_id draft) approverName approverId
                                        (lit "Approved for filing")) ;;
           result <- read payload ;;
           alert (lit "Petition finalized successfully!" ++ [10%N]
                    ++ lit "Draft ID: " ++ final_draft_id result ++ [10%N]
                    ++ lit "Status: " ++ final_status result) ;;
           addSystemMessage
             (lit "Petition finalized by " ++ toString approverName
                ++ lit " (" ++ toString approverId ++ lit ")") system)
          (fun e => alert (lit "Error: " ++ message e))
          (setLoading false)
  end.
End Handlers.

(** A handler is run from the state the last render showed, at some
    time of day, with an empty trace. *)
Definition run (h : State -> M World unit) (s : State) (now : N)
  : World * Result unit :=
  h s (mkWorld s [] now).

Definition requests (t : list Event) : list Request :=
  flat_map (fun e => match e with Fetch r => [r] | _ => [] end) t.

End Structured.

(** ** Derived notions used by the statements *)

(** The body of the request [handleSubmit] sends from the state [s]. *)
Definition chat_request (s : Chat.State) : Chat.PetitionBody :=
  Chat.mkPetitionBody (Chat.input s) (slice (-10) (Chat.messages s)).

(** The turn [handleSubmit] appends once the request has settled. *)
Definition chat_reply_turn (env : Chat.Env) (s : Chat.State) : Chat.Message :=
  match Chat.petition_reply env (chat_request s) with
  | Resolved r =>
      if ok r then
        match body r with
        | BodyObject d =>
            Chat.mkMessage Chat.assistant (Chat.petition d)
                           (Chat.data_conversation_id d) (Chat.legal_context d)
        | BodyNull | BodyInvalid => Chat.errorMessage
        end
      else Chat.errorMessage
  | Rejected _ => Chat.errorMessage
  end.


(** The body of the request [handleFeedback] sends for the turn [m]. *)
Definition chat_feedback_request (s : Chat.State) (rating : Chat.Rating)
    (m : Chat.Message) : Chat.FeedbackBody :=
  Chat.mkFeedbackBody (Chat.conversationId m) rating
                      (or_null (Chat.feedbackComment s)) (Chat.content m).

(** The request [handleSendMessage] sends from the state [s]. *)
Definition structured_request (s : Structured.State) : Structured.ChatBody :=
  Structured.mkChatBody (Structured.input s) (Structured.sessionId s).

(** The turn [handleSendMessage] appends when the exchange fails. *)
Definition structured_error_turn (ts : N) : Structured.Message :=
  Structured.mkMessage Structured.error
    (lit "Failed to get response. Please try again.") ts.

(** The exchange fails: the promise rejects, or the status is not a
    success status, or the body of a success reply is no JSON object. *)
Definition structured_exchange_fails
    (o : Outcome (Structured.Payload Structured.ChatReply)) : Prop :=
  match o with
  | Rejected _ => True
  | Resolved r =>
      ok r = false
      \/ match body r with BodyObject _ => False | _ => True end
  end.

(** ** A worked session

    The end-to-end scenario of the specification, and the replies a
    backend that is down produces, through the relay and without it. *)

Definition ex_text : jsstring :=
  lit "I need a civil petition for property dispute regarding inheritance".

Definition ex_data : Chat.PetitionData :=
  Chat.mkPetitionData (lit "PETITION...") (Some (lit "abc123"))
    (Some [lit "Section 42 of the Specific Relief Act..."]).

Definition ex_failed_to_fetch : Error := mkError (lit "Failed to fetch").

(** A backend that answers every request with status 200. *)
Definition ex_chat_env_up : Chat.Env :=
  Chat.mkEnv (fun _ => Resolved (mkResponse 200 (BodyObject ex_data)))
             (fun _ => Resolved (mkResponse 200 (BodyObject tt)))
             (mkError (lit "Cannot read properties of null"))
             (mkError (lit "Unexpected end of JSON input")).

(** No network: every promise rejects. *)
Definition ex_chat_env_offline : Chat.Env :=
  Chat.mkEnv (fun _ => Rejected ex_failed_to_fetch)
             (fun _ => Rejected ex_failed_to_fetch)
             (mkError (lit "Cannot read properties of null"))
             (mkError (lit "Unexpected end of JSON input")).

(** The relay answers, the backend behind it cannot be reached: every
    reply has the status and body of [FeedbackRoute.badGateway]. *)
Definition ex_chat_env_bad_gateway : Chat.Env :=
  Chat.mkEnv
    (fun _ => Resolved (mkResponse (FeedbackRoute.route_status FeedbackRoute.badGateway)
                                   BodyInvalid))
    (fun b => Resolved (mkResponse
                          (FeedbackRoute.route_status
                             (FeedbackRoute.POST (fun _ : Chat.FeedbackBody => None)
                                                 (Some b)))
                          (BodyObject tt)))
    (mkError (lit "Cannot read properties of null"))
    (mkError (lit "Unexpected end of JSON input")).

Definition ex_chat_fresh : Chat.State :=
  Chat.mkState [] ex_text false None [] false.

Definition ex_turn_A : Chat.Message :=
  Chat.mkMessage Chat.assistant (lit "PETITION A") (Some (lit "conv-A")) None.

Definition ex_turn_B : Chat.Message :=
  Chat.mkMessage Chat.assistant (lit "PETITION B") (Some (lit "conv-B")) None.

(** Two rated drafts in the thread; nothing typed, no editor open. *)
Definition ex_chat_idle : Chat.State :=
  Chat.mkState
    [Chat.mkMessage Chat.user (lit "first case") None None; ex_turn_A;
     Chat.mkMessage Chat.user (lit "second case") None None; ex_turn_B]
    [] false None [] false.

(** The same thread with the editor of [ex_turn_A] open and a comment
    typed into it. *)
Definition ex_chat_editing_A : Chat.State :=
  Chat.mkState (Chat.messages ex_chat_idle) [] false
               (Some (lit "conv-A")) (lit "too long") false.

(** A request is in flight. *)
Definition ex_chat_busy : Chat.State :=
  Chat.mkState (Chat.messages ex_chat_idle) ex_text true None [] false.

Definition ex_case : Structured.CaseData :=
  Structured.mkCaseData (lit "civil_revision") (lit "Lahore High Court") []
    (Structured.mkParties [] []) [] [].

Definition ex_draft : Structured.Draft :=
  Structured.mkDraft (lit "d-1") []
    (Structured.mkValidation 0.95%float []) [] 0.5%float (lit "v1")
    (lit "2024-01-01").

Definition ex_structured_fresh : Structured.State :=
  Structured.mkState JNull false [] ex_text None None false (JArray []) ex_case.

(** A draft is shown and the facts field holds only a space and a line
    break. *)
Definition ex_structured_ready : Structured.State :=
  Structured.mkState JNull false [] (lit "   ") None (Some ex_draft) true (JArray [])
    (Structured.mkCaseData (lit "civil_revision") (lit "Lahore High Court")
       [32%N; 10%N] (Structured.mkParties [] []) [] []).

Definition ex_chat_reply : Structured.Payload Structured.ChatReply :=
  Structured.mkPayload None
    (Structured.mkChatReply (lit "A revision lies under section 115.")
                            (Some (lit "abc123"))).

(** A backend that answers every request with status 200; the user
    gives a name and then leaves the second dialog empty. *)
Definition ex_structured_env_up : Structured.Env :=
  Structured.mkEnv
    (fun _ => Resolved (mkResponse 200 (BodyObject ex_chat_reply)))
    (fun _ => Resolved (mkResponse 200 (BodyObject (Structured.mkPayload None ex_draft))))
    (fun _ _ => Resolved (mkResponse 200
                  (BodyObject (Structured.mkPayload None
                     (Structured.mkFinalizeReply (lit "d-1") (lit "finalized"))))))
    (fun _ => 1500%N)
    (fun text => if jsstring_eqb text (lit "Enter your name:")
                 then Some (lit "A. Khan") else Some [])
    (mkError (lit "Cannot read properties of null")).

(** No network: every promise rejects; the user cancels every dialog. *)
Definition ex_structured_env_offline : Structured.Env :=
  Structured.mkEnv
    (fun _ => Rejected ex_failed_to_fetch)
    (fun _ => Rejected ex_failed_to_fetch)
    (fun _ _ => Rejected ex_failed_to_fetch)
    (fun _ => 30%N)
    (fun _ => None)
    (mkError (lit "Cannot read properties of null")).

(** ** The vocabulary of the specification *)

(** The turn of the specification's data model, which both variants are
    read through: a role, a content, and the optional session reference
    and legal references.  (The time stamp, which only the structured
    variant records, plays no part in the statements below.) *)
Module Spec.
Inductive Role : Type := user | assistant | system | error | warning.

Record Turn : Type := mkTurn {
  role : Role;
  content : jsstring;
  sessionRef : option jsstring;
  legalReferences : option (list jsstring)
}.
End Spec.

Definition chat_turn (m : Chat.Message) : Spec.Turn :=
  Spec.mkTurn
    (match Chat.role m with
     | Chat.user => Spec.user
     | Chat.assistant => Spec.assistant
     end)
    (Chat.content m) (Chat.conversationId m) (Chat.legalContext m).

(** A turn object of the structured variant has the properties [type],
    [content] and [timestamp] and no other: it holds no session
    reference and no legal references. *)
Definition structured_turn (m : Structured.Message) : Spec.Turn :=
  Spec.mkTurn
    (match Structured.type m with
     | Structured.user => Spec.user
     | Structured.assistant => Spec.assistant
     | Structured.system => Spec.system
     | Structured.error => Spec.error
     | Structured.warning => Spec.warning
     end)
    (Structured.content m) None None.

(** The call succeeds with the object [p]: a response with a success
    status whose body is that JSON object. *)
Definition succeeds_with {P} (o : Outcome P) (p : P) : Prop :=
  match o with
  | Resolved r => ok r = true /\ body r = BodyObject p
  | Rejected _ => False
  end.

(** The call fails: a network error, or a status that is not a success
    status. *)
Definition transport_failure {P} (o : Outcome P) : Prop :=
  match o with
  | Resolved r => ok r = false
  | Rejected _ => True
  end.

(** The wording of C2: the thread [after] is the thread [before]
    followed by the user turn with the submitted [text] and an assistant
    turn, in that order, and the assistant turn carries the session
    reference and the legal references, when the response supplied them. *)
Definition two_turns_carrying (before after : list Spec.Turn) (text : jsstring)
    (ref : option jsstring) (refs : option (list jsstring)) : Prop :=
  exists u a,
    after = before ++ [u; a]
    /\ Spec.role u = Spec.user /\ Spec.content u = text
    /\ Spec.role a = Spec.assistant
    /\ (forall x, ref = Some x -> Spec.sessionRef a = Some x)
    /\ (forall x, refs = Some x -> Spec.legalReferences a = Some x).

(** The wording of C3: the thread [after] is the thread [before]
    followed by the user turn with the submitted [text] and a turn of
    role assistant with the fixed content [apology] and no session
    reference. *)
Definition two_turns_apology (before after : list Spec.Turn) (text : jsstring)
    (apology : jsstring) : Prop :=
  exists u a,
    after = before ++ [u; a]
    /\ Spec.role u = Spec.user /\ Spec.content u = text
    /\ Spec.role a = Spec.assistant
    /\ Spec.content a = apology
    /\ Spec.sessionRef a = None.

(** A computation that returns normally from every world. *)
Definition never_throws {W A} (m : M W A) : Prop :=
  forall w, exists a, snd (m w) = Ok a.

(** ** The rest of the chat variant: what the view wires to the state *)

Module ChatUI.

(** The values the [useState] calls start from. *)
Definition initial : Chat.State := Chat.mkState [] [] false None [] false.

(** [onChange] of the message box: [setInput(e.target.value)]. *)
Definition onInputChange (value : jsstring) : M Chat.World unit :=
  Chat.setInput value.

(** [onChange] of the comment box: [setFeedbackComment(e.target.value)]. *)
Definition onCommentChange (value : jsstring) : M Chat.World unit :=
  Chat.setFeedbackComment value.

(** [onClick] of the Cancel button of the comment editor. *)
Definition onCancel : M Chat.World unit :=
  Chat.setFeedbackMode None ;;
  Chat.setFeedbackComment [].

(** What [onKeyDown] reads of the keyboard event. *)
Record KeyEvent : Type := mkKeyEvent {
  key : jsstring;
  shiftKey : bool
}.

(** [onKeyDown] of the message box. *)
Definition onKeyDown (env : Chat.Env) (snap : Chat.State) (e : KeyEvent)
  : M Chat.World unit :=
  if jsstring_eqb (key e) (lit "Enter") && negb (shiftKey e)
  then Chat.emit Chat.PreventDefault ;; Chat.handleSubmit env snap
  else ret tt.

(** [disabled] of the Send button. *)
Definition sendDisabled (s : Chat.State) : bool :=
  negb (truthy_string (trim (Chat.input s))) || Chat.loading s.

(** [parts.join(sep)] *)
Fixpoint join (sep : jsstring) (parts : list jsstring) : jsstring :=
  match parts with
  | [] => []
  | p :: rest =>
      match rest with
      | [] => p
      | _ :: _ => p ++ sep ++ join sep rest
      end
  end.

(** [msg.role.toUpperCase()] *)
Definition roleUpperCase (r : Chat.Role) : jsstring :=
  match r with
  | Chat.user => lit "USER"
  | Chat.assistant => lit "ASSISTANT"
  end.

(** One turn of the exported text: the role in capitals, a colon and a
    space, the content. *)
Definition exportLine (msg : Chat.Message) : jsstring :=
  roleUpperCase (Chat.role msg) ++ lit ": " ++ Chat.content msg.

(** The separator between two turns: a rule of three dashes between two
    blank lines. *)
Definition exportSeparator : jsstring :=
  [10%N; 10%N] ++ lit "---" ++ [10%N; 10%N].

(** [const petitionText] of [downloadPetition]. *)
Definition petitionText (messages : list Chat.Message) : jsstring :=
  join exportSeparator (map exportLine messages).

(** [s.split(sep)[0]] for a separator of one code unit: the text before
    its first occurrence, the whole text when there is none. *)
Fixpoint splitHead (sep : N) (s : jsstring) : jsstring :=
  match s with
  | [] => []
  | c :: s' => if (c =? sep)%N then [] else c :: splitHead sep s'
  end.

(** The file [downloadPetition] hands to the browser. *)
Record SavedFile : Type := mkSavedFile {
  file_name : jsstring;
  file_type : string;
  file_text : jsstring
}.

(** [downloadPetition], where [iso] is [new Date().toISOString()]. *)
Definition downloadPetition (messages : list Chat.Message) (iso : jsstring)
  : SavedFile :=
  mkSavedFile (lit "petition_" ++ splitHead 84 iso ++ lit ".txt")
              "text/plain"
              (petitionText messages).

(** What happens to the page: what the user does, and a timer that
    fires. *)
Inductive Action : Type :=
| TypeInput (value : jsstring)
| SubmitForm
| PressKey (e : KeyEvent)
| ClickThumb (rating : Chat.Rating) (m : Chat.Message)
| TypeComment (value : jsstring)
| ClickSubmitComment (m : Chat.Message)
| ClickCancel
| TimerFires (c : Chat.Callback).

(** The handler the view wires to the action, as a function of the
    render snapshot. *)
Definition handler (env : Chat.Env) (a : Action) : Chat.State -> M Chat.World unit :=
  match a with
  | TypeInput value => fun _ => onInputChange value
  | SubmitForm => Chat.handleSubmit env
  | PressKey e => fun snap => onKeyDown env snap e
  | ClickThumb rating m => fun snap => Chat.handleFeedback env snap rating m
  | TypeComment value => fun _ => onCommentChange value
  | ClickSubmitComment m => fun snap => Chat.handleFeedback env snap Chat.down m
  | ClickCancel => fun _ => onCancel
  | TimerFires c => fun _ => Chat.runCallback c
  end.

(** The state the next render shows, when the handler has run to its
    end before anything else happens. *)
Definition step (env : Chat.Env) (s : Chat.State) (a : Action) : Chat.State :=
  Chat.state (fst (Chat.run (handler env a) s)).

(** ** The page with handlers in flight

    An [async] handler runs up to its [await fetch(...)], which sends
    the request, and hands control back to the page: the page is
    rendered and takes further actions while the request is in flight.
    The rest of the handler runs when the request has settled.  A
    callback given to [setTimeout] waits in the same way. *)

(** What the page is waiting for. *)
Inductive Pending : Type :=
| AwaitPetition (reqBody : Chat.PetitionBody)    (* [handleSubmit] at its [await] *)
| AwaitFeedback (reqBody : Chat.FeedbackBody)    (* [handleFeedback] at its [await] *)
| Timer (callback : Chat.Callback).              (* a callback not yet due *)



(** [handleSubmit] up to its [await fetch(...)]. *)
Definition handleSubmit_start (snap : Chat.State) : M Chat.World unit :=
  Chat.emit Chat.PreventDefault ;;
  if negb (truthy_string (trim (Chat.input snap))) || Chat.loading snap
  then ret tt
  else
    let userMessage := Chat.mkMessage Chat.user (Chat.input snap) None None in
    Chat.setMessages (fun prev => prev ++ [userMessage]) ;;
    Chat.setInput [] ;;
    Chat.setLoading true ;;
    let reqBody := Chat.mkPetitionBody (Chat.content userMessage)
                                       (slice (-10) (Chat.messages snap)) in
    Chat.emit (Chat.Fetch (Chat.PostPetition reqBody)).


(** [handleFeedback(rating, message)] up to its [await fetch(...)]. *)
Definition handleFeedback_start (snap : Chat.State) (rating : Chat.Rating)
    (message : Chat.Message) : M Chat.World unit :=
  if negb (truthy (Chat.conversationId message)) then ret tt
  else if Chat.is_down rating && negb (truthy (Chat.feedbackMode snap))
  then Chat.setFeedbackMode (Chat.conversationId message)
  else
    let reqBody := Chat.mkFeedbackBody (Chat.conversationId message) rating
                                       (or_null (Chat.feedbackComment snap))
                                       (Chat.content message) in
    Chat.emit (Chat.Fetch (Chat.PostFeedback reqBody)).



(** What runs at once when the action is taken: the handler the view
    wires to it, up to its [await] if it has one. *)
Definition start (a : Action) : Chat.State -> M Chat.World unit :=
  match a with
  | TypeInput value => fun _ => onInputChange value
  | SubmitForm => handleSubmit_start
  | PressKey e => fun snap =>
      if jsstring_eqb (key e) (lit "Enter") && negb (shiftKey e)
      then Chat.emit Chat.PreventDefault ;; handleSubmit_start snap
      else ret tt
  | ClickThumb rating m => fun snap => handleFeedback_start snap rating m
  | TypeComment value => fun _ => onCommentChange value
  | ClickSubmitComment m => fun snap => handleFeedback_start snap Chat.down m
  | ClickCancel => fun _ => onCancel
  | TimerFires c => fun _ => Chat.runCallback c
  end.


(** The page between two moves: the state the last render showed, and
    what is waiting, oldest first. *)
Record Page : Type := mkPage {
  store : Chat.State;
  waiting : list Pending
}.




(** The petition requests in flight. *)
Definition petitionsInFlight (l : list Pending) : list Chat.PetitionBody :=
  flat_map (fun p => match p with AwaitPetition b => [b] | _ => [] end) l.

End ChatUI.

(** The state after a rating has been posted and the promise resolved. *)
Definition chat_after_feedback (s : Chat.State) : Chat.State :=
  Chat.mkState (Chat.messages s) (Chat.input s) (Chat.loading s) None [] true.

(** The state after the editor of the turn [m] has been opened. *)
Definition chat_editor_opened (s : Chat.State) (m : Chat.Message) : Chat.State :=
  Chat.mkState (Chat.messages s) (Chat.input s) (Chat.loading s)
               (Chat.conversationId m) (Chat.feedbackComment s)
               (Chat.showFeedbackSuccess s).

(** What every reachable page of the chat variant satisfies: a
    petition request is in flight exactly while the busy flag is set,
    and never more than one; the comment buffer is empty while no
    editor is open; an open editor is the editor of an assistant turn of
    the thread that shows feedback controls; a user turn holds no
    session reference and no legal references; while the notice of
    thanks is shown, the timer that hides it is waiting; and every
    rating in flight carries a session reference. *)
Definition chat_invariant (pg : ChatUI.Page) : Prop :=
  let s := ChatUI.store pg in
  List.length (ChatUI.petitionsInFlight (ChatUI.waiting pg))
  = (if Chat.loading s then 1 else 0)%nat
  /\ (Chat.feedbackMode s = None -> Chat.feedbackComment s = [])
  /\ (forall id, Chat.feedbackMode s = Some id ->
        exists m, In m (Chat.messages s)
                  /\ Chat.hasFeedbackControls m = true
                  /\ Chat.conversationId m = Some id)
  /\ (forall m, In m (Chat.messages s) -> Chat.role m = Chat.user ->
        Chat.conversationId m = None /\ Chat.legalContext m = None)
  /\ (Chat.showFeedbackSuccess s = true ->
      In (ChatUI.Timer Chat.HideFeedbackSuccess) (ChatUI.waiting pg))
  /\ (forall b, In (ChatUI.AwaitFeedback b) (ChatUI.waiting pg) ->
        truthy (Chat.conversation_id b) = true).

(** A sequence of actions, each run from the state the one before left:
    the final state and the requests sent on the way, oldest first. *)
Fixpoint chat_play (env : Chat.Env) (s : Chat.State) (actions : list ChatUI.Action)
  : Chat.State * list Chat.Request :=
  match actions with
  | [] => (s, [])
  | a :: rest =>
      let w := fst (Chat.run (ChatUI.handler env a) s) in
      let (s', sent) := chat_play env (Chat.state w) rest in
      (s', Chat.requests (Chat.trace w) ++ sent)
  end.

(** ** The rest of the structured variant: start-up, export, draft view *)

Module StructuredUI.

(** The values the [useState] calls start from. *)
Definition initial : Structured.State :=
  Structured.mkState JNull false [] [] None None false (JArray [])
    (Structured.mkCaseData (lit "civil_revision") (lit "Lahore High Court") []
       (Structured.mkParties [] []) [] []).

Definition setSystemStatus (v : Json)
  : M Structured.World unit :=
  Structured.setState
    (fun s => Structured.mkState v (Structured.loading s) (Structured.messages s)
                (Structured.input s) (Structured.sessionId s)
                (Structured.currentDraft s) (Structured.showDraft s)
                (Structured.templates s) (Structured.caseData s)).

Definition setTemplates (v : Json) : M Structured.World unit :=
  Structured.setState
    (fun s => Structured.mkState (Structured.systemStatus s)
                (Structured.loading s) (Structured.messages s)
                (Structured.input s) (Structured.sessionId s)
                (Structured.currentDraft s) (Structured.showDraft s)
                v (Structured.caseData s)).

(** The three requests [API] sends with [GET]. *)
Inductive Request : Type :=
| GetHealth
| GetTemplates
| GetDocx (draftId : jsstring).

(** The content of a [Blob]. *)
Definition Blob : Type := list N.

(** The anchor element [handleDownloadDocx] builds. *)
Record Anchor : Type := mkAnchor {
  href : jsstring;
  download : jsstring
}.

(** The effects of this part of the component, with those of the
    handlers of [Structured] among them. *)
Inductive Event : Type :=
| Base (e : Structured.Event)
| Fetch (req : Request)
| ConsoleError (label : string) (e : Error)
| CreateObjectURL (blob : Blob)
| AppendChild (a : Anchor)
| Click (a : Anchor)
| RevokeObjectURL (url : jsstring)
| RemoveChild (a : Anchor).

(** What this part of the component does not control: how each request
    settles and how long that takes, the URL the browser makes up for a
    blob, and the errors the engine throws on a property read of [null]
    and on a body that cannot be read. *)
Record Env : Type := mkEnv {
  health_reply : Outcome Json;
  templates_reply : Outcome Json;
  docx_reply : jsstring -> Outcome Blob;
  elapsed : Request -> N;
  objectURL : Blob -> jsstring;
  typeError : Error;
  bodyError : Error
}.

Record World : Type := mkWorld {
  state : Structured.State;
  trace : list Event;     (* oldest effect first *)
  clock : N
}.

(** A computation of [Structured] run in this world: it acts on the
    state and the clock, and its effects join the trace. *)
Definition lift {A} (m : M Structured.World A) : M World A :=
  fun w =>
    match m (Structured.mkWorld (state w) [] (clock w)) with
    | (b, r) =>
        (mkWorld (Structured.state b)
                 (trace w ++ map Base (Structured.trace b))
                 (Structured.clock b),
         r)
    end.

Definition emit (e : Event) : M World unit :=
  modify (fun w => mkWorld (state w) (trace w ++ [e]) (clock w)).

Section Handlers.
Variable env : Env.

(** What [await] makes of a settled promise. *)
Definition settle {P} (o : Outcome P) : M World (Response P) :=
  match o with
  | Rejected e => throw e
  | Resolved r => ret r
  end.

(** [await fetch(url)]: the request leaves, time passes, then the
    promise settles as the environment decides. *)
Definition fetch {P} (req : Request) (o : Outcome P) : M World (Response P) :=
  emit (Fetch req) ;;
  modify (fun w => mkWorld (state w) (trace w) (clock w + elapsed env req)%N) ;;
  settle o.

(** [response.json()] *)
Definition json (r : Response Json) : M World Json :=
  match parsed (body r) with
  | None => throw (bodyError env)
  | Some v => ret v
  end.

(** [v.key]: a property read throws on [null]. *)
Definition read (key : string) (v : Json) : M World (option Json) :=
  match v with
  | JNull => throw (typeError env)
  | _ => ret (property (lit key) v)
  end.

(** [API.healthCheck()]: the status of the response is not looked at. *)
Definition API_healthCheck : M World Json :=
  response <- fetch GetHealth (health_reply env) ;;
  json response.

(** [API.getTemplates()] *)
Definition API_getTemplates : M World Json :=
  response <- fetch GetTemplates (templates_reply env) ;;
  if negb (ok response) then throw (mkError (lit "Failed to get templates"))
  else json response.

(** [API.downloadDocx(draftId)]; a response without a body gives an
    empty blob. *)
Definition API_downloadDocx (draftId : jsstring) : M World Blob :=
  response <- fetch (GetDocx draftId) (docx_reply env draftId) ;;
  if negb (ok response) then throw (mkError (lit "Failed to download DOCX"))
  else
    match body response with
    | BodyObject blob => ret blob
    | BodyNull => ret []
    | BodyInvalid => throw (bodyError env)
    end.

(** [checkSystemHealth] *)
Definition checkSystemHealth : M World unit :=
  try_catch
    (health <- API_healthCheck ;;
     lift (setSystemStatus health) ;;
     status <- read "status" health ;;
     if is_string (lit "healthy") status
     then lift (Structured.addSystemMessage
                  (lit "System initialized successfully! Ready to draft petitions.")
                  Structured.system)
     else lift (Structured.addSystemMessage
                  (lit "Warning: System health check failed. Some features may not work.")
                  Structured.warning))
    (fun _ =>
       lift (Structured.addSystemMessage
               (lit "Error: Cannot connect to backend server. Please ensure the server is running.")
               Structured.error)).

(** [loadTemplates] *)
Definition loadTemplates : M World unit :=
  try_catch
    (data <- API_getTemplates ;;
     templates <- read "templates" data ;;
     lift (setTemplates (or_empty templates)))
    (fun error => emit (ConsoleError "Error loading templates:" error)).

(** [handleDownloadDocx], created in the render that showed [snap]. *)
Definition handleDownloadDocx (snap : Structured.State) : M World unit :=
  match Structured.currentDraft snap with
  | None => ret tt
  | Some draft =>
      try_catch
        (blob <- API_downloadDocx (Structured.draft_id draft) ;;
         emit (CreateObjectURL blob) ;;
         let a := mkAnchor (objectURL env blob)
                           (lit "petition_" ++ Structured.draft_id draft
                              ++ lit ".docx") in
         emit (AppendChild a) ;;
         emit (Click a) ;;
         emit (RevokeObjectURL (objectURL env blob)) ;;
         emit (RemoveChild a))
        (fun e =>
           lift (Structured.alert (lit "Error downloading DOCX: " ++ message e)))
  end.
End Handlers.

(** A handler is run from the state the last render showed, at some
    time of day, with an empty trace. *)
Definition run (h : M World unit) (s : Structured.State) (now : N)
  : World * Result unit :=
  h (mkWorld s [] now).

Definition requests (t : list Event) : list Request :=
  flat_map (fun e => match e with Fetch r => [r] | _ => [] end) t.

(** The files the browser was made to save: the anchors clicked. *)
Definition saved (t : list Event) : list Anchor :=
  flat_map (fun e => match e with Click a => [a] | _ => [] end) t.

(** [idx + 1] in decimal digits. *)
Definition ordinal (idx : nat) : jsstring :=
  lit (NilEmpty.string_of_uint (Nat.to_uint (S idx))).

(** [v || d] for a property [v] that holds a string or is absent. *)
Definition or_else (v : option jsstring) (d : jsstring) : jsstring :=
  match v with
  | Some s => if truthy_string s then s else d
  | None => d
  end.

(** [const sectionTitle] of the draft preview:
    [section.section_name || section.title || section.label ||
     `Section ${idx + 1}`]. *)
Definition sectionTitle (section : Structured.DraftSection) (idx : nat)
  : jsstring :=
  or_else (Structured.section_name section)
    (or_else (Structured.section_title section)
       (or_else (Structured.section_label section)
          (lit "Section " ++ ordinal idx))).

(** [const sectionContent]: [section.content || section.text || '']. *)
Definition sectionContent (section : Structured.DraftSection) : jsstring :=
  or_else (Structured.section_content section)
    (or_else (Structured.section_text section) []).

(** The titles of the preview, in the order of [sections.map]. *)
Fixpoint sectionTitlesFrom (idx : nat) (sections : list Structured.DraftSection)
  : list jsstring :=
  match sections with
  | [] => []
  | section :: rest => sectionTitle section idx :: sectionTitlesFrom (S idx) rest
  end.

Definition sectionTitles (sections : list Structured.DraftSection) : list jsstring :=
  sectionTitlesFrom 0 sections.

(** [onKeyPress] of the message box:
    [e.key === 'Enter' && !e.shiftKey && handleSendMessage()]. *)
Definition onKeyPress (env : Structured.Env) (snap : Structured.State)
    (e : ChatUI.KeyEvent) : M Structured.World unit :=
  if jsstring_eqb (ChatUI.key e) (lit "Enter") && negb (ChatUI.shiftKey e)
  then Structured.handleSendMessage env snap
  else ret tt.

(** ** The effect run on mount

    [useEffect(() => { checkSystemHealth(); loadTemplates(); }, [])]
    calls the two tasks without awaiting either: each runs up to its
    [await fetch(...)], which sends its request, and hands control
    back; the rest of each task runs when its request has settled. *)

(** [checkSystemHealth] from the point where its request has settled. *)
Definition checkSystemHealth_settled (env : Env) : M World unit :=
  try_catch
    (response <- settle (health_reply env) ;;
     health <- json env response ;;
     lift (setSystemStatus health) ;;
     status <- read env "status" health ;;
     if is_string (lit "healthy") status
     then lift (Structured.addSystemMessage
                  (lit "System initialized successfully! Ready to draft petitions.")
                  Structured.system)
     else lift (Structured.addSystemMessage
                  (lit "Warning: System health check failed. Some features may not work.")
                  Structured.warning))
    (fun _ =>
       lift (Structured.addSystemMessage
               (lit "Error: Cannot connect to backend server. Please ensure the server is running.")
               Structured.error)).

(** [loadTemplates] from the point where its request has settled. *)
Definition loadTemplates_settled (env : Env) : M World unit :=
  try_catch
    (response <- settle (templates_reply env) ;;
     data <- (if negb (ok response)
              then throw (mkError (lit "Failed to get templates"))
              else json env response) ;;
     templates <- read env "templates" data ;;
     lift (setTemplates (or_empty templates)))
    (fun error => emit (ConsoleError "Error loading templates:" error)).

(** Time passes until [t], unless it is [t] or later already. *)
Definition waitUntil (t : N) : M World unit :=
  modify (fun w => mkWorld (state w) (trace w) (N.max (clock w) t)).

(** Which of the two requests settles first. *)
Inductive Schedule : Type := HealthFirst | TemplatesFirst.

(** A schedule is possible when the request it names first takes no
    longer than the other. *)
Definition possible (env : Env) (schedule : Schedule) : Prop :=
  match schedule with
  | HealthFirst => (elapsed env GetHealth <= elapsed env GetTemplates)%N
  | TemplatesFirst => (elapsed env GetTemplates <= elapsed env GetHealth)%N
  end.

(** The effect run on mount, under a schedule: both requests leave at
    the time of the mount, the health check first; a request sent at
    [t0] settles no sooner than [elapsed] later, and each task resumes
    when its own request has settled. *)
Definition onMount (env : Env) (schedule : Schedule) : M World unit :=
  t0 <- lift Structured.newDate ;;
  emit (Fetch GetHealth) ;;
  emit (Fetch GetTemplates) ;;
  match schedule with
  | HealthFirst =>
      waitUntil (t0 + elapsed env GetHealth) ;;
      checkSystemHealth_settled env ;;
      waitUntil (t0 + elapsed env GetTemplates) ;;
      loadTemplates_settled env
  | TemplatesFirst =>
      waitUntil (t0 + elapsed env GetTemplates) ;;
      loadTemplates_settled env ;;
      waitUntil (t0 + elapsed env GetHealth) ;;
      checkSystemHealth_settled env
  end.

(** The draft preview is rendered when [showDraft && currentDraft]. *)
Definition previewShown (s : Structured.State) : bool :=
  Structured.showDraft s
  && match Structured.currentDraft s with Some _ => true | None => false end.

End StructuredUI.

(** How [checkSystemHealth] classifies the settlement of its request:
    the type of the turn it appends. *)
Definition health_verdict (o : Outcome Json) : Structured.MessageType :=
  match o with
  | Resolved r =>
      match parsed (body r) with
      | None | Some JNull => Structured.error
      | Some v =>
          if is_string (lit "healthy") (property (lit "status") v)
          then Structured.system else Structured.warning
      end
  | Rejected _ => Structured.error
  end.

(** The text of the turn of each type. *)
Definition health_text (t : Structured.MessageType) : jsstring :=
  match t with
  | Structured.system =>
      lit "System initialized successfully! Ready to draft petitions."
  | Structured.warning =>
      lit "Warning: System health check failed. Some features may not work."
  | _ =>
      lit "Error: Cannot connect to backend server. Please ensure the server is running."
  end.

(** The status [checkSystemHealth] leaves in the store. *)
Definition health_stored (o : Outcome Json) (before : Json) : Json :=
  match o with
  | Resolved r =>
      match parsed (body r) with
      | Some v => v
      | None => before
      end
  | Rejected _ => before
  end.

(** The reply [loadTemplates] takes a catalog from: one with a success
    status and a JSON value other than [null]. *)
Definition templates_answer (o : Outcome Json) : option Json :=
  match o with
  | Resolved r =>
      if ok r then
        match parsed (body r) with
        | None | Some JNull => None
        | Some v => Some v
        end
      else None
  | Rejected _ => None
  end.

(** The error [loadTemplates] logs otherwise. *)
Definition templates_error (env : StructuredUI.Env) : Error :=
  match StructuredUI.templates_reply env with
  | Rejected e => e
  | Resolved r =>
      if ok r then
        match parsed (body r) with
        | None => StructuredUI.bodyError env
        | Some _ => StructuredUI.typeError env
        end
      else mkError (lit "Failed to get templates")
  end.

(** The catalog [loadTemplates] leaves in the store. *)
Definition templates_stored (o : Outcome Json) (before : Json) : Json :=
  match templates_answer o with
  | Some v => or_empty (property (lit "templates") v)
  | None => before
  end.

(** The blob [API.downloadDocx] returns, when it returns one: the body
    of a success reply. *)
Definition docx_blob (o : Outcome StructuredUI.Blob) : option StructuredUI.Blob :=
  match o with
  | Resolved r =>
      if ok r then
        match body r with
        | BodyObject blob => Some blob
        | BodyNull => Some []
        | BodyInvalid => None
        end
      else None
  | Rejected _ => None
  end.

(** The texts shown in alert boxes, oldest first. *)
Definition ui_alerts (t : list StructuredUI.Event) : list jsstring :=
  flat_map (fun e => match e with
                     | StructuredUI.Base (Structured.Alert text) => [text]
                     | _ => []
                     end) t.


(** The first turn [handleGeneratePetition] appends. *)
Definition generating_turn (ts : N) : Structured.Message :=
  Structured.mkMessage Structured.system
    (lit "Generating petition... This may take 30-60 seconds.") ts.

(** The turn it appends on success. *)
Definition generated_turn (ts : N) : Structured.Message :=
  Structured.mkMessage Structured.system
    (10003%N :: lit " Petition draft generated successfully! Review the draft and validation results below.")
    ts.

(** The body [handleFinalize] posts for the draft [draft] with the
    answers [name] and [id] of the two dialogs. *)
Definition finalize_request (draft : Structured.Draft)
    (name id : option jsstring) : Structured.ApproverData :=
  Structured.mkApproverData (Structured.draft_id draft) name id
                            (lit "Approved for filing").



(** The state after the user has typed [text] into the message box. *)
Definition structured_typed (s : Structured.State) (text : jsstring)
  : Structured.State :=
  Structured.mkState (Structured.systemStatus s) (Structured.loading s)
    (Structured.messages s) text (Structured.sessionId s)
    (Structured.currentDraft s) (Structured.showDraft s)
    (Structured.templates s) (Structured.caseData s).



(** A session of the structured variant that already holds a session
    id, with a question typed. *)
Definition ex_structured_resumed : Structured.State :=
  Structured.mkState JNull false [] ex_text (Some (lit "earlier")) None false
    (JArray []) ex_case.

(** A backend whose health endpoint answers after 40 ms with a healthy
    status and whose template endpoint answers after 25 ms with two
    templates. *)
Definition ex_structured_env_startup : StructuredUI.Env :=
  StructuredUI.mkEnv
    (Resolved (mkResponse 200
       (BodyObject (JObject [(lit "status", JString (lit "healthy"));
                             (lit "openai", JString (lit "connected"))]))))
    (Resolved (mkResponse 200
       (BodyObject (JObject [(lit "templates",
                              JArray [JString (lit "civil_revision");
                                      JString (lit "writ_petition")])]))))
    (fun _ => Rejected ex_failed_to_fetch)
    (fun req => match req with
                | StructuredUI.GetHealth => 40
                | _ => 25
                end)%N
    (fun _ => lit "blob:1")
    ex_failed_to_fetch ex_failed_to_fetch.

(** The case form filled in. *)
Definition ex_structured_filled : Structured.State :=
  Structured.mkState JNull false [] [] None None false (JArray [])
    (Structured.mkCaseData (lit "civil_revision") (lit "Lahore High Court")
       (lit "The trial court dismissed the suit on 1 March.")
       (Structured.mkParties (lit "A") (lit "B")) [] []).

(** A backend that answers every request with status 200, and a user
    who answers both dialogs. *)
Definition ex_structured_env_signed : Structured.Env :=
  Structured.mkEnv
    (Structured.chat_reply ex_structured_env_up)
    (Structured.generate_reply ex_structured_env_up)
    (Structured.finalize_reply ex_structured_env_up)
    (Structured.elapsed ex_structured_env_up)
    (fun text => if jsstring_eqb text (lit "Enter your name:")
                 then Some (lit "A. Khan") else Some (lit "LHC-1234"))
    (Structured.typeError ex_structured_env_up).


(** A draft preview with a named and an unnamed section. *)
Definition ex_sections : list Structured.DraftSection :=
  [Structured.mkDraftSection (Some (lit "FACTS")) None None (Some (lit "...")) None;
   Structured.mkDraftSection None (Some []) None None (Some (lit "..."))].
(** * Properties *)

Unset Implicit Arguments.

(** ** Strings and arrays *)

Lemma trimStart_nil_iff (s : jsstring) : trimStart s = [] <-> blank s = true.
Proof.
  unfold blank. induction s as [|c s IH]; simpl.
  - tauto.
  - destruct (isWhiteSpace c); simpl.
    + exact IH.
    + split; discriminate.
Qed.

Lemma trimStart_blank (s : jsstring) : blank (trimStart s) = blank s.
Proof.
  unfold blank. induction s as [|c s IH]; simpl.
  - reflexivity.
  - destruct (isWhiteSpace c) eqn:E; simpl.
    + exact IH.
    + now rewrite E.
Qed.

Lemma blank_rev (s : jsstring) : blank (rev s) = blank s.
Proof.
  unfold blank. induction s as [|c s IH]; simpl.
  - reflexivity.
  - rewrite forallb_app, IH. simpl. rewrite andb_true_r. apply andb_comm.
Qed.

(** [s.trim()] is the empty string exactly when [s] is empty or made of
    white space only. *)
Lemma trim_nil_iff (s : jsstring) : trim s = [] <-> blank s = true.
Proof.
  unfold trim, trimEnd. split.
  - intros H.
    assert (H' : trimStart (rev (trimStart s)) = []).
    { destruct (trimStart (rev (trimStart s))) as [|c l]; [reflexivity|].
      simpl in H. now destruct (rev l). }
    apply trimStart_nil_iff in H'.
    now rewrite blank_rev, trimStart_blank in H'.
  - intros H.
    apply trimStart_nil_iff in H. rewrite H. reflexivity.
Qed.

Lemma falsy_trim_iff (s : jsstring) :
  negb (truthy_string (trim s)) = true <-> blank s = true.
Proof.
  rewrite <- trim_nil_iff. destruct (trim s); simpl; split;
    intros; (reflexivity || discriminate).
Qed.

Lemma falsy_trim_false_iff (s : jsstring) :
  negb (truthy_string (trim s)) = false <-> blank s = false.
Proof.
  pose proof (falsy_trim_iff s) as H.
  destruct (negb (truthy_string (trim s))), (blank s); intuition congruence.
Qed.

(** [arr.slice(-n)] keeps the last [n] elements, or all of them when
    there are fewer. *)
Lemma slice_last {A} (n : nat) (arr : list A) :
  (0 < n)%nat ->
  slice (- Z.of_nat n) arr = skipn (List.length arr - n) arr.
Proof.
  intros Hn. unfold slice.
  replace (- Z.of_nat n <? 0)%Z with true by (symmetry; apply Z.ltb_lt; lia).
  f_equal. lia.
Qed.

Lemma slice_last_length {A} (n : nat) (arr : list A) :
  (0 < n)%nat ->
  List.length (slice (- Z.of_nat n) arr) = Nat.min n (List.length arr).
Proof.
  intros Hn. rewrite slice_last by assumption. rewrite length_skipn. lia.
Qed.

Lemma slice_last_suffix {A} (n : nat) (arr : list A) :
  (0 < n)%nat ->
  firstn (List.length arr - n) arr ++ slice (- Z.of_nat n) arr = arr.
Proof.
  intros Hn. rewrite slice_last by assumption. apply firstn_skipn.
Qed.

(** ** Computations that cannot throw *)

Section NeverThrows.
Context {W : Type}.

Lemma ret_never_throws {A} (a : A) : never_throws (@ret W A a).
Proof. intros w. now exists a. Qed.

Lemma modify_never_throws (f : W -> W) : never_throws (modify f).
Proof. intros w. now exists tt. Qed.

Lemma bind_never_throws {A B} (m : M W A) (k : A -> M W B) :
  never_throws m -> (forall a, never_throws (k a)) -> never_throws (bind m k).
Proof.
  intros Hm Hk w. unfold bind.
  destruct (Hm w) as [a Ha]. destruct (m w) as [w1 r]. simpl in Ha. subst r.
  apply Hk.
Qed.

(** Whatever the body does, a [try] whose [catch] and [finally] blocks
    cannot throw lets no exception through. *)
Lemma try_catch_finally_never_throws {A}
    (body : M W A) (handler : Error -> M W A) (fin : M W unit) :
  (forall e, never_throws (handler e)) ->
  never_throws fin ->
  never_throws (try_catch_finally body handler fin).
Proof.
  intros Hh Hf w. unfold try_catch_finally, try_finally, try_catch.
  destruct (body w) as [w1 [a|e]].
  - destruct (Hf w1) as [u Hu]. destruct (fin w1) as [w2 r]. simpl in Hu.
    subst r. now exists a.
  - destruct (Hh e w1) as [a Ha]. destruct (handler e w1) as [w2 r].
    simpl in Ha. subst r.
    destruct (Hf w2) as [u Hu]. destruct (fin w2) as [w3 r]. simpl in Hu.
    subst r. now exists a.
Qed.

Lemma try_catch_never_throws {A} (body : M W A) (handler : Error -> M W A) :
  (forall e, never_throws (handler e)) ->
  never_throws (try_catch body handler).
Proof.
  intros Hh w. unfold try_catch.
  destruct (body w) as [w1 [a|e]]; [now exists a|apply Hh].
Qed.
End NeverThrows.

(** ** Comparison of binary64 numbers *)

Lemma SFcompare_swap (x y : spec_float) :
  SFcompare y x = option_map CompOpp (SFcompare x y).
Proof.
  destruct x as [sx|sx| |sx mx ex], y as [sy|sy| |sy my ey]; simpl;
    try (destruct sx); try (destruct sy); try reflexivity;
    rewrite (Z.compare_antisym ex ey);
    destruct (ex ?= ey)%Z; simpl; try reflexivity;
    rewrite (Pos.compare_cont_antisym mx my Eq); simpl;
    try rewrite CompOpp_involutive; reflexivity.
Qed.

(** For a number that is not NaN, "not at least [c]" is "below [c]". *)
Lemma not_leb_iff_ltb (c s : float) (r : comparison) :
  SFcompare (Prim2SF c) (Prim2SF s) = Some r ->
  (c <=? s)%float = false <-> (s <? c)%float = true.
Proof.
  intros H. rewrite leb_spec, ltb_spec. unfold SFleb, SFltb.
  rewrite (SFcompare_swap (Prim2SF c) (Prim2SF s)), H.
  destruct r; simpl; split; intros; (reflexivity || discriminate).
Qed.

Lemma leb_true_comparable (b c s : float) :
  Prim2SF c <> S754_nan ->
  (b <=? s)%float = true ->
  exists r, SFcompare (Prim2SF c) (Prim2SF s) = Some r.
Proof.
  intros Hc. rewrite leb_spec. unfold SFleb.
  destruct (Prim2SF c) as [sc|sc| |sc mc ec]; [| |congruence|];
    destruct (Prim2SF b) as [sb|sb| |sb mb eb], (Prim2SF s) as [ss|ss| |ss ms es];
    simpl; intros H; try discriminate; eauto.
Qed.

(** ** C7: the tiers of the validation banner *)

(** The three branches of the conditional, as comparisons of binary64
    numbers. *)
Lemma validationTier_split (overall_score : float) :
  (validationTier overall_score = PassTier
     <-> (0.9 <=? overall_score)%float = true)
  /\ (validationTier overall_score = WarnTier
        <-> (0.75 <=? overall_score)%float = true
            /\ (overall_score <? 0.9)%float = true)
  /\ (validationTier overall_score = FailTier
        <-> (0.9 <=? overall_score)%float = false
            /\ ~ ((0.75 <=? overall_score)%float = true
                  /\ (overall_score <? 0.9)%float = true)).
Proof.
  assert (Hsplit : (0.75 <=? overall_score)%float = true ->
                   (0.9 <=? overall_score)%float = false
                   <-> (overall_score <? 0.9)%float = true).
  { intros H.
    destruct (@leb_true_comparable 0.75%float 0.9%float overall_score) as [r Hr];
      [vm_compute; discriminate | exact H |].
    exact (@not_leb_iff_ltb _ _ _ Hr). }
  unfold validationTier.
  destruct (0.9 <=? overall_score)%float eqn:Hp;
    destruct (0.75 <=? overall_score)%float eqn:Hw;
    repeat split; try discriminate; try reflexivity; try tauto;
    try (intros [? ?]; discriminate); try (intros [_ ?]; discriminate).
  all: try (destruct (Hsplit eq_refl) as [H1 H2]).
  all: try (intros [_ H]; apply H2 in H; discriminate).
  all: try (apply H1; reflexivity).
  all: try (intros [_ H]; apply H; split; [reflexivity|apply H1; reflexivity]).
Qed.

(** The class of the banner tells the tier. *)
Lemma validationClass_tier (overall_score : float) (t : Tier) :
  validationClass overall_score = tierClass t <-> validationTier overall_score = t.
Proof.
  unfold validationClass. split.
  - destruct (validationTier overall_score), t; simpl; intros H;
      (reflexivity || discriminate H).
  - now intros ->.
Qed.

(** C7.  For every [overall_score] the banner is displayed in the pass
    tier (the green classes) exactly when the score is at least 0.9, in
    the warn tier (the yellow classes) exactly when it is at least 0.75
    and below 0.9, and in the fail tier (the red classes) in every other
    case (a score below 0.75, or one that is not a number); both
    thresholds belong to the upper tier: 0.95 and 0.9 are displayed as
    pass, 0.8 and 0.75 as warn, 0.5 as fail.  The numbers are binary64
    values and 0.9 stands for the one nearest to it, as it does in the
    source. *)
Theorem validationClass_thresholds (overall_score : float) :
  (validationClass overall_score = "bg-green-50 border-green-300"%string
     <-> (0.9 <=? overall_score)%float = true)
  /\ (validationClass overall_score = "bg-yellow-50 border-yellow-300"%string
        <-> (0.75 <=? overall_score)%float = true
            /\ (overall_score <? 0.9)%float = true)
  /\ (validationClass overall_score = "bg-red-50 border-red-300"%string
        <-> (0.9 <=? overall_score)%float = false
            /\ ~ ((0.75 <=? overall_score)%float = true
                  /\ (overall_score <? 0.9)%float = true))
  /\ validationClass 0.95%float = "bg-green-50 border-green-300"%string
  /\ validationClass 0.8%float = "bg-yellow-50 border-yellow-300"%string
  /\ validationClass 0.5%float = "bg-red-50 border-red-300"%string
  /\ validationClass 0.9%float = "bg-green-50 border-green-300"%string
  /\ validationClass 0.75%float = "bg-yellow-50 border-yellow-300"%string
  /\ (validationTier overall_score = PassTier
        <-> (0.9 <=? overall_score)%float = true)
  /\ (validationTier overall_score = WarnTier
        <-> (0.75 <=? overall_score)%float = true
            /\ (overall_score <? 0.9)%float = true)
  /\ (validationTier overall_score = FailTier
        <-> (0.9 <=? overall_score)%float = false
            /\ ~ ((0.75 <=? overall_score)%float = true
                  /\ (overall_score <? 0.9)%float = true))
  /\ validationTier 0.95%float = PassTier
  /\ validationTier 0.8%float = WarnTier
  /\ validationTier 0.5%float = FailTier
  /\ validationTier 0.9%float = PassTier
  /\ validationTier 0.75%float = WarnTier.
Proof.
  destruct (validationTier_split overall_score) as (Hp & Hw & Hf).
  pose proof (validationClass_tier overall_score PassTier) as Cp.
  pose proof (validationClass_tier overall_score WarnTier) as Cw.
  pose proof (validationClass_tier overall_score FailTier) as Cf.
  simpl in Cp, Cw, Cf.
  split; [rewrite Cp; exact Hp|].
  split; [rewrite Cw; exact Hw|].
  split; [rewrite Cf; exact Hf|].
  do 5 (split; [reflexivity|]).
  split; [exact Hp|]. split; [exact Hw|]. split; [exact Hf|].
  repeat split.
Qed.

(** ** The conversation controller of the chat variant *)

Ltac unfold_monad :=
  unfold try_catch_finally, try_finally, try_catch, bind, ret, throw, modify.

Ltac unfold_chat :=
  unfold Chat.run, Chat.handleSubmit, Chat.handleFeedback, Chat.fetch, Chat.json,
    Chat.setMessages, Chat.setInput, Chat.setLoading, Chat.setFeedbackMode,
    Chat.setFeedbackComment, Chat.setShowFeedbackSuccess, Chat.setState, Chat.emit;
  unfold_monad.

(** A refused submission does nothing but cancel the form event. *)
Lemma chat_submit_refused (env : Chat.Env) (s : Chat.State) :
  blank (Chat.input s) = true \/ Chat.loading s = true ->
  Chat.run (Chat.handleSubmit env) s
  = (Chat.mkWorld s [Chat.PreventDefault], Ok tt).
Proof.
  intros H.
  assert (G : negb (truthy_string (trim (Chat.input s))) || Chat.loading s = true).
  { destruct H as [H|H].
    - apply falsy_trim_iff in H. now rewrite H.
    - rewrite H. apply orb_true_r. }
  unfold_chat. simpl. rewrite G. reflexivity.
Qed.

(** An accepted submission: whatever the drafting service does, the
    handler returns normally, has sent one request, and has appended the
    user turn and one more turn. *)
Lemma chat_submit_accepted (env : Chat.Env) (s : Chat.State) :
  blank (Chat.input s) = false ->
  Chat.loading s = false ->
  let w := fst (Chat.run (Chat.handleSubmit env) s) in
  snd (Chat.run (Chat.handleSubmit env) s) = Ok tt
  /\ Chat.state w
     = Chat.mkState
         (Chat.messages s
            ++ [Chat.mkMessage Chat.user (Chat.input s) None None;
                chat_reply_turn env s])
         [] false (Chat.feedbackMode s) (Chat.feedbackComment s)
         (Chat.showFeedbackSuccess s)
  /\ Chat.requests (Chat.trace w) = [Chat.PostPetition (chat_request s)].
Proof.
  intros Hb Hl.
  apply falsy_trim_false_iff in Hb.
  unfold chat_reply_turn, chat_request.
  unfold_chat. simpl. rewrite Hb, Hl. simpl.
  destruct (Chat.petition_reply env _) as [e|r]; simpl.
  - rewrite <- app_assoc. repeat split.
  - destruct (ok r); simpl.
    + destruct (body r); simpl; rewrite <- app_assoc; repeat split.
    + rewrite <- app_assoc. repeat split.
Qed.

(** ** The feedback controller of the chat variant *)

(** A turn without a truthy [conversationId] cannot be rated. *)
Lemma chat_feedback_no_ref (env : Chat.Env) (s : Chat.State)
    (rating : Chat.Rating) (m : Chat.Message) :
  truthy (Chat.conversationId m) = false ->
  Chat.run (fun snap => Chat.handleFeedback env snap rating m) s
  = (Chat.mkWorld s [], Ok tt).
Proof.
  intros H. unfold_chat. rewrite H. reflexivity.
Qed.

(** A down rating while [feedbackMode] is falsy opens the editor. *)
Lemma chat_feedback_opens (env : Chat.Env) (s : Chat.State) (m : Chat.Message) :
  truthy (Chat.conversationId m) = true ->
  truthy (Chat.feedbackMode s) = false ->
  Chat.run (fun snap => Chat.handleFeedback env snap Chat.down m) s
  = (Chat.mkWorld
       (Chat.mkState (Chat.messages s) (Chat.input s) (Chat.loading s)
                     (Chat.conversationId m) (Chat.feedbackComment s)
                     (Chat.showFeedbackSuccess s))
       [],
     Ok tt).
Proof.
  intros Hm Hf. unfold_chat. rewrite Hm, Hf. reflexivity.
Qed.

(** In every other case the rating is posted; this is what happens when
    the promise of the request resolves, whatever the status. *)
Lemma chat_feedback_resolved (env : Chat.Env) (s : Chat.State)
    (rating : Chat.Rating) (m : Chat.Message) (r : Response unit) :
  truthy (Chat.conversationId m) = true ->
  Chat.is_down rating && negb (truthy (Chat.feedbackMode s)) = false ->
  Chat.feedback_reply env (chat_feedback_request s rating m) = Resolved r ->
  Chat.run (fun snap => Chat.handleFeedback env snap rating m) s
  = (Chat.mkWorld
       (Chat.mkState (Chat.messages s) (Chat.input s) (Chat.loading s)
                     None [] true)
       [Chat.Fetch (Chat.PostFeedback (chat_feedback_request s rating m));
        Chat.SetTimeout Chat.HideFeedbackSuccess 3000],
     Ok tt).
Proof.
  intros Hm Hg Hr. unfold chat_feedback_request in *.
  unfold_chat. rewrite Hm, Hg. simpl. rewrite Hr. reflexivity.
Qed.

(** And this is what happens when the promise rejects. *)
Lemma chat_feedback_rejected (env : Chat.Env) (s : Chat.State)
    (rating : Chat.Rating) (m : Chat.Message) (e : Error) :
  truthy (Chat.conversationId m) = true ->
  Chat.is_down rating && negb (truthy (Chat.feedbackMode s)) = false ->
  Chat.feedback_reply env (chat_feedback_request s rating m) = Rejected e ->
  Chat.run (fun snap => Chat.handleFeedback env snap rating m) s
  = (Chat.mkWorld s
       [Chat.Fetch (Chat.PostFeedback (chat_feedback_request s rating m));
        Chat.ConsoleError "Error submitting feedback:" e],
     Ok tt).
Proof.
  intros Hm Hg Hr. unfold chat_feedback_request in *.
  unfold_chat. rewrite Hm, Hg. simpl. rewrite Hr. simpl.
  destruct s; reflexivity.
Qed.

Lemma strict_eq_refl (v : option jsstring) : strict_eq v v = true.
Proof.
  destruct v as [x|]; simpl; [|reflexivity].
  unfold jsstring_eqb. now destruct (list_eq_dec N.eq_dec x x).
Qed.

Lemma strict_eq_true_iff (a b : option jsstring) : strict_eq a b = true <-> a = b.
Proof.
  split.
  - destruct a as [x|], b as [y|]; simpl; try discriminate; try reflexivity.
    unfold jsstring_eqb. destruct (list_eq_dec N.eq_dec x y); congruence.
  - intros ->. apply strict_eq_refl.
Qed.

(** ** The conversation controller of the structured variant *)

Ltac unfold_structured :=
  unfold Structured.run, Structured.handleSendMessage,
    Structured.handleGeneratePetition, Structured.handleFinalize,
    Structured.API_chat, Structured.API_generatePetition,
    Structured.API_finalizePetition, Structured.payload_of, Structured.read,
    Structured.fetch, Structured.prompt, Structured.alert,
    Structured.appendReply, Structured.appendFailure,
    Structured.addSystemMessage, Structured.newDate,
    Structured.setMessages, Structured.setInput, Structured.setLoading,
    Structured.setSessionId, Structured.setCurrentDraft,
    Structured.setShowDraft, Structured.setState, Structured.emit;
  unfold_monad.

Lemma structured_send_refused (env : Structured.Env) (s : Structured.State)
    (now : N) :
  blank (Structured.input s) = true \/ Structured.loading s = true ->
  Structured.run (Structured.handleSendMessage env) s now
  = (Structured.mkWorld s [] now, Ok tt).
Proof.
  intros H.
  assert (G : negb (truthy_string (trim (Structured.input s)))
              || Structured.loading s = true).
  { destruct H as [H|H].
    - apply falsy_trim_iff in H. now rewrite H.
    - rewrite H. apply orb_true_r. }
  unfold_structured. rewrite G. reflexivity.
Qed.

(** A reply with a success status and a JSON object. *)
Lemma structured_send_success (env : Structured.Env) (s : Structured.State)
    (now : N) (r : Response (Structured.Payload Structured.ChatReply))
    (p : Structured.Payload Structured.ChatReply) :
  blank (Structured.input s) = false ->
  Structured.loading s = false ->
  Structured.chat_reply env (structured_request s) = Resolved r ->
  ok r = true ->
  body r = BodyObject p ->
  let later := (now + Structured.elapsed env
                        (Structured.PostChat (structured_request s)))%N in
  Structured.run (Structured.handleSendMessage env) s now
  = (Structured.mkWorld
       (Structured.mkState
          (Structured.systemStatus s) false
          (Structured.messages s
             ++ [Structured.mkMessage Structured.user (Structured.input s) now;
                 Structured.mkMessage Structured.assistant
                   (Structured.response (Structured.fields p)) later])
          []
          (if truthy (Structured.sessionId s) then Structured.sessionId s
           else Structured.reply_session_id (Structured.fields p))
          (Structured.currentDraft s) (Structured.showDraft s)
          (Structured.templates s) (Structured.caseData s))
       [Structured.Fetch (Structured.PostChat (structured_request s))]
       later,
     Ok tt).
Proof.
  intros Hb Hl Hr Hok Hbody later. subst later.
  apply falsy_trim_false_iff in Hb.
  unfold structured_request in *.
  unfold_structured. rewrite Hb, Hl. simpl. rewrite Hr. simpl.
  unfold Structured.json_or_null. rewrite Hok, Hbody. simpl.
  destruct (truthy (Structured.sessionId s)); simpl;
    rewrite <- app_assoc; reflexivity.
Qed.

(** A failure the [catch] block sees: the request is rejected or
    answered outside 200-299, or the reply is unusable and the session
    id is still to be read from it. *)
Lemma structured_send_failure (env : Structured.Env) (s : Structured.State)
    (now : N) :
  blank (Structured.input s) = false ->
  Structured.loading s = false ->
  transport_failure (Structured.chat_reply env (structured_request s))
  \/ (structured_exchange_fails (Structured.chat_reply env (structured_request s))
      /\ truthy (Structured.sessionId s) = false) ->
  let later := (now + Structured.elapsed env
                        (Structured.PostChat (structured_request s)))%N in
  Structured.run (Structured.handleSendMessage env) s now
  = (Structured.mkWorld
       (Structured.mkState
          (Structured.systemStatus s) false
          (Structured.messages s
             ++ [Structured.mkMessage Structured.user (Structured.input s) now;
                 structured_error_turn later])
          [] (Structured.sessionId s)
          (Structured.currentDraft s) (Structured.showDraft s)
          (Structured.templates s) (Structured.caseData s))
       [Structured.Fetch (Structured.PostChat (structured_request s))]
       later,
     Ok tt).
Proof.
  intros Hb Hl Hf later. subst later.
  apply falsy_trim_false_iff in Hb.
  unfold structured_request, structured_error_turn, transport_failure in *.
  unfold_structured. rewrite Hb, Hl. simpl.
  destruct (Structured.chat_reply env _) as [e|r]; simpl in *.
  - rewrite <- app_assoc. reflexivity.
  - unfold Structured.json_or_null.
    destruct (ok r); simpl.
    + destruct Hf as [Hf|[Hf Hs]]; [discriminate|].
      destruct Hf as [Hf|Hf]; [discriminate|].
      rewrite Hs.
      destruct (body r); [| |contradiction]; simpl;
        rewrite <- app_assoc; reflexivity.
    + rewrite <- app_assoc. reflexivity.
Qed.

(** A reply with a success status and no JSON object, once a session
    id is stored: nothing in the [try] block reads the reply, so the
    [catch] block is skipped; the read is in the updater, and its
    [TypeError] surfaces when the updater runs. *)
Lemma structured_send_uncaught (env : Structured.Env) (s : Structured.State)
    (now : N) (r : Response (Structured.Payload Structured.ChatReply)) :
  blank (Structured.input s) = false ->
  Structured.loading s = false ->
  Structured.chat_reply env (structured_request s) = Resolved r ->
  ok r = true ->
  (forall p, body r <> BodyObject p) ->
  truthy (Structured.sessionId s) = true ->
  let later := (now + Structured.elapsed env
                        (Structured.PostChat (structured_request s)))%N in
  Structured.run (Structured.handleSendMessage env) s now
  = (Structured.mkWorld
       (Structured.mkState
          (Structured.systemStatus s) false
          (Structured.messages s
             ++ [Structured.mkMessage Structured.user (Structured.input s) now])
          [] (Structured.sessionId s)
          (Structured.currentDraft s) (Structured.showDraft s)
          (Structured.templates s) (Structured.caseData s))
       [Structured.Fetch (Structured.PostChat (structured_request s))]
       later,
     Throw (Structured.typeError env)).
Proof.
  intros Hb Hl Hr Hok Hbody Hs later. subst later.
  apply falsy_trim_false_iff in Hb.
  unfold structured_request in *.
  unfold_structured. rewrite Hb, Hl. simpl. rewrite Hr. simpl.
  unfold Structured.json_or_null. rewrite Hok, Hs. simpl.
  destruct (body r) as [| |p]; [| |exfalso; exact (Hbody p eq_refl)];
    reflexivity.
Qed.

(** ** The draft lifecycle controller of the structured variant *)

Lemma structured_generate_refused (env : Structured.Env) (s : Structured.State)
    (now : N) :
  blank (Structured.facts (Structured.caseData s)) = true ->
  Structured.run (Structured.handleGeneratePetition env) s now
  = (Structured.mkWorld s
       [Structured.Alert
          (lit "Please provide case facts before generating petition")]
       now,
     Ok tt).
Proof.
  intros H. apply falsy_trim_iff in H.
  unfold_structured. rewrite H. reflexivity.
Qed.

Lemma structured_finalize_refused (env : Structured.Env) (s : Structured.State)
    (now : N) (draft : Structured.Draft) :
  Structured.currentDraft s = Some draft ->
  truthy (Structured.prompt_reply env (lit "Enter your name:")) = false
  \/ truthy (Structured.prompt_reply env (lit "Enter your Bar Council ID:")) = false ->
  Structured.run (Structured.handleFinalize env) s now
  = (Structured.mkWorld s
       [Structured.Prompt (lit "Enter your name:");
        Structured.Prompt (lit "Enter your Bar Council ID:");
        Structured.Alert (lit "Approver details required")]
       now,
     Ok tt).
Proof.
  intros Hd H.
  assert (G : negb (truthy (Structured.prompt_reply env (lit "Enter your name:")))
              || negb (truthy (Structured.prompt_reply env
                                 (lit "Enter your Bar Council ID:"))) = true).
  { destruct H as [H|H]; rewrite H; simpl; [reflexivity|apply orb_true_r]. }
  unfold_structured. rewrite Hd. simpl. rewrite G. reflexivity.
Qed.

Lemma structured_finalize_without_draft (env : Structured.Env)
    (s : Structured.State) (now : N) :
  Structured.currentDraft s = None ->
  Structured.run (Structured.handleFinalize env) s now
  = (Structured.mkWorld s [] now, Ok tt).
Proof.
  intros Hd. unfold_structured. rewrite Hd. reflexivity.
Qed.

(** ** Handlers that let no exception through *)

Ltac safe_step :=
  repeat first
    [ apply bind_never_throws; [|intros ?]
    | apply try_catch_finally_never_throws; [intros ?|]
    | apply try_catch_never_throws; intros ?
    | apply ret_never_throws
    | apply modify_never_throws ].

Lemma handleSubmit_never_throws (env : Chat.Env) (snap : Chat.State) :
  never_throws (Chat.handleSubmit env snap).
Proof.
  unfold Chat.handleSubmit, Chat.setMessages, Chat.setInput, Chat.setLoading,
    Chat.setState, Chat.emit.
  apply bind_never_throws; [apply modify_never_throws|intros _].
  destruct (negb (truthy_string (trim (Chat.input snap))) || Chat.loading snap);
    safe_step.
Qed.

Lemma handleFeedback_never_throws (env : Chat.Env) (snap : Chat.State)
    (rating : Chat.Rating) (m : Chat.Message) :
  never_throws (Chat.handleFeedback env snap rating m).
Proof.
  unfold Chat.handleFeedback, Chat.setFeedbackMode, Chat.setState, Chat.emit.
  destruct (negb (truthy (Chat.conversationId m))); [safe_step|].
  destruct (Chat.is_down rating && negb (truthy (Chat.feedbackMode snap)));
    safe_step.
Qed.

Lemma newDate_never_throws : never_throws Structured.newDate.
Proof. intros w. now exists (Structured.clock w). Qed.

Lemma handleGeneratePetition_never_throws (env : Structured.Env)
    (snap : Structured.State) :
  never_throws (Structured.handleGeneratePetition env snap).
Proof.
  unfold Structured.handleGeneratePetition, Structured.addSystemMessage,
    Structured.alert, Structured.setMessages, Structured.setLoading,
    Structured.setState, Structured.emit.
  destruct (negb (truthy_string
                    (trim (Structured.facts (Structured.caseData snap)))));
    [safe_step|].
  safe_step; apply newDate_never_throws.
Qed.

Lemma handleFinalize_never_throws (env : Structured.Env)
    (snap : Structured.State) :
  never_throws (Structured.handleFinalize env snap).
Proof.
  unfold Structured.handleFinalize, Structured.prompt, Structured.alert,
    Structured.setLoading, Structured.setState, Structured.emit.
  destruct (Structured.currentDraft snap) as [draft|]; [|safe_step].
  apply bind_never_throws; [safe_step|intros approverName].
  apply bind_never_throws; [safe_step|intros approverId].
  destruct (negb (truthy approverName) || negb (truthy approverId)); safe_step.
Qed.

(** * The claims *)

(** C1.  A submission whose text is empty or white space only, or that
    arrives while the busy flag is set, does nothing, in the chat variant
    ([handleSubmit]) and in the structured variant ([handleSendMessage])
    alike: the state is the one before, so no turn was appended and the
    thread has the length it had, and no request was sent. *)
Theorem submit_rejected_is_noop
    (cenv : Chat.Env) (cs : Chat.State)
    (senv : Structured.Env) (ss : Structured.State) (now : N) :
  blank (Chat.input cs) = true \/ Chat.loading cs = true ->
  blank (Structured.input ss) = true \/ Structured.loading ss = true ->
  (Chat.state (fst (Chat.run (Chat.handleSubmit cenv) cs)) = cs
   /\ List.length (Chat.messages
                     (Chat.state (fst (Chat.run (Chat.handleSubmit cenv) cs))))
      = List.length (Chat.messages cs)
   /\ Chat.requests (Chat.trace (fst (Chat.run (Chat.handleSubmit cenv) cs))) = []
   /\ snd (Chat.run (Chat.handleSubmit cenv) cs) = Ok tt)
  /\
  (Structured.state
     (fst (Structured.run (Structured.handleSendMessage senv) ss now)) = ss
   /\ List.length
        (Structured.messages
           (Structured.state
              (fst (Structured.run (Structured.handleSendMessage senv) ss now))))
      = List.length (Structured.messages ss)
   /\ Structured.requests
        (Structured.trace
           (fst (Structured.run (Structured.handleSendMessage senv) ss now))) = []
   /\ snd (Structured.run (Structured.handleSendMessage senv) ss now) = Ok tt).
Proof.
  intros Hc Hs.
  rewrite (chat_submit_refused cenv cs Hc).
  rewrite (structured_send_refused senv ss now Hs).
  simpl. repeat split.
Qed.

(** The white-space-only text of [ex_structured_ready] and the busy flag
    of [ex_chat_busy] are both refused. *)
Lemma submit_rejected_is_noop_witness :
  Chat.state (fst (Chat.run (Chat.handleSubmit ex_chat_env_up) ex_chat_busy))
  = ex_chat_busy
  /\ Structured.state
       (fst (Structured.run (Structured.handleSendMessage ex_structured_env_up)
                            ex_structured_ready 0%N))
     = ex_structured_ready.
Proof.
  destruct (submit_rejected_is_noop ex_chat_env_up ex_chat_busy
              ex_structured_env_up ex_structured_ready 0%N) as [[H1 _] [H2 _]].
  - right. reflexivity.
  - left. reflexivity.
  - split; assumption.
Defined.

(** C8.  A failed client-side validation stops the action before any
    request and leaves the whole state, the draft with it, as it was:
    [handleGeneratePetition] with facts that are empty or white space
    only, whatever the environment, and [handleFinalize] when the name or
    the bar council ID is missing (the dialog was cancelled or left
    empty). *)
Theorem validation_failure_short_circuits :
  (forall (env : Structured.Env) (s : Structured.State) (now : N),
     blank (Structured.facts (Structured.caseData s)) = true ->
     Structured.state
       (fst (Structured.run (Structured.handleGeneratePetition env) s now)) = s
     /\ Structured.currentDraft
          (Structured.state
             (fst (Structured.run (Structured.handleGeneratePetition env) s now)))
        = Structured.currentDraft s
     /\ Structured.requests
          (Structured.trace
             (fst (Structured.run (Structured.handleGeneratePetition env) s now)))
        = []
     /\ snd (Structured.run (Structured.handleGeneratePetition env) s now) = Ok tt)
  /\
  (forall (env : Structured.Env) (s : Structured.State) (now : N),
     truthy (Structured.prompt_reply env (lit "Enter your name:")) = false
     \/ truthy (Structured.prompt_reply env (lit "Enter your Bar Council ID:"))
        = false ->
     Structured.state
       (fst (Structured.run (Structured.handleFinalize env) s now)) = s
     /\ Structured.currentDraft
          (Structured.state
             (fst (Structured.run (Structured.handleFinalize env) s now)))
        = Structured.currentDraft s
     /\ Structured.requests
          (Structured.trace
             (fst (Structured.run (Structured.handleFinalize env) s now)))
        = []
     /\ snd (Structured.run (Structured.handleFinalize env) s now) = Ok tt).
Proof.
  split.
  - intros env s now Hf.
    rewrite (structured_generate_refused env s now Hf). repeat split.
  - intros env s now Hp.
    destruct (Structured.currentDraft s) as [d|] eqn:Hd.
    + rewrite (structured_finalize_refused env s now d Hd Hp).
      simpl. rewrite Hd. repeat split.
    + rewrite (structured_finalize_without_draft env s now Hd).
      simpl. rewrite Hd. repeat split.
Qed.

(** With the facts of [ex_structured_ready], generation is refused even
    where both dialogs would be answered; and a user who leaves the
    second dialog empty cannot finalize. *)
Lemma validation_failure_short_circuits_witness :
  Structured.currentDraft
    (Structured.state
       (fst (Structured.run
               (Structured.handleGeneratePetition ex_structured_env_signed)
               ex_structured_ready 0%N)))
  = Some ex_draft
  /\ Structured.currentDraft
       (Structured.state
          (fst (Structured.run (Structured.handleFinalize ex_structured_env_up)
                               ex_structured_ready 0%N)))
     = Some ex_draft.
Proof.
  destruct validation_failure_short_circuits as [Hg Hf].
  destruct (Hg ex_structured_env_signed ex_structured_ready 0%N eq_refl)
    as (_ & H1 & _).
  destruct (Hf ex_structured_env_up ex_structured_ready 0%N
              (or_intror eq_refl))
    as (_ & H2 & _).
  split; assumption.
Defined.

(** C9.  The request of an accepted chat-variant submission carries the
    whole text typed and, as context, the last ten turns of the thread
    as it was before the submission (all of it when it had fewer): the
    window is a suffix of that thread and ends just before the user turn
    the submission appended. *)
Theorem submit_sends_text_and_last_ten (env : Chat.Env) (s : Chat.State) :
  blank (Chat.input s) = false ->
  Chat.loading s = false ->
  exists (older window : list Chat.Message) (reply : Chat.Message),
    Chat.requests (Chat.trace (fst (Chat.run (Chat.handleSubmit env) s)))
    = [Chat.PostPetition (Chat.mkPetitionBody (Chat.input s) window)]
    /\ window = slice (-10) (Chat.messages s)
    /\ Chat.messages s = older ++ window
    /\ List.length window = Nat.min 10 (List.length (Chat.messages s))
    /\ (List.length window <= 10)%nat
    /\ Chat.messages (Chat.state (fst (Chat.run (Chat.handleSubmit env) s)))
       = older ++ window
           ++ [Chat.mkMessage Chat.user (Chat.input s) None None; reply].
Proof.
  intros Hb Hl.
  destruct (chat_submit_accepted env s Hb Hl) as (_ & Hst & Hreq).
  exists (firstn (List.length (Chat.messages s) - 10) (Chat.messages s)),
         (slice (-10) (Chat.messages s)), (chat_reply_turn env s).
  assert (Hsuf := @slice_last_suffix _ 10 (Chat.messages s) ltac:(lia)).
  assert (Hlen := @slice_last_length _ 10 (Chat.messages s) ltac:(lia)).
  change (- Z.of_nat 10)%Z with (-10)%Z in *.
  repeat split.
  - exact Hreq.
  - symmetry. exact Hsuf.
  - exact Hlen.
  - rewrite Hlen. lia.
  - rewrite Hst. simpl. rewrite app_assoc, Hsuf. reflexivity.
Qed.

(** From [ex_chat_idle] with a text typed, the four turns of the thread
    travel with the text. *)
Lemma submit_sends_text_and_last_ten_witness :
  exists (older window : list Chat.Message) (reply : Chat.Message),
    Chat.requests
      (Chat.trace
         (fst (Chat.run (Chat.handleSubmit ex_chat_env_up)
                 (Chat.mkState (Chat.messages ex_chat_idle) ex_text false
                               None [] false))))
    = [Chat.PostPetition (Chat.mkPetitionBody ex_text window)]
    /\ window = slice (-10) (Chat.messages ex_chat_idle)
    /\ Chat.messages ex_chat_idle = older ++ window
    /\ List.length window = Nat.min 10 (List.length (Chat.messages ex_chat_idle))
    /\ (List.length window <= 10)%nat
    /\ Chat.messages
         (Chat.state
            (fst (Chat.run (Chat.handleSubmit ex_chat_env_up)
                    (Chat.mkState (Chat.messages ex_chat_idle) ex_text false
                                  None [] false))))
       = older ++ window
           ++ [Chat.mkMessage Chat.user ex_text None None; reply].
Proof.
  apply (submit_sends_text_and_last_ten ex_chat_env_up
           (Chat.mkState (Chat.messages ex_chat_idle) ex_text false None [] false));
    reflexivity.
Defined.

(** C10.  Rating a turn that has no session reference (its
    [conversationId] is absent, or is the empty string) does nothing,
    whatever the rating: no request, no editor opened or closed, and the
    state is the one before. *)
Theorem rate_without_sessionRef_is_noop (env : Chat.Env) (s : Chat.State)
    (rating : Chat.Rating) (m : Chat.Message) :
  truthy (Chat.conversationId m) = false ->
  Chat.run (fun snap => Chat.handleFeedback env snap rating m) s
  = (Chat.mkWorld s [], Ok tt)
  /\ Chat.requests
       (Chat.trace
          (fst (Chat.run (fun snap => Chat.handleFeedback env snap rating m) s)))
     = []
  /\ forall m', Chat.editorOpenFor
                  (Chat.state
                     (fst (Chat.run
                             (fun snap => Chat.handleFeedback env snap rating m) s)))
                  m'
                = Chat.editorOpenFor s m'.
Proof.
  intros H. rewrite (chat_feedback_no_ref env s rating m H).
  repeat split.
Qed.

(** The error turn of a failed generation cannot be rated. *)
Lemma rate_without_sessionRef_is_noop_witness :
  Chat.run (fun snap => Chat.handleFeedback ex_chat_env_up snap Chat.down
                          Chat.errorMessage) ex_chat_idle
  = (Chat.mkWorld ex_chat_idle [], Ok tt)
  /\ Chat.run (fun snap => Chat.handleFeedback ex_chat_env_up snap Chat.up
                             Chat.errorMessage) ex_chat_editing_A
     = (Chat.mkWorld ex_chat_editing_A [], Ok tt).
Proof.
  split.
  - apply (rate_without_sessionRef_is_noop ex_chat_env_up ex_chat_idle
             Chat.down Chat.errorMessage). reflexivity.
  - apply (rate_without_sessionRef_is_noop ex_chat_env_up ex_chat_editing_A
             Chat.up Chat.errorMessage). reflexivity.
Defined.

Lemma chat_reply_turn_success (env : Chat.Env) (s : Chat.State)
    (d : Chat.PetitionData) :
  succeeds_with (Chat.petition_reply env (chat_request s)) d ->
  chat_reply_turn env s
  = Chat.mkMessage Chat.assistant (Chat.petition d)
                   (Chat.data_conversation_id d) (Chat.legal_context d).
Proof.
  unfold chat_reply_turn, succeeds_with.
  destruct (Chat.petition_reply env (chat_request s)) as [e|r]; [tauto|].
  intros [Hok Hbody]. rewrite Hok, Hbody. reflexivity.
Qed.

Lemma chat_reply_turn_failure (env : Chat.Env) (s : Chat.State) :
  transport_failure (Chat.petition_reply env (chat_request s)) ->
  chat_reply_turn env s = Chat.errorMessage.
Proof.
  unfold chat_reply_turn, transport_failure.
  destruct (Chat.petition_reply env (chat_request s)) as [e|r]; [reflexivity|].
  intros Hok. rewrite Hok. reflexivity.
Qed.

Lemma transport_failure_fails
    (o : Outcome (Structured.Payload Structured.ChatReply)) :
  transport_failure o -> structured_exchange_fails o.
Proof.
  destruct o as [e|r]; simpl; auto.
Qed.

(** C2, as the code has it.  After an accepted submission whose call
    succeeds, the thread is the thread before followed by the user turn
    and an assistant turn, in that order.  In the chat variant the
    assistant turn carries the [conversation_id] and the [legal_context]
    of the response, present or absent as the response has them.  In the
    structured variant the assistant turn holds the response text and a
    time stamp only; the session reference of the response goes to the
    session store, and only when the store held none. *)
Theorem submit_success_appends_two_turns
    (cenv : Chat.Env) (cs : Chat.State) (d : Chat.PetitionData)
    (senv : Structured.Env) (ss : Structured.State) (now : N)
    (p : Structured.Payload Structured.ChatReply) :
  blank (Chat.input cs) = false ->
  Chat.loading cs = false ->
  succeeds_with (Chat.petition_reply cenv (chat_request cs)) d ->
  blank (Structured.input ss) = false ->
  Structured.loading ss = false ->
  succeeds_with (Structured.chat_reply senv (structured_request ss)) p ->
  (Chat.messages (Chat.state (fst (Chat.run (Chat.handleSubmit cenv) cs)))
   = Chat.messages cs
       ++ [Chat.mkMessage Chat.user (Chat.input cs) None None;
           Chat.mkMessage Chat.assistant (Chat.petition d)
                          (Chat.data_conversation_id d) (Chat.legal_context d)]
   /\ two_turns_carrying
        (map chat_turn (Chat.messages cs))
        (map chat_turn
           (Chat.messages (Chat.state (fst (Chat.run (Chat.handleSubmit cenv) cs)))))
        (Chat.input cs) (Chat.data_conversation_id d) (Chat.legal_context d))
  /\
  (Structured.messages
     (Structured.state
        (fst (Structured.run (Structured.handleSendMessage senv) ss now)))
   = Structured.messages ss
       ++ [Structured.mkMessage Structured.user (Structured.input ss) now;
           Structured.mkMessage Structured.assistant
             (Structured.response (Structured.fields p))
             (now + Structured.elapsed senv
                      (Structured.PostChat (structured_request ss)))%N]
   /\ Structured.sessionId
        (Structured.state
           (fst (Structured.run (Structured.handleSendMessage senv) ss now)))
      = (if truthy (Structured.sessionId ss) then Structured.sessionId ss
         else Structured.reply_session_id (Structured.fields p))).
Proof.
  intros Hcb Hcl Hcs Hsb Hsl Hss.
  destruct (chat_submit_accepted cenv cs Hcb Hcl) as (_ & Hst & _).
  rewrite (chat_reply_turn_success cenv cs d Hcs) in Hst.
  unfold succeeds_with in Hss.
  destruct (Structured.chat_reply senv (structured_request ss)) as [e|r] eqn:Hr;
    [contradiction|].
  destruct Hss as [Hok Hbody].
  rewrite (structured_send_success senv ss now r p Hsb Hsl Hr Hok Hbody).
  rewrite Hst. simpl. repeat split.
  rewrite map_app. simpl.
  eexists _, _. repeat split; intros x Hx; exact Hx.
Qed.

(** The scenario of the specification: the thread has two turns, the
    second with the session reference "abc123" and one legal reference. *)
Lemma submit_success_appends_two_turns_witness :
  Chat.messages
    (Chat.state (fst (Chat.run (Chat.handleSubmit ex_chat_env_up) ex_chat_fresh)))
  = [Chat.mkMessage Chat.user ex_text None None;
     Chat.mkMessage Chat.assistant (lit "PETITION...") (Some (lit "abc123"))
       (Some [lit "Section 42 of the Specific Relief Act..."])]
  /\ Structured.sessionId
       (Structured.state
          (fst (Structured.run (Structured.handleSendMessage ex_structured_env_up)
                               ex_structured_fresh 0%N)))
     = Some (lit "abc123").
Proof.
  destruct (submit_success_appends_two_turns
              ex_chat_env_up ex_chat_fresh ex_data
              ex_structured_env_up ex_structured_fresh 0%N ex_chat_reply)
    as [[H1 _] [_ H2]].
  - reflexivity.
  - reflexivity.
  - split; reflexivity.
  - reflexivity.
  - reflexivity.
  - split; reflexivity.
  - split; [exact H1 | exact H2].
Defined.

(** C2 as worded fails in the structured variant: the response supplies
    the session reference "abc123", the thread gains the two turns, and
    the assistant turn does not carry the reference (the session store
    does). *)
Lemma submit_success_structured_turn_has_no_sessionRef :
  map structured_turn
    (Structured.messages
       (Structured.state
          (fst (Structured.run (Structured.handleSendMessage ex_structured_env_up)
                               ex_structured_fresh 0%N))))
  = [Spec.mkTurn Spec.user ex_text None None;
     Spec.mkTurn Spec.assistant (lit "A revision lies under section 115.")
                 None None]
  /\ succeeds_with
       (Structured.chat_reply ex_structured_env_up
          (structured_request ex_structured_fresh))
       ex_chat_reply
  /\ Structured.reply_session_id (Structured.fields ex_chat_reply)
     = Some (lit "abc123")
  /\ ~ two_turns_carrying
         (map structured_turn (Structured.messages ex_structured_fresh))
         (map structured_turn
            (Structured.messages
               (Structured.state
                  (fst (Structured.run
                          (Structured.handleSendMessage ex_structured_env_up)
                          ex_structured_fresh 0%N)))))
         (Structured.input ex_structured_fresh)
         (Structured.reply_session_id (Structured.fields ex_chat_reply))
         None.
Proof.
  split; [reflexivity|]. split; [split; reflexivity|]. split; [reflexivity|].
  intros (u & a & Heq & _ & _ & _ & Href & _).
  specialize (Href (lit "abc123") eq_refl).
  vm_compute in Heq. injection Heq as _ Ha. subst a.
  discriminate Href.
Qed.

(** C3, as the code has it.  After an accepted submission whose call
    fails with a network error or a status that is not a success status,
    the handler returns normally and the thread is the thread before
    followed by the user turn and one turn with a fixed message and no
    session reference.  That turn has the role assistant in the chat
    variant and the role error in the structured variant, where the
    stored session reference is the one before. *)
Theorem submit_failure_appends_error_turn
    (cenv : Chat.Env) (cs : Chat.State)
    (senv : Structured.Env) (ss : Structured.State) (now : N) :
  blank (Chat.input cs) = false ->
  Chat.loading cs = false ->
  transport_failure (Chat.petition_reply cenv (chat_request cs)) ->
  blank (Structured.input ss) = false ->
  Structured.loading ss = false ->
  transport_failure (Structured.chat_reply senv (structured_request ss)) ->
  (snd (Chat.run (Chat.handleSubmit cenv) cs) = Ok tt
   /\ Chat.messages (Chat.state (fst (Chat.run (Chat.handleSubmit cenv) cs)))
      = Chat.messages cs
          ++ [Chat.mkMessage Chat.user (Chat.input cs) None None;
              Chat.mkMessage Chat.assistant
                (lit "Sorry, there was an error generating your petition. Please try again.")
                None None]
   /\ two_turns_apology
        (map chat_turn (Chat.messages cs))
        (map chat_turn
           (Chat.messages (Chat.state (fst (Chat.run (Chat.handleSubmit cenv) cs)))))
        (Chat.input cs)
        (lit "Sorry, there was an error generating your petition. Please try again."))
  /\
  (snd (Structured.run (Structured.handleSendMessage senv) ss now) = Ok tt
   /\ Structured.messages
        (Structured.state
           (fst (Structured.run (Structured.handleSendMessage senv) ss now)))
      = Structured.messages ss
          ++ [Structured.mkMessage Structured.user (Structured.input ss) now;
              Structured.mkMessage Structured.error
                (lit "Failed to get response. Please try again.")
                (now + Structured.elapsed senv
                         (Structured.PostChat (structured_request ss)))%N]
   /\ Structured.sessionId
        (Structured.state
           (fst (Structured.run (Structured.handleSendMessage senv) ss now)))
      = Structured.sessionId ss).
Proof.
  intros Hcb Hcl Hcf Hsb Hsl Hsf.
  destruct (chat_submit_accepted cenv cs Hcb Hcl) as (Hres & Hst & _).
  rewrite (chat_reply_turn_failure cenv cs Hcf) in Hst.
  rewrite (structured_send_failure senv ss now Hsb Hsl (or_introl Hsf)).
  rewrite Hst. simpl. repeat split; try assumption.
  rewrite map_app. simpl.
  eexists _, _. repeat split.
Qed.

(** Off line, both variants append their error turn and keep what they
    stored. *)
Lemma submit_failure_appends_error_turn_witness :
  Chat.messages
    (Chat.state
       (fst (Chat.run (Chat.handleSubmit ex_chat_env_offline) ex_chat_fresh)))
  = [Chat.mkMessage Chat.user ex_text None None; Chat.errorMessage]
  /\ Structured.messages
       (Structured.state
          (fst (Structured.run
                  (Structured.handleSendMessage ex_structured_env_offline)
                  ex_structured_fresh 0%N)))
     = [Structured.mkMessage Structured.user ex_text 0%N;
        structured_error_turn 30%N].
Proof.
  destruct (submit_failure_appends_error_turn
              ex_chat_env_offline ex_chat_fresh
              ex_structured_env_offline ex_structured_fresh 0%N)
    as [[_ [H1 _]] [_ [H2 _]]].
  - reflexivity.
  - reflexivity.
  - exact I.
  - reflexivity.
  - reflexivity.
  - exact I.
  - split; [exact H1 | exact H2].
Defined.

(** C3 as worded fails in the structured variant: off line, the turn
    appended after the user turn has the role error, not assistant. *)
Lemma submit_failure_structured_turn_is_error_role :
  map structured_turn
    (Structured.messages
       (Structured.state
          (fst (Structured.run
                  (Structured.handleSendMessage ex_structured_env_offline)
                  ex_structured_fresh 0%N))))
  = [Spec.mkTurn Spec.user ex_text None None;
     Spec.mkTurn Spec.error (lit "Failed to get response. Please try again.")
                 None None]
  /\ transport_failure
       (Structured.chat_reply ex_structured_env_offline
          (structured_request ex_structured_fresh))
  /\ ~ two_turns_apology
         (map structured_turn (Structured.messages ex_structured_fresh))
         (map structured_turn
            (Structured.messages
               (Structured.state
                  (fst (Structured.run
                          (Structured.handleSendMessage ex_structured_env_offline)
                          ex_structured_fresh 0%N)))))
         (Structured.input ex_structured_fresh)
         (lit "Failed to get response. Please try again.").
Proof.
  split; [reflexivity|]. split; [exact I|].
  intros (u & a & Heq & _ & _ & Hrole & _).
  vm_compute in Heq. injection Heq as _ Ha. subst a.
  discriminate Hrole.
Qed.

(** ** The feedback claims *)

Lemma hasFeedbackControls_truthy (m : Chat.Message) :
  Chat.hasFeedbackControls m = true -> truthy (Chat.conversationId m) = true.
Proof.
  unfold Chat.hasFeedbackControls. destruct (Chat.role m); [discriminate|auto].
Qed.

Lemma editorOpenFor_inv (s : Chat.State) (m : Chat.Message) :
  Chat.editorOpenFor s m = true ->
  Chat.hasFeedbackControls m = true
  /\ Chat.feedbackMode s = Chat.conversationId m
  /\ truthy (Chat.feedbackMode s) = true.
Proof.
  unfold Chat.editorOpenFor. intros H.
  apply andb_true_iff in H. destruct H as [Hc He].
  apply strict_eq_true_iff in He.
  repeat split; try assumption.
  rewrite He. now apply hasFeedbackControls_truthy.
Qed.

(** C4, what the code does instead.  While the editor of a turn A is
    open, a down rating on another turn B does not open the editor of B:
    [handleFeedback] tests whether any editor is open, not whether the
    editor of B is, so it posts at once a down rating for B, with the
    comment typed into the editor of A.  No request goes out for A, and
    the editor of A is closed if the promise resolves and stays open if
    it rejects. *)
Theorem down_on_other_turn_posts_instead_of_opening
    (env : Chat.Env) (s : Chat.State) (A B : Chat.Message) :
  Chat.editorOpenFor s A = true ->
  Chat.hasFeedbackControls B = true ->
  Chat.conversationId B <> Chat.conversationId A ->
  Chat.requests
    (Chat.trace
       (fst (Chat.run (fun snap => Chat.handleFeedback env snap Chat.down B) s)))
  = [Chat.PostFeedback
       (Chat.mkFeedbackBody (Chat.conversationId B) Chat.down
                            (or_null (Chat.feedbackComment s)) (Chat.content B))]
  /\ Chat.editorOpenFor
       (Chat.state
          (fst (Chat.run (fun snap => Chat.handleFeedback env snap Chat.down B) s)))
       B
     = false
  /\ Chat.editorOpenFor
       (Chat.state
          (fst (Chat.run (fun snap => Chat.handleFeedback env snap Chat.down B) s)))
       A
     = match Chat.feedback_reply env (chat_feedback_request s Chat.down B) with
       | Resolved _ => false
       | Rejected _ => true
       end.
Proof.
  intros HA HB Hne.
  destruct (editorOpenFor_inv s A HA) as (HcA & HfA & Ht).
  pose proof (hasFeedbackControls_truthy B HB) as HtB.
  assert (Hg : Chat.is_down Chat.down && negb (truthy (Chat.feedbackMode s)) = false)
    by (rewrite Ht; reflexivity).
  destruct (Chat.feedback_reply env (chat_feedback_request s Chat.down B))
    as [e|r] eqn:Hr.
  - rewrite (chat_feedback_rejected env s Chat.down B e HtB Hg Hr). simpl.
    repeat split; [|exact HA].
    unfold Chat.editorOpenFor. rewrite HB. simpl.
    destruct (strict_eq (Chat.feedbackMode s) (Chat.conversationId B)) eqn:E;
      [|reflexivity].
    apply strict_eq_true_iff in E. congruence.
  - rewrite (chat_feedback_resolved env s Chat.down B r HtB Hg Hr). simpl.
    unfold Chat.editorOpenFor. simpl. rewrite HB, HcA. simpl.
    repeat split.
    + destruct (Chat.conversationId B); [reflexivity|discriminate].
    + pose proof (hasFeedbackControls_truthy A HcA) as HtA.
      destruct (Chat.conversationId A); [reflexivity|discriminate].
Qed.

(** With the editor of [ex_turn_A] open and "too long" typed into it,
    a down rating on [ex_turn_B] sends that comment as feedback on
    [ex_turn_B], and afterwards no editor is open. *)
Lemma down_on_other_turn_posts_instead_of_opening_witness :
  Chat.requests
    (Chat.trace
       (fst (Chat.run
               (fun snap => Chat.handleFeedback ex_chat_env_up snap Chat.down
                              ex_turn_B)
               ex_chat_editing_A)))
  = [Chat.PostFeedback
       (Chat.mkFeedbackBody (Some (lit "conv-B")) Chat.down
                            (Some (lit "too long")) (lit "PETITION B"))]
  /\ Chat.editorOpenFor
       (Chat.state
          (fst (Chat.run
                  (fun snap => Chat.handleFeedback ex_chat_env_up snap Chat.down
                                 ex_turn_B)
                  ex_chat_editing_A)))
       ex_turn_B
     = false.
Proof.
  destruct (down_on_other_turn_posts_instead_of_opening
              ex_chat_env_up ex_chat_editing_A ex_turn_A ex_turn_B)
    as [H1 [H2 _]].
  - reflexivity.
  - reflexivity.
  - discriminate.
  - split; [exact H1 | exact H2].
Defined.



(** The relay answers 502 whenever the request body cannot be parsed or
    the backend cannot be reached, and a 502 is not a success status. *)
Lemma relay_unreachable_is_bad_gateway (B : Type) (backend : B -> option FeedbackRoute.Upstream)
    (requestBody : option B) :
  requestBody = None
  \/ (exists b, requestBody = Some b /\ backend b = None) ->
  FeedbackRoute.POST backend requestBody = FeedbackRoute.badGateway
  /\ ok (mkResponse (FeedbackRoute.route_status
                       (FeedbackRoute.POST backend requestBody))
                    (BodyObject tt))
     = false.
Proof.
  intros [->|(b & -> & Hb)]; simpl; [|rewrite Hb]; split; reflexivity.
Qed.

(** C6, what the code does instead.  [handleFeedback] never looks at
    the status of the reply, so a feedback request answered with a status
    that is not a success status (such as the 502 of the relay) goes down
    the success path: the notice is shown and its timer started, the
    editor is closed, the comment buffer is emptied, and nothing is
    logged.  Only a rejected promise is handled as the claim says
    ([chat_feedback_rejected]). *)
Theorem feedback_error_status_treated_as_success
    (env : Chat.Env) (s : Chat.State) (rating : Chat.Rating)
    (m : Chat.Message) (r : Response unit) :
  truthy (Chat.conversationId m) = true ->
  Chat.is_down rating && negb (truthy (Chat.feedbackMode s)) = false ->
  Chat.feedback_reply env (chat_feedback_request s rating m) = Resolved r ->
  ok r = false ->
  Chat.run (fun snap => Chat.handleFeedback env snap rating m) s
  = (Chat.mkWorld
       (Chat.mkState (Chat.messages s) (Chat.input s) (Chat.loading s)
                     None [] true)
       [Chat.Fetch (Chat.PostFeedback (chat_feedback_request s rating m));
        Chat.SetTimeout Chat.HideFeedbackSuccess 3000],
     Ok tt).
Proof.
  intros Hm Hg Hr _. exact (chat_feedback_resolved env s rating m r Hm Hg Hr).
Qed.

(** Behind the relay with the backend down, submitting the comment on
    [ex_turn_A] shows the success notice, closes the editor and drops the
    comment. *)
Lemma feedback_error_status_treated_as_success_witness :
  ok (mkResponse 502 (BodyObject tt)) = false
  /\ Chat.state
       (fst (Chat.run
               (fun snap => Chat.handleFeedback ex_chat_env_bad_gateway snap
                              Chat.down ex_turn_A)
               ex_chat_editing_A))
     = Chat.mkState (Chat.messages ex_chat_editing_A) [] false None [] true.
Proof.
  split; [reflexivity|].
  rewrite (feedback_error_status_treated_as_success
             ex_chat_env_bad_gateway ex_chat_editing_A Chat.down ex_turn_A
             (mkResponse 502 (BodyObject tt))).
  - reflexivity.
  - reflexivity.
  - reflexivity.
  - reflexivity.
  - reflexivity.
Defined.

(** * Further properties of the chat variant *)

(** Every run of [handleFeedback] is one of four: nothing happens; the
    editor of the turn opens; a request leaves and the promise resolves;
    a request leaves and the promise rejects. *)
Lemma chat_feedback_cases (env : Chat.Env) (s : Chat.State)
    (rating : Chat.Rating) (m : Chat.Message) :
  Chat.run (fun snap => Chat.handleFeedback env snap rating m) s
  = (Chat.mkWorld s [], Ok tt)
  \/ (truthy (Chat.conversationId m) = true
      /\ rating = Chat.down
      /\ truthy (Chat.feedbackMode s) = false
      /\ Chat.run (fun snap => Chat.handleFeedback env snap rating m) s
         = (Chat.mkWorld (chat_editor_opened s m) [], Ok tt))
  \/ (truthy (Chat.conversationId m) = true
      /\ Chat.is_down rating && negb (truthy (Chat.feedbackMode s)) = false
      /\ Chat.run (fun snap => Chat.handleFeedback env snap rating m) s
         = (Chat.mkWorld (chat_after_feedback s)
              [Chat.Fetch (Chat.PostFeedback (chat_feedback_request s rating m));
               Chat.SetTimeout Chat.HideFeedbackSuccess 3000],
            Ok tt))
  \/ (truthy (Chat.conversationId m) = true
      /\ Chat.is_down rating && negb (truthy (Chat.feedbackMode s)) = false
      /\ exists e,
           Chat.run (fun snap => Chat.handleFeedback env snap rating m) s
           = (Chat.mkWorld s
                [Chat.Fetch (Chat.PostFeedback (chat_feedback_request s rating m));
                 Chat.ConsoleError "Error submitting feedback:" e],
              Ok tt)).
Proof.
  destruct (truthy (Chat.conversationId m)) eqn:Hm.
  - destruct (Chat.is_down rating && negb (truthy (Chat.feedbackMode s))) eqn:Hg.
    + right; left.
      apply andb_true_iff in Hg. destruct Hg as [Hd Hf].
      apply negb_true_iff in Hf.
      destruct rating; [discriminate|].
      repeat split; try assumption.
      apply (chat_feedback_opens env s m Hm Hf).
    + destruct (Chat.feedback_reply env (chat_feedback_request s rating m))
        as [e|r] eqn:Hr.
      * right; right; right. repeat split; try assumption. exists e.
        apply (chat_feedback_rejected env s rating m e Hm Hg Hr).
      * right; right; left. repeat split; try assumption.
        apply (chat_feedback_resolved env s rating m r Hm Hg Hr).
  - left. apply (chat_feedback_no_ref env s rating m Hm).
Qed.

(** Every run of [handleSubmit] is a refusal or an acceptance. *)
Lemma chat_submit_cases (env : Chat.Env) (s : Chat.State) :
  (ChatUI.sendDisabled s = true
   /\ Chat.run (Chat.handleSubmit env) s
      = (Chat.mkWorld s [Chat.PreventDefault], Ok tt))
  \/ (ChatUI.sendDisabled s = false
      /\ snd (Chat.run (Chat.handleSubmit env) s) = Ok tt
      /\ Chat.state (fst (Chat.run (Chat.handleSubmit env) s))
         = Chat.mkState
             (Chat.messages s
                ++ [Chat.mkMessage Chat.user (Chat.input s) None None;
                    chat_reply_turn env s])
             [] false (Chat.feedbackMode s) (Chat.feedbackComment s)
             (Chat.showFeedbackSuccess s)
      /\ Chat.requests (Chat.trace (fst (Chat.run (Chat.handleSubmit env) s)))
         = [Chat.PostPetition (chat_request s)]).
Proof.
  unfold ChatUI.sendDisabled.
  destruct (negb (truthy_string (trim (Chat.input s)))) eqn:Hb;
    [|destruct (Chat.loading s) eqn:Hl].
  - left. split; [reflexivity|].
    apply chat_submit_refused. left. now apply falsy_trim_iff.
  - left. split; [reflexivity|].
    apply chat_submit_refused. now right.
  - right. split; [reflexivity|].
    apply chat_submit_accepted; [now apply falsy_trim_false_iff|assumption].
Qed.

Lemma chat_reply_turn_is_assistant (env : Chat.Env) (s : Chat.State) :
  Chat.role (chat_reply_turn env s) = Chat.assistant.
Proof.
  unfold chat_reply_turn.
  destruct (Chat.petition_reply env (chat_request s)) as [e|r]; [reflexivity|].
  destruct (ok r); [|reflexivity]. now destruct (body r).
Qed.

(** Enter without Shift is a submission: the same state, the same
    requests, the same completion. *)
Lemma chat_keydown_enter (env : Chat.Env) (s : Chat.State) (e : ChatUI.KeyEvent) :
  jsstring_eqb (ChatUI.key e) (lit "Enter") && negb (ChatUI.shiftKey e) = true ->
  Chat.state (fst (Chat.run (fun snap => ChatUI.onKeyDown env snap e) s))
  = Chat.state (fst (Chat.run (Chat.handleSubmit env) s))
  /\ Chat.requests
       (Chat.trace (fst (Chat.run (fun snap => ChatUI.onKeyDown env snap e) s)))
     = Chat.requests (Chat.trace (fst (Chat.run (Chat.handleSubmit env) s)))
  /\ snd (Chat.run (fun snap => ChatUI.onKeyDown env snap e) s)
     = snd (Chat.run (Chat.handleSubmit env) s).
Proof.
  intros He. unfold ChatUI.onKeyDown. rewrite He.
  unfold_chat. simpl.
  destruct (negb (truthy_string (trim (Chat.input s))) || Chat.loading s);
    [repeat split|].
  simpl.
  destruct (Chat.petition_reply env _) as [err|r]; simpl; [repeat split|].
  destruct (ok r); simpl; [|repeat split].
  destruct (body r); simpl; repeat split.
Qed.

Lemma chat_keydown_other (env : Chat.Env) (s : Chat.State) (e : ChatUI.KeyEvent) :
  jsstring_eqb (ChatUI.key e) (lit "Enter") && negb (ChatUI.shiftKey e) = false ->
  Chat.run (fun snap => ChatUI.onKeyDown env snap e) s
  = (Chat.mkWorld s [], Ok tt).
Proof.
  intros He. unfold Chat.run, ChatUI.onKeyDown. rewrite He. reflexivity.
Qed.

(** ** The page with handlers in flight *)











(** The invariant does not look at the text typed into the message
    box. *)
Lemma chat_invariant_input (s : Chat.State) (l : list ChatUI.Pending)
    (v : jsstring) :
  chat_invariant (ChatUI.mkPage s l) ->
  chat_invariant
    (ChatUI.mkPage
       (Chat.mkState (Chat.messages s) v (Chat.loading s) (Chat.feedbackMode s)
          (Chat.feedbackComment s) (Chat.showFeedbackSuccess s))
       l).
Proof. intros H. exact H. Qed.









(** X2.  Opening the comment editor of a turn, typing a comment and
    pressing Cancel is a round trip: from a state with no editor open and
    an empty comment buffer it leads back to that very state, and nothing
    is sent on the way. *)
Theorem open_type_cancel_round_trip
    (env : Chat.Env) (s : Chat.State) (m : Chat.Message) (c : jsstring) :
  Chat.hasFeedbackControls m = true ->
  Chat.feedbackMode s = None ->
  Chat.feedbackComment s = [] ->
  chat_play env s
    [ChatUI.ClickThumb Chat.down m; ChatUI.TypeComment c; ChatUI.ClickCancel]
  = (s, []).
Proof.
  intros Hctl Hfm Hfc.
  pose proof (hasFeedbackControls_truthy m Hctl) as Ht.
  unfold chat_play, ChatUI.handler.
  rewrite (chat_feedback_opens env s m Ht) by (rewrite Hfm; reflexivity).
  simpl. destruct s; simpl in *. subst. reflexivity.
Qed.

Lemma open_type_cancel_round_trip_witness :
  chat_play ex_chat_env_offline ex_chat_idle
    [ChatUI.ClickThumb Chat.down ex_turn_A; ChatUI.TypeComment (lit "too long");
     ChatUI.ClickCancel]
  = (ex_chat_idle, []).
Proof.
  apply (open_type_cancel_round_trip ex_chat_env_offline ex_chat_idle ex_turn_A
           (lit "too long")); reflexivity.
Defined.



(** X4.  An up rating on a turn with a session reference is posted at
    once, whatever the editor state: exactly one request leaves, with the
    comment buffer as comment ([null] when the buffer is empty, never the
    empty string), and no editor is opened: the state is the one before
    when the promise rejects, and the one with the notice shown, the
    editor closed and the buffer emptied when it resolves. *)
Theorem up_rating_posts_at_once
    (env : Chat.Env) (s : Chat.State) (m : Chat.Message) :
  truthy (Chat.conversationId m) = true ->
  Chat.requests
    (Chat.trace
       (fst (Chat.run (fun snap => Chat.handleFeedback env snap Chat.up m) s)))
  = [Chat.PostFeedback
       (Chat.mkFeedbackBody (Chat.conversationId m) Chat.up
                            (or_null (Chat.feedbackComment s)) (Chat.content m))]
  /\ or_null (Chat.feedbackComment s) <> Some []
  /\ Chat.state
       (fst (Chat.run (fun snap => Chat.handleFeedback env snap Chat.up m) s))
     = match Chat.feedback_reply env (chat_feedback_request s Chat.up m) with
       | Resolved _ => chat_after_feedback s
       | Rejected _ => s
       end.
Proof.
  intros Ht.
  assert (Hg : Chat.is_down Chat.up && negb (truthy (Chat.feedbackMode s)) = false)
    by reflexivity.
  split; [|split].
  - destruct (Chat.feedback_reply env (chat_feedback_request s Chat.up m))
      as [e|r] eqn:Hr.
    + rewrite (chat_feedback_rejected env s Chat.up m e Ht Hg Hr). reflexivity.
    + rewrite (chat_feedback_resolved env s Chat.up m r Ht Hg Hr). reflexivity.
  - unfold or_null. destruct (Chat.feedbackComment s); simpl; discriminate.
  - destruct (Chat.feedback_reply env (chat_feedback_request s Chat.up m))
      as [e|r] eqn:Hr.
    + rewrite (chat_feedback_rejected env s Chat.up m e Ht Hg Hr). reflexivity.
    + rewrite (chat_feedback_resolved env s Chat.up m r Ht Hg Hr). reflexivity.
Qed.

(** An up rating on [ex_turn_B] while the editor of [ex_turn_A] is open
    carries the comment typed there. *)
Lemma up_rating_posts_at_once_witness :
  Chat.requests
    (Chat.trace
       (fst (Chat.run
               (fun snap => Chat.handleFeedback ex_chat_env_up snap Chat.up
                              ex_turn_B)
               ex_chat_editing_A)))
  = [Chat.PostFeedback
       (Chat.mkFeedbackBody (Some (lit "conv-B")) Chat.up
                            (Some (lit "too long")) (lit "PETITION B"))].
Proof.
  destruct (up_rating_posts_at_once ex_chat_env_up ex_chat_editing_A ex_turn_B)
    as [H _].
  - reflexivity.
  - exact H.
Defined.

(** X5.  The Send button and [handleSubmit] agree: the button is
    disabled exactly when a submission would leave the state as it is and
    send nothing, and enabled exactly when a submission adds two turns to
    the thread and sends one request. *)
Theorem send_button_matches_guard (env : Chat.Env) (s : Chat.State) :
  (ChatUI.sendDisabled s = true
   <-> Chat.state (fst (Chat.run (Chat.handleSubmit env) s)) = s)
  /\ (ChatUI.sendDisabled s = true
      <-> Chat.requests (Chat.trace (fst (Chat.run (Chat.handleSubmit env) s)))
          = [])
  /\ (ChatUI.sendDisabled s = false
      <-> List.length
            (Chat.messages (Chat.state (fst (Chat.run (Chat.handleSubmit env) s))))
          = (List.length (Chat.messages s) + 2)%nat)
  /\ (ChatUI.sendDisabled s = false
      <-> List.length
            (Chat.requests (Chat.trace (fst (Chat.run (Chat.handleSubmit env) s))))
          = 1%nat).
Proof.
  destruct (chat_submit_cases env s) as [[Hd ->]|(Hd & _ & Hst & Hreq)];
    rewrite Hd.
  - simpl. repeat split; try reflexivity; try discriminate; intros H; lia.
  - rewrite Hst, Hreq. simpl. rewrite length_app. simpl.
    repeat split; try reflexivity; try discriminate; intros H; exfalso.
    apply (f_equal Chat.messages) in H. simpl in H.
    apply (f_equal (@List.length _)) in H. rewrite length_app in H.
    simpl in H. lia.
Qed.

(** X6.  Each action the page offers, whatever the services answer,
    ends normally, sends at most one request, and leaves the turns that
    were in the thread in place and unchanged: it appends nothing, or
    (an accepted submission) exactly two turns. *)
Theorem chat_action_appends_only
    (env : Chat.Env) (s : Chat.State) (a : ChatUI.Action) :
  snd (Chat.run (ChatUI.handler env a) s) = Ok tt
  /\ (List.length
        (Chat.requests (Chat.trace (fst (Chat.run (ChatUI.handler env a) s))))
      <= 1)%nat
  /\ exists new,
       Chat.messages (ChatUI.step env s a) = Chat.messages s ++ new
       /\ (new = [] \/ List.length new = 2%nat).
Proof.
  assert (Hsubmit :
    snd (Chat.run (Chat.handleSubmit env) s) = Ok tt
    /\ (List.length
          (Chat.requests (Chat.trace (fst (Chat.run (Chat.handleSubmit env) s))))
        <= 1)%nat
    /\ exists new,
         Chat.messages (Chat.state (fst (Chat.run (Chat.handleSubmit env) s)))
         = Chat.messages s ++ new
         /\ (new = [] \/ List.length new = 2%nat)).
  { destruct (chat_submit_cases env s) as [[_ ->]|(_ & Hres & Hst & Hreq)].
    - simpl. repeat split; [lia|]. exists []. rewrite app_nil_r. auto.
    - rewrite Hres, Hst, Hreq. simpl. repeat split; [lia|].
      eexists. split; [reflexivity|]. now right. }
  assert (Hfeedback : forall rating m,
    snd (Chat.run (fun snap => Chat.handleFeedback env snap rating m) s) = Ok tt
    /\ (List.length
          (Chat.requests
             (Chat.trace
                (fst (Chat.run
                        (fun snap => Chat.handleFeedback env snap rating m) s))))
        <= 1)%nat
    /\ exists new,
         Chat.messages
           (Chat.state
              (fst (Chat.run
                      (fun snap => Chat.handleFeedback env snap rating m) s)))
         = Chat.messages s ++ new
         /\ (new = [] \/ List.length new = 2%nat)).
  { intros rating m.
    destruct (chat_feedback_cases env s rating m)
      as [->|[(_ & _ & _ & ->)|[(_ & _ & ->)|(_ & _ & e & ->)]]]; simpl;
      (repeat split; [lia|]); exists []; rewrite app_nil_r; auto. }
  unfold ChatUI.step.
  destruct a as [v| |e|rating m|v|m| |c]; unfold ChatUI.handler.
  - simpl. repeat split; [lia|]. exists []. rewrite app_nil_r. auto.
  - exact Hsubmit.
  - destruct (jsstring_eqb (ChatUI.key e) (lit "Enter")
              && negb (ChatUI.shiftKey e)) eqn:He.
    + destruct (chat_keydown_enter env s e He) as (-> & -> & ->).
      exact Hsubmit.
    + rewrite (chat_keydown_other env s e He). simpl.
      repeat split; [lia|]. exists []. rewrite app_nil_r. auto.
  - apply Hfeedback.
  - simpl. repeat split; [lia|]. exists []. rewrite app_nil_r. auto.
  - apply Hfeedback.
  - simpl. repeat split; [lia|]. exists []. rewrite app_nil_r. auto.
  - destruct c. simpl. repeat split; [lia|]. exists []. rewrite app_nil_r. auto.
Qed.

(** ** The exported text *)

Lemma join_app (sep : jsstring) (a b : list jsstring) :
  ChatUI.join sep (a ++ b)
  = match a, b with
    | [], _ => ChatUI.join sep b
    | _, [] => ChatUI.join sep a
    | _ :: _, _ :: _ => ChatUI.join sep a ++ sep ++ ChatUI.join sep b
    end.
Proof.
  induction a as [|x a IH].
  - reflexivity.
  - destruct b as [|y b].
    + now rewrite app_nil_r.
    + destruct a as [|x' a].
      * reflexivity.
      * change (ChatUI.join sep ((x :: x' :: a) ++ y :: b))
          with (x ++ sep ++ ChatUI.join sep ((x' :: a) ++ y :: b)).
        rewrite IH.
        change (ChatUI.join sep (x :: x' :: a))
          with (x ++ sep ++ ChatUI.join sep (x' :: a)).
        now rewrite <- !app_assoc.
Qed.

(** X7.  The text [downloadPetition] exports is built turn by turn: an
    empty thread gives the empty text; one turn gives its role in
    capitals ("USER" or "ASSISTANT"), a colon, a space and its content;
    and the text of a thread continued by further turns is the text of
    the thread, then a blank line, a rule of three dashes and another
    blank line, then the text of the further turns, so the turns appear
    in the order of the thread. *)
Theorem petitionText_grows_with_thread (a b : list Chat.Message) (m : Chat.Message) :
  ChatUI.petitionText [] = []
  /\ ChatUI.petitionText [m]
     = match Chat.role m with
       | Chat.user => lit "USER: "
       | Chat.assistant => lit "ASSISTANT: "
       end ++ Chat.content m
  /\ ChatUI.petitionText (a ++ b)
     = match a, b with
       | [], _ => ChatUI.petitionText b
       | _, [] => ChatUI.petitionText a
       | _ :: _, _ :: _ =>
           ChatUI.petitionText a
             ++ [10; 10; 45; 45; 45; 10; 10]%N
             ++ ChatUI.petitionText b
       end
  /\ lit "---" = [45; 45; 45]%N
  /\ ChatUI.petitionText
       [Chat.mkMessage Chat.user (lit "first case") None None; ex_turn_A]
     = lit "USER: first case" ++ [10; 10]%N ++ lit "---" ++ [10; 10]%N
         ++ lit "ASSISTANT: PETITION A".
Proof.
  split; [reflexivity|]. split; [|split; [|split; reflexivity]].
  - unfold ChatUI.petitionText, ChatUI.exportLine. simpl.
    destruct (Chat.role m); reflexivity.
  - unfold ChatUI.petitionText. rewrite map_app, join_app.
    destruct a, b; reflexivity.
Qed.

Lemma splitHead_app (sep : N) (date rest : jsstring) :
  ~ In sep date -> ChatUI.splitHead sep (date ++ sep :: rest) = date.
Proof.
  induction date as [|c date IH]; simpl; intros Hn.
  - now rewrite N.eqb_refl.
  - destruct (N.eqb_spec c sep) as [->|Hne].
    + exfalso. apply Hn. now left.
    + f_equal. apply IH. intros Hin. apply Hn. now right.
Qed.

(** X8.  The file [downloadPetition] saves is named after the date of
    the day: when the ISO time stamp is a date (free of the letter T), a
    T and a time, the name is "petition_", that date and ".txt"; the
    file is plain text and holds the exported thread. *)
Theorem downloadPetition_file
    (messages : list Chat.Message) (date rest : jsstring) :
  ~ In 84%N date ->
  ChatUI.downloadPetition messages (date ++ 84%N :: rest)
  = ChatUI.mkSavedFile (lit "petition_" ++ date ++ lit ".txt") "text/plain"
                       (ChatUI.petitionText messages).
Proof.
  intros Hn. unfold ChatUI.downloadPetition.
  now rewrite (splitHead_app 84 date rest Hn).
Qed.

Lemma downloadPetition_file_witness :
  ChatUI.file_name
    (ChatUI.downloadPetition (Chat.messages ex_chat_idle)
       (lit "2024-05-01" ++ 84%N :: lit "10:00:00.000Z"))
  = lit "petition_2024-05-01.txt".
Proof.
  rewrite (downloadPetition_file (Chat.messages ex_chat_idle)
             (lit "2024-05-01") (lit "10:00:00.000Z")).
  - reflexivity.
  - vm_compute. intros H.
    repeat (destruct H as [H|H]; [discriminate H|]). exact H.
Defined.

(** * Further properties of the structured variant *)

Ltac unfold_structured_ui :=
  unfold StructuredUI.run, StructuredUI.checkSystemHealth,
    StructuredUI.loadTemplates, StructuredUI.handleDownloadDocx,
    StructuredUI.API_healthCheck, StructuredUI.API_getTemplates,
    StructuredUI.API_downloadDocx, StructuredUI.fetch, StructuredUI.settle,
    StructuredUI.json, StructuredUI.read, StructuredUI.lift, StructuredUI.emit,
    StructuredUI.setSystemStatus, StructuredUI.setTemplates,
    Structured.addSystemMessage, Structured.alert, Structured.newDate,
    Structured.setMessages, Structured.setState, Structured.emit;
  unfold_monad.

Lemma is_string_true_iff (text : jsstring) (v : option Json) :
  is_string text v = true <-> v = Some (JString text).
Proof.
  unfold is_string, jsstring_eqb.
  destruct v as [[| | |x| |]|]; try (split; [discriminate|congruence]).
  destruct (list_eq_dec N.eq_dec x text) as [->|Hne].
  - split; reflexivity.
  - split; [discriminate|congruence].
Qed.

(** The verdict of the health check, by the reply. *)
Lemma health_verdict_system (o : Outcome Json) :
  health_verdict o = Structured.system
  <-> exists r members,
        o = Resolved r
        /\ body r = BodyObject (JObject members)
        /\ member (lit "status") members = Some (JString (lit "healthy")).
Proof.
  unfold health_verdict. split.
  - destruct o as [e|r]; [discriminate|].
    destruct (body r) as [| |v] eqn:Hb; simpl; try discriminate.
    destruct v as [| | | | |members]; simpl; try discriminate.
    destruct (is_string (lit "healthy") (member (lit "status") members)) eqn:H;
      [|discriminate].
    intros _. exists r, members. apply is_string_true_iff in H. now repeat split.
  - intros (r & members & -> & Hb & Hm). rewrite Hb. simpl. rewrite Hm.
    now rewrite (proj2 (is_string_true_iff (lit "healthy") _) eq_refl).
Qed.

Lemma health_verdict_error (o : Outcome Json) :
  health_verdict o = Structured.error
  <-> match o with
      | Rejected _ => True
      | Resolved r => parsed (body r) = None \/ parsed (body r) = Some JNull
      end.
Proof.
  unfold health_verdict.
  destruct o as [e|r]; [now split|].
  destruct (parsed (body r)) as [v|]; [|split; auto].
  destruct v; try (split; [now right|reflexivity]);
    (split; [intros H|intros [H|H]; discriminate H]);
    simpl in H;
    match type of H with
    | (if ?c then _ else _) = _ => destruct c; discriminate H
    | _ => discriminate H
    end.
Qed.

Lemma health_verdict_warning (o : Outcome Json) :
  health_verdict o = Structured.warning
  <-> exists r v,
        o = Resolved r
        /\ parsed (body r) = Some v
        /\ v <> JNull
        /\ property (lit "status") v <> Some (JString (lit "healthy")).
Proof.
  unfold health_verdict. split.
  - destruct o as [e|r]; [discriminate|].
    destruct (parsed (body r)) as [v|] eqn:Hv; [|discriminate].
    intros H. exists r, v. split; [reflexivity|]. split; [exact Hv|].
    destruct v; try discriminate H;
      (split; [discriminate|]); intros Hp;
      apply (is_string_true_iff (lit "healthy")) in Hp;
      rewrite Hp in H; discriminate H.
  - intros (r & v & -> & -> & Hn & Hp).
    destruct (is_string (lit "healthy") (property (lit "status") v)) eqn:H.
    + apply is_string_true_iff in H. contradiction.
    + destruct v; try reflexivity. contradiction.
Qed.

(** The whole run of the health check. *)
Lemma checkSystemHealth_run
    (env : StructuredUI.Env) (s : Structured.State) (now : N) :
  StructuredUI.run (StructuredUI.checkSystemHealth env) s now
  = (StructuredUI.mkWorld
       (Structured.mkState
          (health_stored (StructuredUI.health_reply env) (Structured.systemStatus s))
          (Structured.loading s)
          (Structured.messages s
             ++ [Structured.mkMessage
                   (health_verdict (StructuredUI.health_reply env))
                   (health_text (health_verdict (StructuredUI.health_reply env)))
                   (now + StructuredUI.elapsed env StructuredUI.GetHealth)%N])
          (Structured.input s) (Structured.sessionId s)
          (Structured.currentDraft s) (Structured.showDraft s)
          (Structured.templates s) (Structured.caseData s))
       [StructuredUI.Fetch StructuredUI.GetHealth]
       (now + StructuredUI.elapsed env StructuredUI.GetHealth)%N,
     Ok tt).
Proof.
  unfold health_stored, health_verdict.
  unfold_structured_ui. simpl.
  destruct (StructuredUI.health_reply env) as [e|r]; simpl.
  - destruct s; reflexivity.
  - destruct (body r) as [| |v]; simpl.
    + destruct s; reflexivity.
    + reflexivity.
    + destruct v; simpl; try reflexivity.
      destruct (is_string (lit "healthy") (member (lit "status") members));
        reflexivity.
Qed.

(** X9.  The health check always appends exactly one turn to the
    thread, sends one request and ends normally.  The turn is of type
    system exactly when a reply arrived whose body is a JSON object with
    the member [status] equal to the string "healthy"; it is of type
    error exactly when the request failed or the body was not JSON or
    was [null]; every other reply gives a warning, whatever JSON value
    it holds: an object without that status, a number, a string, a
    boolean or an array.  The HTTP status plays no part.  Nothing of the
    state changes but the thread and the stored status, which becomes
    the value parsed, whatever it is, and stays when none was parsed. *)
Theorem checkSystemHealth_appends_one_turn
    (env : StructuredUI.Env) (s : Structured.State) (now : N) :
  snd (StructuredUI.run (StructuredUI.checkSystemHealth env) s now) = Ok tt
  /\ StructuredUI.requests
       (StructuredUI.trace
          (fst (StructuredUI.run (StructuredUI.checkSystemHealth env) s now)))
     = [StructuredUI.GetHealth]
  /\ exists turn stored,
       StructuredUI.state
         (fst (StructuredUI.run (StructuredUI.checkSystemHealth env) s now))
       = Structured.mkState stored (Structured.loading s)
           (Structured.messages s ++ [turn])
           (Structured.input s) (Structured.sessionId s)
           (Structured.currentDraft s) (Structured.showDraft s)
           (Structured.templates s) (Structured.caseData s)
       /\ (Structured.type turn = Structured.system
           <-> exists r members,
                 StructuredUI.health_reply env = Resolved r
                 /\ body r = BodyObject (JObject members)
                 /\ member (lit "status") members
                    = Some (JString (lit "healthy")))
       /\ (Structured.type turn = Structured.error
           <-> match StructuredUI.health_reply env with
               | Rejected _ => True
               | Resolved r =>
                   parsed (body r) = None \/ parsed (body r) = Some JNull
               end)
       /\ (Structured.type turn = Structured.warning
           <-> exists r v,
                 StructuredUI.health_reply env = Resolved r
                 /\ parsed (body r) = Some v
                 /\ v <> JNull
                 /\ property (lit "status") v
                    <> Some (JString (lit "healthy")))
       /\ (forall r v,
             StructuredUI.health_reply env = Resolved r ->
             parsed (body r) = Some v ->
             (forall members, v <> JObject members) ->
             v <> JNull ->
             Structured.type turn = Structured.warning)
       /\ Structured.content turn = health_text (Structured.type turn)
       /\ (forall r v,
             StructuredUI.health_reply env = Resolved r ->
             parsed (body r) = Some v ->
             stored = v)
       /\ ((forall r, StructuredUI.health_reply env = Resolved r ->
                      parsed (body r) = None) ->
           stored = Structured.systemStatus s).
Proof.
  rewrite (checkSystemHealth_run env s now). simpl.
  split; [reflexivity|]. split; [reflexivity|].
  eexists _, _. split; [reflexivity|]. simpl.
  split; [apply health_verdict_system|].
  split; [apply health_verdict_error|].
  split; [apply health_verdict_warning|].
  split; [|split; [reflexivity|split]].
  - intros r v Hr Hp Hno Hn. apply health_verdict_warning.
    exists r, v. repeat split; auto.
    destruct v; try discriminate. exfalso. now apply (Hno members).
  - intros r v Hr Hp. unfold health_stored. now rewrite Hr, Hp.
  - intros H. unfold health_stored.
    destruct (StructuredUI.health_reply env) as [e|r]; [reflexivity|].
    now rewrite (H r eq_refl).
Qed.

(** The health endpoint answers 200 with the number 5: a warning. *)
Example checkSystemHealth_on_a_number :
  let env := StructuredUI.mkEnv
               (Resolved (mkResponse 200 (BodyObject (JNumber 5))))
               (Rejected ex_failed_to_fetch)
               (fun _ => Rejected ex_failed_to_fetch)
               (fun _ => 40%N) (fun _ => lit "blob:1")
               ex_failed_to_fetch ex_failed_to_fetch in
  StructuredUI.state
    (fst (StructuredUI.run (StructuredUI.checkSystemHealth env)
            StructuredUI.initial 0))
  = Structured.mkState (JNumber 5) false
      [Structured.mkMessage Structured.warning
         (lit "Warning: System health check failed. Some features may not work.")
         40]
      [] None None false (JArray [])
      (Structured.caseData StructuredUI.initial).
Proof. reflexivity. Qed.



(** The template endpoint answers 200 with the number 5: the catalog
    becomes the empty array. *)
Example loadTemplates_on_a_number :
  let env := StructuredUI.mkEnv
               (Rejected ex_failed_to_fetch)
               (Resolved (mkResponse 200 (BodyObject (JNumber 5))))
               (fun _ => Rejected ex_failed_to_fetch)
               (fun _ => 40%N) (fun _ => lit "blob:1")
               ex_failed_to_fetch ex_failed_to_fetch in
  let s := Structured.mkState JNull false [] [] None None false
             (JArray [JString (lit "civil_revision")])
             (Structured.caseData StructuredUI.initial) in
  Structured.templates
    (StructuredUI.state (fst (StructuredUI.run (StructuredUI.loadTemplates env) s 0)))
  = JArray [].
Proof. reflexivity. Qed.

(** X11.  Exporting the draft never changes the state.  Without a
    draft nothing happens at all.  With one, exactly one request leaves,
    for that draft; a success reply makes the browser save one file,
    named "petition_", the draft id and ".docx", and shows no alert; any
    failure saves nothing and shows one alert. *)
Theorem handleDownloadDocx_effects
    (env : StructuredUI.Env) (s : Structured.State) (now : N) :
  snd (StructuredUI.run (StructuredUI.handleDownloadDocx env s) s now) = Ok tt
  /\ StructuredUI.state
       (fst (StructuredUI.run (StructuredUI.handleDownloadDocx env s) s now))
     = s
  /\ match Structured.currentDraft s with
     | None =>
         StructuredUI.trace
           (fst (StructuredUI.run (StructuredUI.handleDownloadDocx env s) s now))
         = []
     | Some draft =>
         StructuredUI.requests
           (StructuredUI.trace
              (fst (StructuredUI.run (StructuredUI.handleDownloadDocx env s) s now)))
         = [StructuredUI.GetDocx (Structured.draft_id draft)]
         /\ match docx_blob (StructuredUI.docx_reply env (Structured.draft_id draft)) with
            | Some blob =>
                StructuredUI.saved
                  (StructuredUI.trace
                     (fst (StructuredUI.run
                             (StructuredUI.handleDownloadDocx env s) s now)))
                = [StructuredUI.mkAnchor
                     (StructuredUI.objectURL env blob)
                     (lit "petition_" ++ Structured.draft_id draft ++ lit ".docx")]
                /\ ui_alerts
                     (StructuredUI.trace
                        (fst (StructuredUI.run
                                (StructuredUI.handleDownloadDocx env s) s now)))
                   = []
            | None =>
                StructuredUI.saved
                  (StructuredUI.trace
                     (fst (StructuredUI.run
                             (StructuredUI.handleDownloadDocx env s) s now)))
                = []
                /\ exists reason,
                     ui_alerts
                       (StructuredUI.trace
                          (fst (StructuredUI.run
                                  (StructuredUI.handleDownloadDocx env s) s now)))
                     = [lit "Error downloading DOCX: " ++ reason]
            end
     end.
Proof.
  unfold docx_blob. unfold_structured_ui.
  destruct (Structured.currentDraft s) as [draft|]; [|repeat split].
  simpl.
  destruct (StructuredUI.docx_reply env (Structured.draft_id draft)) as [e|r];
    simpl.
  - repeat split. now exists (message e).
  - destruct (ok r); simpl.
    + destruct (body r) as [| |blob]; simpl; repeat split.
      now exists (message (StructuredUI.bodyError env)).
    + repeat split. now exists (lit "Failed to download DOCX").
Qed.

(** ** Generating and finalizing a draft *)

(** A success reply. *)
Lemma structured_generate_success (env : Structured.Env) (s : Structured.State)
    (now : N) (r : Response (Structured.Payload Structured.Draft)) :
  blank (Structured.facts (Structured.caseData s)) = false ->
  Structured.generate_reply env (Structured.caseData s) = Resolved r ->
  ok r = true ->
  let later := (now + Structured.elapsed env
                        (Structured.PostGenerate (Structured.caseData s)))%N in
  Structured.run (Structured.handleGeneratePetition env) s now
  = (Structured.mkWorld
       (Structured.mkState
          (Structured.systemStatus s) false
          (Structured.messages s ++ [generating_turn now; generated_turn later])
          (Structured.input s) (Structured.sessionId s)
          (option_map (@Structured.fields Structured.Draft)
                      (Structured.json_or_null r))
          true
          (Structured.templates s) (Structured.caseData s))
       [Structured.Fetch (Structured.PostGenerate (Structured.caseData s))]
       later,
     Ok tt).
Proof.
  intros Hb Hr Hok later. subst later.
  apply falsy_trim_false_iff in Hb.
  unfold generating_turn, generated_turn.
  unfold_structured. rewrite Hb. simpl. rewrite Hr. simpl. rewrite Hok. simpl.
  rewrite <- app_assoc. reflexivity.
Qed.


Lemma structured_finalize_success (env : Structured.Env) (s : Structured.State)
    (now : N) (draft : Structured.Draft) (name id : jsstring)
    (r : Response (Structured.Payload Structured.FinalizeReply))
    (p : Structured.Payload Structured.FinalizeReply) :
  Structured.currentDraft s = Some draft ->
  Structured.prompt_reply env (lit "Enter your name:") = Some name ->
  Structured.prompt_reply env (lit "Enter your Bar Council ID:") = Some id ->
  truthy_string name = true ->
  truthy_string id = true ->
  Structured.finalize_reply env (Structured.draft_id draft)
    (finalize_request draft (Some name) (Some id)) = Resolved r ->
  ok r = true ->
  body r = BodyObject p ->
  let req := Structured.PostFinalize (Structured.draft_id draft)
               (finalize_request draft (Some name) (Some id)) in
  let later := (now + Structured.elapsed env req)%N in
  Structured.run (Structured.handleFinalize env) s now
  = (Structured.mkWorld
       (Structured.mkState
          (Structured.systemStatus s) false
          (Structured.messages s
             ++ [Structured.mkMessage Structured.system
                   (lit "Petition finalized by " ++ name ++ lit " (" ++ id
                      ++ lit ")") later])
          (Structured.input s) (Structured.sessionId s)
          (Structured.currentDraft s) (Structured.showDraft s)
          (Structured.templates s) (Structured.caseData s))
       [Structured.Prompt (lit "Enter your name:");
        Structured.Prompt (lit "Enter your Bar Council ID:");
        Structured.Fetch req;
        Structured.Alert
          (lit "Petition finalized successfully!" ++ [10%N]
             ++ lit "Draft ID: "
             ++ Structured.final_draft_id (Structured.fields p) ++ [10%N]
             ++ lit "Status: " ++ Structured.final_status (Structured.fields p))]
       later,
     Ok tt).
Proof.
  intros Hd Hn Hi Htn Hti Hr Hok Hbody req later. subst req later.
  unfold finalize_request in *.
  unfold_structured. rewrite Hd. simpl. rewrite Hn, Hi. simpl.
  rewrite Htn, Hti. simpl. rewrite Hr. simpl.
  unfold Structured.json_or_null. rewrite Hok, Hbody. simpl.
  rewrite ?Hd. reflexivity.
Qed.


Lemma exchange_succeeds_or_fails
    (o : Outcome (Structured.Payload Structured.ChatReply)) :
  (exists r p, o = Resolved r /\ ok r = true /\ body r = BodyObject p)
  \/ structured_exchange_fails o.
Proof.
  destruct o as [e|r]; simpl; [now right|].
  destruct (ok r) eqn:Hok; [|right; now left].
  destruct (body r) as [| |p] eqn:Hb.
  - right. now right.
  - right. now right.
  - left. now exists r, p.
Qed.

(** The three ways an accepted submission of [handleSendMessage] can
    go, by the reply and the session id of the snapshot. *)
Lemma exchange_cases (sid : option jsstring)
    (o : Outcome (Structured.Payload Structured.ChatReply)) :
  (exists r p, o = Resolved r /\ ok r = true /\ body r = BodyObject p)
  \/ (transport_failure o
      \/ (structured_exchange_fails o /\ truthy sid = false))
  \/ (exists r, o = Resolved r /\ ok r = true
                /\ (forall p, body r <> BodyObject p)
                /\ truthy sid = true).
Proof.
  destruct o as [e|r]; simpl; [right; left; now left|].
  destruct (ok r) eqn:Hok; [|right; left; now left].
  destruct (body r) as [| |p] eqn:Hb;
    [| |left; now exists r, p];
    (destruct (truthy sid) eqn:Hs;
     [ right; right; exists r; repeat split; auto; intros q; rewrite Hb; discriminate
     | right; left; right; split; [now right|reflexivity] ]).
Qed.

Lemma truthy_inv (v : option jsstring) :
  truthy v = true -> exists x, v = Some x /\ truthy_string x = true.
Proof.
  destruct v as [x|]; simpl; [|discriminate]. intros H. now exists x.
Qed.


(** X13.  A successful generation replaces the draft wholesale: the
    draft afterwards is the object of the reply, whatever draft was held
    before, and no draft at all when the success reply has no JSON body
    (the preview then shows nothing, though the thread reports success);
    the preview is switched on, the busy flag is cleared, the thread
    gains the progress turn and the success turn, and one request has
    left, carrying the case form as it was. *)
Theorem generate_success_replaces_draft
    (env : Structured.Env) (s : Structured.State) (now : N)
    (r : Response (Structured.Payload Structured.Draft)) :
  blank (Structured.facts (Structured.caseData s)) = false ->
  Structured.generate_reply env (Structured.caseData s) = Resolved r ->
  ok r = true ->
  Structured.currentDraft
    (Structured.state
       (fst (Structured.run (Structured.handleGeneratePetition env) s now)))
  = match body r with
    | BodyObject p => Some (Structured.fields p)
    | BodyNull | BodyInvalid => None
    end
  /\ Structured.showDraft
       (Structured.state
          (fst (Structured.run (Structured.handleGeneratePetition env) s now)))
     = true
  /\ StructuredUI.previewShown
       (Structured.state
          (fst (Structured.run (Structured.handleGeneratePetition env) s now)))
     = match body r with
       | BodyObject _ => true
       | BodyNull | BodyInvalid => false
       end
  /\ Structured.loading
       (Structured.state
          (fst (Structured.run (Structured.handleGeneratePetition env) s now)))
     = false
  /\ Structured.messages
       (Structured.state
          (fst (Structured.run (Structured.handleGeneratePetition env) s now)))
     = Structured.messages s
         ++ [generating_turn now;
             generated_turn
               (now + Structured.elapsed env
                        (Structured.PostGenerate (Structured.caseData s)))%N]
  /\ Structured.requests
       (Structured.trace
          (fst (Structured.run (Structured.handleGeneratePetition env) s now)))
     = [Structured.PostGenerate (Structured.caseData s)].
Proof.
  intros Hb Hr Hok.
  rewrite (structured_generate_success env s now r Hb Hr Hok). simpl.
  unfold StructuredUI.previewShown, Structured.json_or_null. simpl.
  destruct (body r); repeat split.
Qed.

Lemma generate_success_replaces_draft_witness :
  Structured.currentDraft
    (Structured.state
       (fst (Structured.run (Structured.handleGeneratePetition ex_structured_env_up)
                            ex_structured_filled 0%N)))
  = Some ex_draft.
Proof.
  destruct (generate_success_replaces_draft ex_structured_env_up
              ex_structured_filled 0%N
              (mkResponse 200 (BodyObject (Structured.mkPayload None ex_draft))))
    as [H _].
  - reflexivity.
  - reflexivity.
  - reflexivity.
  - exact H.
Defined.



(** X15.  A successful finalization: with a draft held and both
    dialogs answered, one request leaves for that draft, carrying its id,
    the name and the bar council id as typed and the note "Approved for
    filing"; the user is shown the id and status of the reply; the thread
    gains one system turn naming the approver; the busy flag is cleared
    and the draft itself is not changed. *)
Theorem finalize_success_reports_approver
    (env : Structured.Env) (s : Structured.State) (now : N)
    (draft : Structured.Draft) (name id : jsstring)
    (p : Structured.Payload Structured.FinalizeReply) :
  Structured.currentDraft s = Some draft ->
  Structured.prompt_reply env (lit "Enter your name:") = Some name ->
  Structured.prompt_reply env (lit "Enter your Bar Council ID:") = Some id ->
  truthy_string name = true ->
  truthy_string id = true ->
  succeeds_with
    (Structured.finalize_reply env (Structured.draft_id draft)
       (Structured.mkApproverData (Structured.draft_id draft) (Some name)
                                  (Some id) (lit "Approved for filing")))
    p ->
  Structured.requests
    (Structured.trace (fst (Structured.run (Structured.handleFinalize env) s now)))
  = [Structured.PostFinalize (Structured.draft_id draft)
       (Structured.mkApproverData (Structured.draft_id draft) (Some name)
                                  (Some id) (lit "Approved for filing"))]
  /\ In (Structured.Alert
           (lit "Petition finalized successfully!" ++ [10%N]
              ++ lit "Draft ID: "
              ++ Structured.final_draft_id (Structured.fields p) ++ [10%N]
              ++ lit "Status: " ++ Structured.final_status (Structured.fields p)))
        (Structured.trace
           (fst (Structured.run (Structured.handleFinalize env) s now)))
  /\ (exists ts,
        Structured.messages
          (Structured.state
             (fst (Structured.run (Structured.handleFinalize env) s now)))
        = Structured.messages s
            ++ [Structured.mkMessage Structured.system
                  (lit "Petition finalized by " ++ name ++ lit " (" ++ id
                     ++ lit ")") ts])
  /\ Structured.currentDraft
       (Structured.state
          (fst (Structured.run (Structured.handleFinalize env) s now)))
     = Some draft
  /\ Structured.loading
       (Structured.state
          (fst (Structured.run (Structured.handleFinalize env) s now)))
     = false.
Proof.
  intros Hd Hn Hi Htn Hti Hs.
  unfold succeeds_with in Hs.
  destruct (Structured.finalize_reply env (Structured.draft_id draft) _)
    as [e|r] eqn:Hr; [contradiction|].
  destruct Hs as [Hok Hbody].
  rewrite (structured_finalize_success env s now draft name id r p
             Hd Hn Hi Htn Hti Hr Hok Hbody).
  simpl. repeat split.
  - right; right; right. now left.
  - eexists. reflexivity.
  - exact Hd.
Qed.

Lemma finalize_success_reports_approver_witness :
  Structured.requests
    (Structured.trace
       (fst (Structured.run (Structured.handleFinalize ex_structured_env_signed)
                            ex_structured_ready 0%N)))
  = [Structured.PostFinalize (lit "d-1")
       (Structured.mkApproverData (lit "d-1") (Some (lit "A. Khan"))
                                  (Some (lit "LHC-1234"))
                                  (lit "Approved for filing"))].
Proof.
  destruct (finalize_success_reports_approver ex_structured_env_signed
              ex_structured_ready 0%N ex_draft (lit "A. Khan") (lit "LHC-1234")
              (Structured.mkPayload None
                 (Structured.mkFinalizeReply (lit "d-1") (lit "finalized"))))
    as [H _].
  - reflexivity.
  - reflexivity.
  - reflexivity.
  - reflexivity.
  - reflexivity.
  - split; reflexivity.
  - exact H.
Defined.



(** ** The session reference of the structured variant *)

Lemma structured_send_accepted (env : Structured.Env) (s : Structured.State)
    (now : N) :
  blank (Structured.input s) = false ->
  Structured.loading s = false ->
  Structured.requests
    (Structured.trace
       (fst (Structured.run (Structured.handleSendMessage env) s now)))
  = [Structured.PostChat (structured_request s)]
  /\ Structured.loading
       (Structured.state
          (fst (Structured.run (Structured.handleSendMessage env) s now)))
     = false
  /\ (truthy (Structured.sessionId s) = true ->
      Structured.sessionId
        (Structured.state
           (fst (Structured.run (Structured.handleSendMessage env) s now)))
      = Structured.sessionId s).
Proof.
  intros Hb Hl.
  destruct (exchange_cases (Structured.sessionId s)
              (Structured.chat_reply env (structured_request s)))
    as [(r & p & Hr & Hok & Hbody)|[Hf|(r & Hr & Hok & Hbody & Hs)]].
  - rewrite (structured_send_success env s now r p Hb Hl Hr Hok Hbody).
    simpl. repeat split. intros ->. reflexivity.
  - rewrite (structured_send_failure env s now Hb Hl Hf).
    simpl. repeat split.
  - rewrite (structured_send_uncaught env s now r Hb Hl Hr Hok Hbody Hs).
    simpl. repeat split.
Qed.

(** X17.  Once the session holds a session reference, no submission
    changes it, whatever the service answers (even another reference),
    and every request a submission sends carries it, with the text as
    typed. *)
Theorem sessionId_kept_once_set
    (env : Structured.Env) (s : Structured.State) (now : N) :
  truthy (Structured.sessionId s) = true ->
  Structured.sessionId
    (Structured.state
       (fst (Structured.run (Structured.handleSendMessage env) s now)))
  = Structured.sessionId s
  /\ forall req,
       In req (Structured.requests
                 (Structured.trace
                    (fst (Structured.run (Structured.handleSendMessage env) s now)))) ->
       req = Structured.PostChat
               (Structured.mkChatBody (Structured.input s) (Structured.sessionId s)).
Proof.
  intros Ht.
  destruct (blank (Structured.input s)) eqn:Hb;
    [|destruct (Structured.loading s) eqn:Hl].
  - rewrite (structured_send_refused env s now (or_introl Hb)). simpl.
    split; [reflexivity|contradiction].
  - rewrite (structured_send_refused env s now (or_intror Hl)). simpl.
    split; [reflexivity|contradiction].
  - destruct (structured_send_accepted env s now Hb Hl) as (Hreq & _ & Hsid).
    split; [now apply Hsid|].
    rewrite Hreq. intros req [<-|[]]. reflexivity.
Qed.

Lemma sessionId_kept_once_set_witness :
  Structured.sessionId
    (Structured.state
       (fst (Structured.run (Structured.handleSendMessage ex_structured_env_up)
               (Structured.mkState JNull false [] ex_text (Some (lit "earlier"))
                                   None false (JArray []) ex_case)
               0%N)))
  = Some (lit "earlier").
Proof.
  destruct (sessionId_kept_once_set ex_structured_env_up
              (Structured.mkState JNull false [] ex_text (Some (lit "earlier"))
                                  None false (JArray []) ex_case) 0%N) as [H _].
  - reflexivity.
  - exact H.
Defined.

(** X18.  The session reference is carried forward: when the first
    exchange of a session succeeds and the reply supplies a non-empty
    session reference, the request of the next submission carries that
    reference, and the session still holds it afterwards, whatever the
    second reply is. *)
Theorem second_submission_carries_sessionId
    (env : Structured.Env) (s : Structured.State) (now now' : N)
    (p : Structured.Payload Structured.ChatReply) (text : jsstring) :
  blank (Structured.input s) = false ->
  Structured.loading s = false ->
  truthy (Structured.sessionId s) = false ->
  succeeds_with (Structured.chat_reply env (structured_request s)) p ->
  truthy (Structured.reply_session_id (Structured.fields p)) = true ->
  blank text = false ->
  Structured.requests
    (Structured.trace
       (fst (Structured.run (Structured.handleSendMessage env)
               (structured_typed
                  (Structured.state
                     (fst (Structured.run (Structured.handleSendMessage env) s now)))
                  text)
               now')))
  = [Structured.PostChat
       (Structured.mkChatBody text
          (Structured.reply_session_id (Structured.fields p)))]
  /\ Structured.sessionId
       (Structured.state
          (fst (Structured.run (Structured.handleSendMessage env)
                  (structured_typed
                     (Structured.state
                        (fst (Structured.run (Structured.handleSendMessage env)
                                s now)))
                     text)
                  now')))
     = Structured.reply_session_id (Structured.fields p).
Proof.
  intros Hb Hl Hsid Hs Hp Ht.
  unfold succeeds_with in Hs.
  destruct (Structured.chat_reply env (structured_request s)) as [e|r] eqn:Hr;
    [contradiction|].
  destruct Hs as [Hok Hbody].
  rewrite (structured_send_success env s now r p Hb Hl Hr Hok Hbody).
  rewrite Hsid. cbn [fst Structured.state].
  match goal with
  | |- context [Structured.run _ ?s2 now'] =>
      destruct (structured_send_accepted env s2 now' Ht eq_refl)
        as (Hreq & _ & Hkeep)
  end.
  split.
  - rewrite Hreq. reflexivity.
  - apply Hkeep. exact Hp.
Qed.

Lemma second_submission_carries_sessionId_witness :
  Structured.requests
    (Structured.trace
       (fst (Structured.run (Structured.handleSendMessage ex_structured_env_up)
               (structured_typed
                  (Structured.state
                     (fst (Structured.run
                             (Structured.handleSendMessage ex_structured_env_up)
                             ex_structured_fresh 0%N)))
                  (lit "And the limitation period?"))
               5000%N)))
  = [Structured.PostChat
       (Structured.mkChatBody (lit "And the limitation period?")
                              (Some (lit "abc123")))].
Proof.
  destruct (second_submission_carries_sessionId ex_structured_env_up
              ex_structured_fresh 0%N 5000%N ex_chat_reply
              (lit "And the limitation period?")) as [H _].
  - reflexivity.
  - reflexivity.
  - reflexivity.
  - split; reflexivity.
  - reflexivity.
  - reflexivity.
  - exact H.
Defined.

(** ** The draft preview *)

Lemma or_else_truthy (v : option jsstring) (d : jsstring) :
  truthy_string d = true -> truthy_string (StructuredUI.or_else v d) = true.
Proof.
  intros Hd. unfold StructuredUI.or_else.
  destruct v as [x|]; [|exact Hd].
  destruct (truthy_string x) eqn:Hx; [exact Hx|exact Hd].
Qed.

Lemma or_else_falsy (v : option jsstring) (d : jsstring) :
  truthy v = false -> StructuredUI.or_else v d = d.
Proof.
  unfold StructuredUI.or_else. destruct v as [x|]; simpl; [|reflexivity].
  now intros ->.
Qed.

Lemma sectionTitle_truthy (section : Structured.DraftSection) (idx : nat) :
  truthy_string (StructuredUI.sectionTitle section idx) = true.
Proof.
  unfold StructuredUI.sectionTitle.
  repeat apply or_else_truthy. reflexivity.
Qed.

Lemma sectionTitlesFrom_nth (sections : list Structured.DraftSection) :
  forall (start i : nat) (section : Structured.DraftSection),
    nth_error sections i = Some section ->
    nth_error (StructuredUI.sectionTitlesFrom start sections) i
    = Some (StructuredUI.sectionTitle section (start + i)).
Proof.
  induction sections as [|x rest IH]; intros start i section H.
  - destruct i; discriminate.
  - destruct i as [|i]; simpl in *.
    + injection H as ->. now rewrite Nat.add_0_r.
    + rewrite (IH (S start) i section H). f_equal. f_equal. lia.
Qed.

Lemma sectionTitlesFrom_truthy (sections : list Structured.DraftSection) :
  forall start,
    Forall (fun title => truthy_string title = true)
           (StructuredUI.sectionTitlesFrom start sections).
Proof.
  induction sections as [|x rest IH]; intros start; simpl; constructor.
  - apply sectionTitle_truthy.
  - apply IH.
Qed.

Lemma sectionTitlesFrom_length (sections : list Structured.DraftSection) :
  forall start,
    List.length (StructuredUI.sectionTitlesFrom start sections)
    = List.length sections.
Proof.
  induction sections as [|x rest IH]; intros start; simpl; [reflexivity|].
  f_equal. apply IH.
Qed.

(** X19.  No section of the preview is rendered without a heading:
    whatever the draft, there is one heading per section and every
    heading is a non-empty text.  The heading is the name of the
    section if it has a non-empty one, else its title, else its label;
    a section with no usable name, title or label (each absent or empty)
    is headed "Section" and its position in the draft, counted from
    one. *)
Theorem sectionTitle_fallback_by_position
    (sections : list Structured.DraftSection) :
  Forall (fun title => truthy_string title = true)
         (StructuredUI.sectionTitles sections)
  /\ List.length (StructuredUI.sectionTitles sections) = List.length sections
  /\ (forall (i : nat) (section : Structured.DraftSection),
        nth_error sections i = Some section ->
        exists title,
          nth_error (StructuredUI.sectionTitles sections) i = Some title
          /\ (truthy (Structured.section_name section) = true ->
              Structured.section_name section = Some title)
          /\ (truthy (Structured.section_name section) = false ->
              truthy (Structured.section_title section) = true ->
              Structured.section_title section = Some title)
          /\ (truthy (Structured.section_name section) = false ->
              truthy (Structured.section_title section) = false ->
              truthy (Structured.section_label section) = true ->
              Structured.section_label section = Some title)
          /\ (truthy (Structured.section_name section) = false ->
              truthy (Structured.section_title section) = false ->
              truthy (Structured.section_label section) = false ->
              title = lit "Section " ++ StructuredUI.ordinal i))
  /\ StructuredUI.ordinal 0 = lit "1"
  /\ StructuredUI.ordinal 9 = lit "10"
  /\ StructuredUI.sectionTitles ex_sections = [lit "FACTS"; lit "Section 2"].
Proof.
  split; [apply sectionTitlesFrom_truthy|].
  split; [apply sectionTitlesFrom_length|].
  split; [|repeat split].
  intros i section Hnth. eexists. split.
  - unfold StructuredUI.sectionTitles.
    rewrite (sectionTitlesFrom_nth sections 0 i section Hnth). reflexivity.
  - simpl. unfold StructuredUI.sectionTitle.
    split; [|split; [|split]].
    + intros Hn. destruct (truthy_inv _ Hn) as (x & -> & Hx).
      simpl. now rewrite Hx.
    + intros Hn Ht. rewrite (or_else_falsy _ _ Hn).
      destruct (truthy_inv _ Ht) as (x & -> & Hx). simpl. now rewrite Hx.
    + intros Hn Ht Hl. rewrite (or_else_falsy _ _ Hn), (or_else_falsy _ _ Ht).
      destruct (truthy_inv _ Hl) as (x & -> & Hx). simpl. now rewrite Hx.
    + intros Hn Ht Hl.
      now rewrite (or_else_falsy _ _ Hn), (or_else_falsy _ _ Ht),
        (or_else_falsy _ _ Hl).
Qed.

(** The second section of [ex_sections] has an empty title and nothing
    else to go by. *)
Lemma sectionTitle_fallback_by_position_witness :
  nth_error (StructuredUI.sectionTitles ex_sections) 1 = Some (lit "Section 2").
Proof.
  destruct (sectionTitle_fallback_by_position ex_sections) as (_ & _ & H & _).
  destruct (H 1%nat (Structured.mkDraftSection None (Some []) None None
                       (Some (lit "...")))
              eq_refl)
    as (title & Hnth & _ & _ & _ & Hfallback).
  rewrite Hnth. f_equal. exact (Hfallback eq_refl eq_refl eq_refl).
Defined.

(** ** The feedback relay *)

(** X20.  The relay always answers with a status its own [Response]
    can be built with, so it never fails to answer.  Its answer is either
    the 502 of the [catch] branch, or the reply of the backend passed on:
    the same status, the same text, a non-empty content type, and caching
    forbidden.  It never turns a failure into a success: when the relay
    answers with a success status, the backend answered with that very
    status. *)
Theorem relay_forwards_or_bad_gateway
    (B : Type) (backend : B -> option FeedbackRoute.Upstream)
    (requestBody : option B) :
  FeedbackRoute.constructible
    (FeedbackRoute.route_status (FeedbackRoute.POST backend requestBody))
  = true
  /\ (FeedbackRoute.POST backend requestBody = FeedbackRoute.badGateway
      \/ exists b upstreamResponse text,
           requestBody = Some b
           /\ backend b = Some upstreamResponse
           /\ FeedbackRoute.upstream_text upstreamResponse = Some text
           /\ FeedbackRoute.route_status (FeedbackRoute.POST backend requestBody)
              = FeedbackRoute.upstream_status upstreamResponse
           /\ FeedbackRoute.route_body (FeedbackRoute.POST backend requestBody)
              = text
           /\ truthy_string
                (FeedbackRoute.contentType (FeedbackRoute.POST backend requestBody))
              = true
           /\ FeedbackRoute.cacheControl (FeedbackRoute.POST backend requestBody)
              = Some (lit "no-store"))
  /\ (ok (mkResponse
            (FeedbackRoute.route_status (FeedbackRoute.POST backend requestBody))
            (BodyObject tt))
      = false
      \/ exists b upstreamResponse,
           requestBody = Some b
           /\ backend b = Some upstreamResponse
           /\ FeedbackRoute.upstream_status upstreamResponse
              = FeedbackRoute.route_status (FeedbackRoute.POST backend requestBody)).
Proof.
  unfold FeedbackRoute.POST.
  destruct requestBody as [b|]; [|repeat split; auto].
  destruct (backend b) as [u|] eqn:Hb; [|repeat split; auto].
  destruct (FeedbackRoute.upstream_text u) as [text|] eqn:Ht;
    [|repeat split; auto].
  destruct (FeedbackRoute.constructible (FeedbackRoute.upstream_status u))
    eqn:Hc; [|repeat split; auto].
  simpl. split; [exact Hc|]. split.
  - right. exists b, u, text. repeat split; try assumption.
    destruct (FeedbackRoute.content_type u) as [t|]; [|reflexivity].
    destruct (truthy_string t) eqn:E; [exact E|reflexivity].
  - right. now exists b, u.
Qed.

(** ** The keyboard *)

Lemma structured_keypress_other (env : Structured.Env) (s : Structured.State)
    (now : N) (e : ChatUI.KeyEvent) :
  jsstring_eqb (ChatUI.key e) (lit "Enter") && negb (ChatUI.shiftKey e) = false ->
  Structured.run (fun snap => StructuredUI.onKeyPress env snap e) s now
  = (Structured.mkWorld s [] now, Ok tt).
Proof.
  intros He. unfold Structured.run, StructuredUI.onKeyPress. rewrite He.
  reflexivity.
Qed.

(** X21.  In both variants a key press in the message box that is not
    a plain Enter does nothing: a key other than Enter, and Enter with
    Shift held, change nothing and send nothing. *)
Theorem only_plain_enter_submits
    (cenv : Chat.Env) (cs : Chat.State)
    (senv : Structured.Env) (ss : Structured.State) (now : N)
    (e : ChatUI.KeyEvent) :
  ChatUI.key e <> lit "Enter" \/ ChatUI.shiftKey e = true ->
  Chat.run (fun snap => ChatUI.onKeyDown cenv snap e) cs
  = (Chat.mkWorld cs [], Ok tt)
  /\ Structured.run (fun snap => StructuredUI.onKeyPress senv snap e) ss now
     = (Structured.mkWorld ss [] now, Ok tt).
Proof.
  intros H.
  assert (He : jsstring_eqb (ChatUI.key e) (lit "Enter")
               && negb (ChatUI.shiftKey e) = false).
  { destruct H as [H|H].
    - unfold jsstring_eqb.
      destruct (list_eq_dec N.eq_dec (ChatUI.key e) (lit "Enter"));
        [contradiction|reflexivity].
    - rewrite H. apply andb_false_r. }
  split.
  - apply (chat_keydown_other cenv cs e He).
  - apply (structured_keypress_other senv ss now e He).
Qed.

(** Shift+Enter on a page with a text typed. *)
Lemma only_plain_enter_submits_witness :
  Chat.run (fun snap => ChatUI.onKeyDown ex_chat_env_up snap
                          (ChatUI.mkKeyEvent (lit "Enter") true))
           ex_chat_fresh
  = (Chat.mkWorld ex_chat_fresh [], Ok tt).
Proof.
  destruct (only_plain_enter_submits ex_chat_env_up ex_chat_fresh
              ex_structured_env_up ex_structured_fresh 0%N
              (ChatUI.mkKeyEvent (lit "Enter") true)) as [H _].
  - right. reflexivity.
  - exact H.
Defined.

(** ** Start-up *)

(** Each start-up task is its request followed by its continuation. *)
Lemma checkSystemHealth_splits
    (env : StructuredUI.Env) (st : Structured.State)
    (tr : list StructuredUI.Event) (t : N) :
  StructuredUI.checkSystemHealth env (StructuredUI.mkWorld st tr t)
  = bind (StructuredUI.emit (StructuredUI.Fetch StructuredUI.GetHealth))
      (fun _ =>
         bind (StructuredUI.waitUntil
                 (t + StructuredUI.elapsed env StructuredUI.GetHealth))
           (fun _ => StructuredUI.checkSystemHealth_settled env))
      (StructuredUI.mkWorld st tr t).
Proof.
  unfold StructuredUI.checkSystemHealth_settled, StructuredUI.waitUntil.
  unfold_structured_ui. simpl.
  replace (N.max t (t + StructuredUI.elapsed env StructuredUI.GetHealth))
    with (t + StructuredUI.elapsed env StructuredUI.GetHealth)%N by lia.
  destruct (StructuredUI.health_reply env) as [e|r]; reflexivity.
Qed.

Lemma loadTemplates_splits
    (env : StructuredUI.Env) (st : Structured.State)
    (tr : list StructuredUI.Event) (t : N) :
  StructuredUI.loadTemplates env (StructuredUI.mkWorld st tr t)
  = bind (StructuredUI.emit (StructuredUI.Fetch StructuredUI.GetTemplates))
      (fun _ =>
         bind (StructuredUI.waitUntil
                 (t + StructuredUI.elapsed env StructuredUI.GetTemplates))
           (fun _ => StructuredUI.loadTemplates_settled env))
      (StructuredUI.mkWorld st tr t).
Proof.
  unfold StructuredUI.loadTemplates_settled, StructuredUI.waitUntil.
  unfold_structured_ui. simpl.
  replace (N.max t (t + StructuredUI.elapsed env StructuredUI.GetTemplates))
    with (t + StructuredUI.elapsed env StructuredUI.GetTemplates)%N by lia.
  destruct (StructuredUI.templates_reply env) as [e|r]; reflexivity.
Qed.

(** The whole run of the effect, under a possible schedule. *)
Lemma onMount_run
    (env : StructuredUI.Env) (schedule : StructuredUI.Schedule)
    (s : Structured.State) (now : N) :
  StructuredUI.possible env schedule ->
  StructuredUI.run (StructuredUI.onMount env schedule) s now
  = (StructuredUI.mkWorld
       (Structured.mkState
          (health_stored (StructuredUI.health_reply env) (Structured.systemStatus s))
          (Structured.loading s)
          (Structured.messages s
             ++ [Structured.mkMessage
                   (health_verdict (StructuredUI.health_reply env))
                   (health_text (health_verdict (StructuredUI.health_reply env)))
                   (now + StructuredUI.elapsed env StructuredUI.GetHealth)%N])
          (Structured.input s) (Structured.sessionId s)
          (Structured.currentDraft s) (Structured.showDraft s)
          (templates_stored (StructuredUI.templates_reply env)
                            (Structured.templates s))
          (Structured.caseData s))
       (StructuredUI.Fetch StructuredUI.GetHealth
        :: StructuredUI.Fetch StructuredUI.GetTemplates
        :: match templates_answer (StructuredUI.templates_reply env) with
           | Some _ => []
           | None => [StructuredUI.ConsoleError "Error loading templates:"
                        (templates_error env)]
           end)
       (now + N.max (StructuredUI.elapsed env StructuredUI.GetHealth)
                    (StructuredUI.elapsed env StructuredUI.GetTemplates))%N,
     Ok tt).
Proof.
  intros Hp.
  unfold health_stored, health_verdict, templates_stored, templates_answer,
    templates_error.
  unfold StructuredUI.onMount, StructuredUI.checkSystemHealth_settled,
    StructuredUI.loadTemplates_settled, StructuredUI.waitUntil.
  unfold_structured_ui.
  destruct schedule; simpl in Hp.
  - assert (E1 : N.max now (now + StructuredUI.elapsed env StructuredUI.GetHealth)
                 = (now + StructuredUI.elapsed env StructuredUI.GetHealth)%N)
      by lia.
    assert (E2 : N.max (now + StructuredUI.elapsed env StructuredUI.GetHealth)
                       (now + StructuredUI.elapsed env StructuredUI.GetTemplates)
                 = (now + N.max (StructuredUI.elapsed env StructuredUI.GetHealth)
                                (StructuredUI.elapsed env StructuredUI.GetTemplates))%N)
      by lia.
    simpl.
    destruct (StructuredUI.health_reply env) as [eh|rh];
      destruct (StructuredUI.templates_reply env) as [et|rt]; simpl;
      try (destruct (body rh) as [| |h]; simpl; try (destruct h; simpl));
      try match goal with
          | |- context [is_string ?a ?b] => destruct (is_string a b); simpl
          end;
      try (destruct (ok rt); simpl;
           try (destruct (body rt) as [| |d]; simpl; try (destruct d; simpl)));
      rewrite ?E1, ?E2; reflexivity.
  - assert (E1 : N.max now (now + StructuredUI.elapsed env StructuredUI.GetTemplates)
                 = (now + StructuredUI.elapsed env StructuredUI.GetTemplates)%N)
      by lia.
    assert (E2 : N.max (now + StructuredUI.elapsed env StructuredUI.GetTemplates)
                       (now + StructuredUI.elapsed env StructuredUI.GetHealth)
                 = (now + StructuredUI.elapsed env StructuredUI.GetHealth)%N)
      by lia.
    assert (E3 : (now + N.max (StructuredUI.elapsed env StructuredUI.GetHealth)
                              (StructuredUI.elapsed env StructuredUI.GetTemplates))%N
                 = (now + StructuredUI.elapsed env StructuredUI.GetHealth)%N)
      by lia.
    rewrite E3. simpl.
    destruct (StructuredUI.health_reply env) as [eh|rh];
      destruct (StructuredUI.templates_reply env) as [et|rt]; simpl;
      try (destruct (body rh) as [| |h]; simpl; try (destruct h; simpl));
      try match goal with
          | |- context [is_string ?a ?b] => destruct (is_string a b); simpl
          end;
      try (destruct (ok rt); simpl;
           try (destruct (body rt) as [| |d]; simpl; try (destruct d; simpl)));
      rewrite ?E1, ?E2; reflexivity.
Qed.

(** X22.  The effect run on mount sends both requests before either
    settles, the health check first, whichever of them settles first.
    Under every possible schedule the run ends normally and leaves the
    same store: the status and the one turn of the health check,
    stamped with the time its own request settled, and the catalog of
    the template load; nothing else is logged than the error of a
    failed template load.  Each task run alone is its request followed
    by the continuation the schedule runs. *)
Theorem startup_tasks_commute
    (env : StructuredUI.Env) (schedule : StructuredUI.Schedule)
    (s : Structured.State) (now : N) :
  StructuredUI.possible env schedule ->
  StructuredUI.run (StructuredUI.onMount env schedule) s now
  = (StructuredUI.mkWorld
       (Structured.mkState
          (health_stored (StructuredUI.health_reply env) (Structured.systemStatus s))
          (Structured.loading s)
          (Structured.messages s
             ++ [Structured.mkMessage
                   (health_verdict (StructuredUI.health_reply env))
                   (health_text (health_verdict (StructuredUI.health_reply env)))
                   (now + StructuredUI.elapsed env StructuredUI.GetHealth)%N])
          (Structured.input s) (Structured.sessionId s)
          (Structured.currentDraft s) (Structured.showDraft s)
          (templates_stored (StructuredUI.templates_reply env)
                            (Structured.templates s))
          (Structured.caseData s))
       (StructuredUI.Fetch StructuredUI.GetHealth
        :: StructuredUI.Fetch StructuredUI.GetTemplates
        :: match templates_answer (StructuredUI.templates_reply env) with
           | Some _ => []
           | None => [StructuredUI.ConsoleError "Error loading templates:"
                        (templates_error env)]
           end)
       (now + N.max (StructuredUI.elapsed env StructuredUI.GetHealth)
                    (StructuredUI.elapsed env StructuredUI.GetTemplates))%N,
     Ok tt)
  /\ StructuredUI.requests
       (StructuredUI.trace
          (fst (StructuredUI.run (StructuredUI.onMount env schedule) s now)))
     = [StructuredUI.GetHealth; StructuredUI.GetTemplates]
  /\ (forall w,
        StructuredUI.checkSystemHealth env w
        = bind (StructuredUI.emit (StructuredUI.Fetch StructuredUI.GetHealth))
            (fun _ =>
               bind (StructuredUI.waitUntil
                       (StructuredUI.clock w
                        + StructuredUI.elapsed env StructuredUI.GetHealth))
                 (fun _ => StructuredUI.checkSystemHealth_settled env)) w)
  /\ (forall w,
        StructuredUI.loadTemplates env w
        = bind (StructuredUI.emit (StructuredUI.Fetch StructuredUI.GetTemplates))
            (fun _ =>
               bind (StructuredUI.waitUntil
                       (StructuredUI.clock w
                        + StructuredUI.elapsed env StructuredUI.GetTemplates))
                 (fun _ => StructuredUI.loadTemplates_settled env)) w).
Proof.
  intros Hp.
  assert (Hh : forall w,
            StructuredUI.checkSystemHealth env w
            = bind (StructuredUI.emit (StructuredUI.Fetch StructuredUI.GetHealth))
                (fun _ =>
                   bind (StructuredUI.waitUntil
                           (StructuredUI.clock w
                            + StructuredUI.elapsed env StructuredUI.GetHealth))
                     (fun _ => StructuredUI.checkSystemHealth_settled env)) w).
  { intros [st tr t]. apply checkSystemHealth_splits. }
  assert (Ht : forall w,
            StructuredUI.loadTemplates env w
            = bind (StructuredUI.emit (StructuredUI.Fetch StructuredUI.GetTemplates))
                (fun _ =>
                   bind (StructuredUI.waitUntil
                           (StructuredUI.clock w
                            + StructuredUI.elapsed env StructuredUI.GetTemplates))
                     (fun _ => StructuredUI.loadTemplates_settled env)) w).
  { intros [st tr t]. apply loadTemplates_splits. }
  assert (Hrun := onMount_run env schedule s now Hp).
  split; [exact Hrun|]. split; [|split; [exact Hh|exact Ht]].
  rewrite Hrun. simpl.
  destruct (templates_answer (StructuredUI.templates_reply env)); reflexivity.
Qed.

(** The template load settles first, after 25 ms, and the health check
    after 40 ms: the turn is stamped 40. *)
Lemma startup_tasks_commute_witness :
  StructuredUI.possible ex_structured_env_startup StructuredUI.TemplatesFirst
  /\ StructuredUI.run
       (StructuredUI.onMount ex_structured_env_startup StructuredUI.TemplatesFirst)
       StructuredUI.initial 0
     = (StructuredUI.mkWorld
          (Structured.mkState
             (JObject [(lit "status", JString (lit "healthy"));
                       (lit "openai", JString (lit "connected"))])
             false
             [Structured.mkMessage Structured.system
                (lit "System initialized successfully! Ready to draft petitions.")
                40]
             [] None None false
             (JArray [JString (lit "civil_revision");
                      JString (lit "writ_petition")])
             (Structured.caseData StructuredUI.initial))
          [StructuredUI.Fetch StructuredUI.GetHealth;
           StructuredUI.Fetch StructuredUI.GetTemplates]
          40,
        Ok tt).
Proof.
  assert (H : StructuredUI.possible ex_structured_env_startup
                StructuredUI.TemplatesFirst).
  { simpl. lia. }
  split; [exact H|].
  destruct (startup_tasks_commute ex_structured_env_startup
              StructuredUI.TemplatesFirst StructuredUI.initial 0 H)
    as [Hrun _].
  rewrite Hrun. reflexivity.
Defined.

(** ** Success replies without a usable body *)

(** X23.  A reply whose body is [null] or is not JSON is no usable
    reply, even when its status is a success status.  The chat variant
    treats it as a failed exchange: the handler ends normally and the
    thread gains the user turn and the fixed apology.  So does the
    structured variant when the status is outside 200-299 or when no
    session id is stored yet (reading the id from the reply fails
    inside the [try] block): the thread gains the user turn and the
    fixed error turn.  With a success status and a session id stored,
    the structured variant reads the reply only in the updater it hands
    to [setMessages]: the [catch] block is skipped, the [TypeError]
    surfaces uncaught, and the thread gains the user turn alone.  The
    stored session id is kept in every case. *)
Theorem submit_success_without_body_is_failure
    (cenv : Chat.Env) (cs : Chat.State) (cr : Response Chat.PetitionData)
    (senv : Structured.Env) (ss : Structured.State) (now : N)
    (sr : Response (Structured.Payload Structured.ChatReply)) :
  blank (Chat.input cs) = false ->
  Chat.loading cs = false ->
  Chat.petition_reply cenv (chat_request cs) = Resolved cr ->
  body cr = BodyNull \/ body cr = BodyInvalid ->
  blank (Structured.input ss) = false ->
  Structured.loading ss = false ->
  Structured.chat_reply senv (structured_request ss) = Resolved sr ->
  body sr = BodyNull \/ body sr = BodyInvalid ->
  (snd (Chat.run (Chat.handleSubmit cenv) cs) = Ok tt
   /\ Chat.messages (Chat.state (fst (Chat.run (Chat.handleSubmit cenv) cs)))
      = Chat.messages cs
          ++ [Chat.mkMessage Chat.user (Chat.input cs) None None;
              Chat.errorMessage])
  /\
  (Structured.sessionId
     (Structured.state
        (fst (Structured.run (Structured.handleSendMessage senv) ss now)))
   = Structured.sessionId ss
   /\ (ok sr = false \/ truthy (Structured.sessionId ss) = false ->
       snd (Structured.run (Structured.handleSendMessage senv) ss now) = Ok tt
       /\ Structured.loading
            (Structured.state
               (fst (Structured.run (Structured.handleSendMessage senv) ss now)))
          = false
       /\ Structured.messages
            (Structured.state
               (fst (Structured.run (Structured.handleSendMessage senv) ss now)))
          = Structured.messages ss
              ++ [Structured.mkMessage Structured.user (Structured.input ss) now;
                  structured_error_turn
                    (now + Structured.elapsed senv
                             (Structured.PostChat (structured_request ss)))%N])
   /\ (ok sr = true -> truthy (Structured.sessionId ss) = true ->
       snd (Structured.run (Structured.handleSendMessage senv) ss now)
       = Throw (Structured.typeError senv)
       /\ Structured.messages
            (Structured.state
               (fst (Structured.run (Structured.handleSendMessage senv) ss now)))
          = Structured.messages ss
              ++ [Structured.mkMessage Structured.user
                    (Structured.input ss) now])).
Proof.
  intros Hcb Hcl Hcr Hcbody Hsb Hsl Hsr Hsbody.
  destruct (chat_submit_accepted cenv cs Hcb Hcl) as (Hres & Hst & _).
  assert (Hturn : chat_reply_turn cenv cs = Chat.errorMessage).
  { unfold chat_reply_turn. rewrite Hcr.
    destruct (ok cr); [|reflexivity].
    destruct Hcbody as [->| ->]; reflexivity. }
  assert (Hnone : forall p, body sr <> BodyObject p).
  { intros p. destruct Hsbody as [->| ->]; discriminate. }
  assert (Hcaught : ok sr = false \/ truthy (Structured.sessionId ss) = false ->
            transport_failure (Structured.chat_reply senv (structured_request ss))
            \/ (structured_exchange_fails
                  (Structured.chat_reply senv (structured_request ss))
                /\ truthy (Structured.sessionId ss) = false)).
  { rewrite Hsr. simpl. intros [H|H]; [now left|right].
    split; [|exact H]. right. destruct Hsbody as [->| ->]; exact I. }
  split; [rewrite Hst, Hturn; simpl; split; [exact Hres|reflexivity]|].
  split; [|split].
  - destruct (structured_send_accepted senv ss now Hsb Hsl) as (_ & _ & Hsid).
    destruct (Bool.bool_dec (truthy (Structured.sessionId ss)) true)
      as [Hs|Hs]; [now apply Hsid|].
    apply Bool.not_true_is_false in Hs.
    rewrite (structured_send_failure senv ss now Hsb Hsl
               (Hcaught (or_intror Hs))).
    reflexivity.
  - intros H.
    rewrite (structured_send_failure senv ss now Hsb Hsl (Hcaught H)).
    split; [reflexivity|split; reflexivity].
  - intros Hok Hs.
    rewrite (structured_send_uncaught senv ss now sr Hsb Hsl Hsr Hok Hnone Hs).
    split; reflexivity.
Qed.

(** A backend that answers 200 with an empty body, to a session of the
    chat variant and to a session of the structured variant that
    already holds a session id. *)
Lemma submit_success_without_body_is_failure_witness :
  Chat.messages
    (Chat.state
       (fst (Chat.run
               (Chat.handleSubmit
                  (Chat.mkEnv (fun _ => Resolved (mkResponse 200 BodyInvalid))
                              (Chat.feedback_reply ex_chat_env_up)
                              (Chat.typeError ex_chat_env_up)
                              (Chat.syntaxError ex_chat_env_up)))
               ex_chat_fresh)))
  = [Chat.mkMessage Chat.user ex_text None None; Chat.errorMessage]
  /\ snd (Structured.run
            (Structured.handleSendMessage
               (Structured.mkEnv
                  (fun _ => Resolved (mkResponse 200 BodyNull))
                  (Structured.generate_reply ex_structured_env_up)
                  (Structured.finalize_reply ex_structured_env_up)
                  (Structured.elapsed ex_structured_env_up)
                  (Structured.prompt_reply ex_structured_env_up)
                  (Structured.typeError ex_structured_env_up)))
            ex_structured_resumed 0%N)
     = Throw (Structured.typeError ex_structured_env_up)
  /\ Structured.messages
       (Structured.state
          (fst (Structured.run
                  (Structured.handleSendMessage
                     (Structured.mkEnv
                        (fun _ => Resolved (mkResponse 200 BodyNull))
                        (Structured.generate_reply ex_structured_env_up)
                        (Structured.finalize_reply ex_structured_env_up)
                        (Structured.elapsed ex_structured_env_up)
                        (Structured.prompt_reply ex_structured_env_up)
                        (Structured.typeError ex_structured_env_up)))
                  ex_structured_resumed 0%N)))
     = [Structured.mkMessage Structured.user ex_text 0].
Proof.
  destruct (submit_success_without_body_is_failure
              (Chat.mkEnv (fun _ => Resolved (mkResponse 200 BodyInvalid))
                          (Chat.feedback_reply ex_chat_env_up)
                          (Chat.typeError ex_chat_env_up)
                          (Chat.syntaxError ex_chat_env_up))
              ex_chat_fresh (mkResponse 200 BodyInvalid)
              (Structured.mkEnv
                 (fun _ => Resolved (mkResponse 200 BodyNull))
                 (Structured.generate_reply ex_structured_env_up)
                 (Structured.finalize_reply ex_structured_env_up)
                 (Structured.elapsed ex_structured_env_up)
                 (Structured.prompt_reply ex_structured_env_up)
                 (Structured.typeError ex_structured_env_up))
              ex_structured_resumed 0%N
              (mkResponse 200 BodyNull))
    as [[_ H] (_ & _ & Huncaught)].
  - reflexivity.
  - reflexivity.
  - reflexivity.
  - right. reflexivity.
  - reflexivity.
  - reflexivity.
  - reflexivity.
  - left. reflexivity.
  - destruct (Huncaught eq_refl eq_refl) as [Hthrow Hthread].
    split; [exact H|]. split; [exact Hthrow|exact Hthread].
Defined.
